(** * NARA pilot ingest: a shallow embedding of the import pipeline

    The development follows the layout of [scripts/nara_import]:
    - [PyStr]      the few Python string and list primitives the code relies on;
    - [NaraPi]     [lib/nara_pi.py] (semantic identifiers and their parser);
    - [Json]       JSON documents and [json.dumps(..., sort_keys=True)];
    - [Sha256]     the digest computed by [hashlib.sha256];
    - [HashUtils]  [lib/nara_hash_utils.py];
    - [Schema]     [nara_schema.py];
    - [Client]     [arke_api_client.py];
    - [Importer]   [lib/nara_importer.py];
    - [Checkpoint] the checkpoint code of the two driver scripts;
    - [Driver]     [extract_hierarchy_info] and [import_record] of the drivers;
    - [LimitedRun] the loops of [main] in [import_limited.py];
    - [Scenarios]  stub remotes and inputs for concrete runs.
    The properties follow, one module of facts for each of these. *)

From Stdlib Require Import ZArith Ascii String Permutation Sorted.
From stdpp Require Import gmap strings list fin_maps pretty sorting.

Local Open Scope string_scope.
Local Open Scope Z_scope.
Local Open Scope list_scope.

(** Python exceptions that the modelled code raises or lets through. *)
Inductive exn : Type :=
| ValueError
| IndexError
| KeyError
| TypeError
| RequestException
| HashComputationError
| ArkeAPIError
| ArkeValidationError
| ArkeNotFoundError
| ArkeConflictError
| AttributeError.

(** The outcome of a call: a value, or a raised exception. *)
Inductive result (A : Type) : Type :=
| Ok (a : A)
| Raise (e : exn).
Arguments Ok {A} a.
Arguments Raise {A} e.

Definition is_ok {A} (r : result A) : bool :=
  match r with Ok _ => true | Raise _ => false end.

(* ------------------------------------------------------------------ *)
(** ** Python primitives *)

Module PyStr.

(** [s.split(sep)] for a one-character separator: never returns the empty
    list, and an empty input gives one empty part. *)
Fixpoint split (sep : ascii) (s : string) : list string :=
  match s with
  | EmptyString => [EmptyString]
  | String c s' =>
      if Ascii.eqb c sep then EmptyString :: split sep s'
      else match split sep s' with
           | [] => [String c EmptyString]
           | p :: ps => String c p :: ps
           end
  end.

(** [sep.join(parts)]. *)
Fixpoint join (sep : string) (parts : list string) : string :=
  match parts with
  | [] => EmptyString
  | [p] => p
  | p :: ps => p +:+ sep +:+ join sep ps
  end.

(** [c in s] for a character. *)
Fixpoint has_char (c : ascii) (s : string) : bool :=
  match s with
  | EmptyString => false
  | String d s' => Ascii.eqb d c || has_char c s'
  end.

(** [l[i]] with Python's negative indices; out of range is an IndexError. *)
Definition index {A} (l : list A) (i : Z) : result A :=
  let n := Z.of_nat (length l) in
  let j := if i <? 0 then i + n else i in
  if (j <? 0) || (n <=? j) then Raise IndexError
  else match l !! Z.to_nat j with
       | Some x => Ok x
       | None => Raise IndexError
       end.

(** A slice bound is shifted by the length when negative, then clamped. *)
Definition clamp (n i : Z) : Z :=
  let j := if i <? 0 then i + n else i in
  Z.max 0 (Z.min n j).

(** [l[lo:hi]]. *)
Definition slice {A} (l : list A) (lo hi : Z) : list A :=
  let n := Z.of_nat (length l) in
  let a := clamp n lo in
  let b := clamp n hi in
  take (Z.to_nat (b - a)) (drop (Z.to_nat a) l).

(** [str(n)] for an integer. *)
Definition str_of_int (n : Z) : string := pretty n.
Global Arguments str_of_int : simpl never.

End PyStr.

(* ------------------------------------------------------------------ *)
(** ** [lib/nara_pi.py] *)

Module NaraPi.

(** [nara_id: str | int], as the f-string formats it. *)
Inductive nara_id : Type :=
| IdStr (s : string)
| IdInt (n : Z).

Definition format_id (i : nara_id) : string :=
  match i with
  | IdStr s => s
  | IdInt n => PyStr.str_of_int n
  end.

(** [f"NARA-{collection_id}-{entity_type}-{nara_id}"]. *)
Definition generate_semantic_id
    (collection_id entity_type : string) (nid : nara_id) : string :=
  "NARA-" +:+ collection_id +:+ "-" +:+ entity_type +:+ "-" +:+ format_id nid.

(** The dictionary [parse_pi] returns. *)
Record parsed_pi : Type := mk_parsed {
  prefix : string;
  collection_id : string;
  entity_type : string;
  nara_id_part : string;
  ulid : string
}.

Definition valid_types : list string := ["COL"; "SER"; "FILE"; "OBJ"].

Definition parse_pi (pi : string) : result parsed_pi :=
  let parts := PyStr.split "-" pi in
  if (length parts <? 6)%nat then Raise ValueError
  else
    match PyStr.index parts 0 with
    | Raise e => Raise e
    | Ok prefix =>
        if negb (String.eqb prefix "NARA") then Raise ValueError
        else
          match PyStr.index parts (-3), PyStr.index parts (-2),
                PyStr.index parts (-1) with
          | Ok entity_type, Ok nid, Ok ulid =>
              let collection_id := PyStr.join "-" (PyStr.slice parts 1 (-3)) in
              if negb (existsb (String.eqb entity_type) valid_types)
              then Raise ValueError
              else Ok (mk_parsed prefix collection_id entity_type nid ulid)
          | Raise e, _, _ => Raise e
          | _, Raise e, _ => Raise e
          | _, _, Raise e => Raise e
          end
    end.

(** [try: parse_pi(pi); return True; except (ValueError, IndexError): return False].
    Any other exception would propagate; [parse_pi] raises no other. *)
Definition is_valid_pi (pi : string) : result bool :=
  match parse_pi pi with
  | Ok _ => Ok true
  | Raise ValueError => Ok false
  | Raise IndexError => Ok false
  | Raise e => Raise e
  end.

(** [parse_pi(pi)["nara_id"]]. *)
Definition extract_nara_id (pi : string) : result string :=
  match parse_pi pi with
  | Ok p => Ok (nara_id_part p)
  | Raise e => Raise e
  end.

(** [parse_pi(pi)["entity_type"]]. *)
Definition extract_entity_type (pi : string) : result string :=
  match parse_pi pi with
  | Ok p => Ok (entity_type p)
  | Raise e => Raise e
  end.

End NaraPi.

(* ------------------------------------------------------------------ *)
(** ** SHA-256, the digest behind [hashlib.sha256] (FIPS 180-4) *)

Module Sha256.

Definition w32 : Z := 2 ^ 32.
Definition add32 (a b : Z) : Z := (a + b) mod w32.
Definition rotr (n x : Z) : Z :=
  Z.lor (Z.shiftr x n) (Z.shiftl x (32 - n)) mod w32.
Definition shr (n x : Z) : Z := Z.shiftr x n.
Definition not32 (x : Z) : Z := w32 - 1 - x.

Definition Ch (x y z : Z) : Z := Z.lxor (Z.land x y) (Z.land (not32 x) z).
Definition Maj (x y z : Z) : Z :=
  Z.lxor (Z.lxor (Z.land x y) (Z.land x z)) (Z.land y z).
Definition Sigma0 (x : Z) : Z := Z.lxor (Z.lxor (rotr 2 x) (rotr 13 x)) (rotr 22 x).
Definition Sigma1 (x : Z) : Z := Z.lxor (Z.lxor (rotr 6 x) (rotr 11 x)) (rotr 25 x).
Definition sigma0 (x : Z) : Z := Z.lxor (Z.lxor (rotr 7 x) (rotr 18 x)) (shr 3 x).
Definition sigma1 (x : Z) : Z := Z.lxor (Z.lxor (rotr 17 x) (rotr 19 x)) (shr 10 x).

Definition K : list Z :=
  [1116352408; 1899447441; 3049323471; 3921009573; 961987163; 1508970993;
   2453635748; 2870763221; 3624381080; 310598401; 607225278; 1426881987;
   1925078388; 2162078206; 2614888103; 3248222580; 3835390401; 4022224774;
   264347078; 604807628; 770255983; 1249150122; 1555081692; 1996064986;
   2554220882; 2821834349; 2952996808; 3210313671; 3336571891; 3584528711;
   113926993; 338241895; 666307205; 773529912; 1294757372; 1396182291;
   1695183700; 1986661051; 2177026350; 2456956037; 2730485921; 2820302411;
   3259730800; 3345764771; 3516065817; 3600352804; 4094571909; 275423344;
   430227734; 506948616; 659060556; 883997877; 958139571; 1322822218;
   1537002063; 1747873779; 1955562222; 2024104815; 2227730452; 2361852424;
   2428436474; 2756734187; 3204031479; 3329325298].

(** The eight working registers. *)
Record regs : Type := mk_regs {
  ra : Z; rb : Z; rc : Z; rd : Z; re : Z; rf : Z; rg : Z; rh : Z
}.

Definition H0 : regs :=
  mk_regs 1779033703 3144134277 1013904242 2773480762
          1359893119 2600822924 528734635 1541459225.

(** Big-endian reading of bytes as one number. *)
Definition be_value (bs : list Z) : Z :=
  fold_left (fun acc b => acc * 256 + b) bs 0.

(** The sixteen words of a 64-byte block. *)
Fixpoint words (n : nat) (bs : list Z) : list Z :=
  match n with
  | O => []
  | S n' => be_value (take 4 bs) :: words n' (drop 4 bs)
  end.

(** The message schedule, most recent word first: [rev] gives W0..W63. *)
Fixpoint schedule (n : nat) (w : list Z) : list Z :=
  match n with
  | O => w
  | S n' =>
      let wt := add32 (add32 (sigma1 (nth 1 w 0)) (nth 6 w 0))
                      (add32 (sigma0 (nth 14 w 0)) (nth 15 w 0)) in
      schedule n' (wt :: w)
  end.

Definition round (r : regs) (kw : Z * Z) : regs :=
  let '(k, w) := kw in
  let t1 := add32 (add32 (add32 (rh r) (Sigma1 (re r))) (Ch (re r) (rf r) (rg r)))
                  (add32 k w) in
  let t2 := add32 (Sigma0 (ra r)) (Maj (ra r) (rb r) (rc r)) in
  mk_regs (add32 t1 t2) (ra r) (rb r) (rc r) (add32 (rd r) t1) (re r) (rf r) (rg r).

Definition compress (h : regs) (block : list Z) : regs :=
  let w := rev (schedule 48 (rev (words 16 block))) in
  let r := fold_left round (combine K w) h in
  mk_regs (add32 (ra h) (ra r)) (add32 (rb h) (rb r)) (add32 (rc h) (rc r))
          (add32 (rd h) (rd r)) (add32 (re h) (re r)) (add32 (rf h) (rf r))
          (add32 (rg h) (rg r)) (add32 (rh h) (rh r)).

(** [n] as [k] big-endian bytes. *)
Fixpoint be_bytes (k : nat) (n : Z) : list Z :=
  match k with
  | O => []
  | S k' => be_bytes k' (n / 256) ++ [n mod 256]
  end.

(** Padding: a 1 bit, zeros up to 56 modulo 64, then the bit length on 8 bytes. *)
Definition pad (msg : list Z) : list Z :=
  let len := Z.of_nat (length msg) in
  let zeros := Z.to_nat ((55 - len) mod 64) in
  msg ++ [128] ++ repeat 0 zeros ++ be_bytes 8 (8 * len).

(** Cut into 64-byte blocks; [fuel] bounds the number of blocks. *)
Fixpoint blocks (fuel : nat) (bs : list Z) : list (list Z) :=
  match fuel with
  | O => []
  | S f =>
      match bs with
      | [] => []
      | _ => take 64 bs :: blocks f (drop 64 bs)
      end
  end.

Definition byte_val (b : Byte.byte) : Z := Z.of_N (Byte.to_N b).

Definition digest (msg : list Byte.byte) : regs :=
  let p := pad (map byte_val msg) in
  fold_left compress (blocks (length p) p) H0.

Definition hex_digit (n : Z) : ascii :=
  nth (Z.to_nat (n mod 16))
      ["0"; "1"; "2"; "3"; "4"; "5"; "6"; "7"; "8"; "9";
       "a"; "b"; "c"; "d"; "e"; "f"]%char "0"%char.

(** [k] hexadecimal digits of [n], most significant first. *)
Fixpoint hex_word (k : nat) (n : Z) (acc : string) : string :=
  match k with
  | O => acc
  | S k' => hex_word k' (n / 16) (String (hex_digit n) acc)
  end.

Definition hex_of_regs (r : regs) : string :=
  hex_word 8 (ra r) (hex_word 8 (rb r) (hex_word 8 (rc r) (hex_word 8 (rd r)
  (hex_word 8 (re r) (hex_word 8 (rf r) (hex_word 8 (rg r)
  (hex_word 8 (rh r) EmptyString))))))).

(** [hashlib.sha256(msg).hexdigest()]. *)
Definition sha256_hex (msg : list Byte.byte) : string := hex_of_regs (digest msg).

(** The object [hashlib.sha256()] returns: [update] appends to the message
    fed so far, [hexdigest] is the digest of all of it. *)
Record hasher : Type := mk_hasher { fed : list Byte.byte }.
Definition new : hasher := mk_hasher [].
Definition update (h : hasher) (chunk : list Byte.byte) : hasher :=
  mk_hasher (fed h ++ chunk).
Definition hexdigest (h : hasher) : string := sha256_hex (fed h).

(** A character of a lower-case hexadecimal string. *)
Definition is_lower_hex (c : ascii) : bool :=
  let n := N_of_ascii c in
  ((48 <=? n) && (n <=? 57) || (97 <=? n) && (n <=? 102))%N.

Fixpoint all_chars (p : ascii -> bool) (s : string) : bool :=
  match s with
  | EmptyString => true
  | String c s' => p c && all_chars p s'
  end.

End Sha256.

(* ------------------------------------------------------------------ *)
(** ** JSON documents and [json.dumps(data, sort_keys=True)] *)

Module Json.

(** The values the pipeline serialises. A dictionary keeps its items in
    insertion order, as a Python [dict] does; its keys are strings. Numbers
    are integers: the records the importer builds hold no float, and
    floats are not modelled. *)
#[local] Unset Elimination Schemes.
Inductive json : Type :=
| JNull
| JBool (b : bool)
| JInt (n : Z)
| JStr (s : string)
| JList (l : list json)
| JDict (items : list (string * json)).
#[local] Set Elimination Schemes.

(** [d.get(k)]: the value stored under [k], if any. *)
Fixpoint dict_get (k : string) (items : list (string * json)) : option json :=
  match items with
  | [] => None
  | (k', v) :: rest => if String.eqb k' k then Some v else dict_get k rest
  end.

(** [d[k] = v]: overwrite in place, or append a new item. *)
Fixpoint dict_set (k : string) (v : json) (items : list (string * json))
  : list (string * json) :=
  match items with
  | [] => [(k, v)]
  | (k', v') :: rest =>
      if String.eqb k' k then (k, v) :: rest else (k', v') :: dict_set k v rest
  end.

Definition keys (items : list (string * json)) : list string := map fst items.

(** Python truthiness of a value ([if x:]). *)
Definition truthy (j : json) : bool :=
  match j with
  | JNull => false
  | JBool b => b
  | JInt n => negb (n =? 0)
  | JStr s => negb (String.eqb s EmptyString)
  | JList l => negb (Nat.eqb (length l) 0)
  | JDict d => negb (Nat.eqb (length d) 0)
  end.

(** [l] holds no string twice. *)
Fixpoint distinct (l : list string) : bool :=
  match l with
  | [] => true
  | k :: r => negb (existsb (String.eqb k) r) && distinct r
  end.

(** Well-formed documents: no dictionary holds a key twice. *)
Fixpoint wf (j : json) : bool :=
  match j with
  | JList l =>
      (fix all l := match l with [] => true | x :: r => wf x && all r end) l
  | JDict d =>
      distinct (map fst d)
      && (fix all d := match d with [] => true | kv :: r => wf (snd kv) && all r end) d
  | _ => true
  end.

(** Equality of documents up to the order of the items of dictionaries,
    at every depth: the same number of items, and every key of the left one
    is bound on the right to an equal value. Lists are compared pointwise,
    and scalars as JSON values, by constructor and value: a boolean is
    never equal to an integer. This is finer than Python's [==], which is
    [py_equal] below. *)
Fixpoint same_mapping (a b : json) : bool :=
  match a, b with
  | JNull, JNull => true
  | JBool x, JBool y => Bool.eqb x y
  | JInt x, JInt y => x =? y
  | JStr x, JStr y => String.eqb x y
  | JList l1, JList l2 =>
      (fix go l1 l2 :=
         match l1, l2 with
         | [], [] => true
         | x :: r1, y :: r2 => same_mapping x y && go r1 r2
         | _, _ => false
         end) l1 l2
  | JDict d1, JDict d2 =>
      Nat.eqb (length d1) (length d2)
      && (fix go d1 :=
            match d1 with
            | [] => true
            | kv :: r =>
                match dict_get (fst kv) d2 with
                | Some v' => same_mapping (snd kv) v'
                | None => false
                end && go r
            end) d1
  | _, _ => false
  end.

(** Python's [a == b] on these values. Dictionaries are compared as
    mappings and lists pointwise, as in [same_mapping], but [bool] is a
    subclass of [int]: [True == 1] and [False == 0]. *)
Fixpoint py_equal (a b : json) : bool :=
  match a, b with
  | JNull, JNull => true
  | JBool x, JBool y => Bool.eqb x y
  | JInt x, JInt y => x =? y
  | JBool x, JInt y => (if x then 1 else 0) =? y
  | JInt x, JBool y => x =? (if y then 1 else 0)
  | JStr x, JStr y => String.eqb x y
  | JList l1, JList l2 =>
      (fix go l1 l2 :=
         match l1, l2 with
         | [], [] => true
         | x :: r1, y :: r2 => py_equal x y && go r1 r2
         | _, _ => false
         end) l1 l2
  | JDict d1, JDict d2 =>
      Nat.eqb (length d1) (length d2)
      && (fix go d1 :=
            match d1 with
            | [] => true
            | kv :: r =>
                match dict_get (fst kv) d2 with
                | Some v' => py_equal (snd kv) v'
                | None => false
                end && go r
            end) d1
  | _, _ => false
  end.

Definition quote : ascii := "034"%char.
Definition backslash : ascii := "092"%char.

Definition hex4 (n : N) : string :=
  Sha256.hex_word 4 (Z.of_N n) EmptyString.

(** One character through [ESCAPE_ASCII]: quote and backslash are escaped,
    the usual control characters have short forms, and everything else
    outside space..tilde becomes [\uXXXX]. *)
Definition escape_char (c : ascii) : string :=
  let n := N_of_ascii c in
  if (n =? 34)%N then String backslash (String quote EmptyString)
  else if (n =? 92)%N then String backslash (String backslash EmptyString)
  else if (n =? 10)%N then String backslash "n"
  else if (n =? 13)%N then String backslash "r"
  else if (n =? 9)%N then String backslash "t"
  else if (n =? 12)%N then String backslash "f"
  else if (n =? 8)%N then String backslash "b"
  else if ((n <? 32) || (126 <? n))%N then String backslash ("u" +:+ hex4 n)
  else String c EmptyString.

Fixpoint escape (s : string) : string :=
  match s with
  | EmptyString => EmptyString
  | String c s' => escape_char c +:+ escape s'
  end.

(** [encode_basestring_ascii]. *)
Definition encode_str (s : string) : string :=
  String quote (escape s +:+ String quote EmptyString).

(** Items are ordered by key, compared as Python compares [str]. *)
Definition key_le {A} (x y : string * A) : Prop := String.le (fst x) (fst y).

Global Instance key_le_dec {A} : RelDecision (@key_le A).
Proof. intros x y. unfold key_le. apply _. Defined.

Definition sort_items {A} (items : list (string * A)) : list (string * A) :=
  merge_sort key_le items.

Definition render_item (kv : string * string) : string :=
  encode_str (fst kv) +:+ ": " +:+ snd kv.

(** [json.dumps(j, sort_keys=True)], with the default separators and
    [ensure_ascii]. The encoder sorts the items of a dictionary and then
    renders each value; here the values are rendered first and the rendered
    items sorted, which is the same list because the order looks at keys
    only (see [JsonFacts.sort_items_map]). *)
Fixpoint dumps (j : json) : string :=
  match j with
  | JNull => "null"
  | JBool true => "true"
  | JBool false => "false"
  | JInt n => PyStr.str_of_int n
  | JStr s => encode_str s
  | JList l => "[" +:+ PyStr.join ", " (map dumps l) +:+ "]"
  | JDict d =>
      "{" +:+ PyStr.join ", "
                (map render_item
                     (sort_items (map (fun kv => (fst kv, dumps (snd kv))) d)))
          +:+ "}"
  end.

(** [s.encode("utf-8")] of an ASCII string. *)
Definition encode_utf8 (s : string) : list Byte.byte := list_byte_of_string s.

Definition newline : ascii := "010"%char.

(** [indent * level]. *)
Fixpoint repeat_str (s : string) (n : nat) : string :=
  match n with
  | O => EmptyString
  | S n' => s +:+ repeat_str s n'
  end.

(** [json.dumps(j, indent=..., sort_keys=True)]: with an indent the item
    separator is a comma, every item starts a line indented one level
    deeper, and the closing bracket is on a line of its own; empty lists
    and dictionaries stay on one line. [indent] is the text of one level.
    As in [dumps], the values are rendered before the items are sorted. *)
Fixpoint dumps_indent (indent : string) (level : nat) (j : json) : string :=
  let inner := String newline (repeat_str indent (S level)) in
  let outer := String newline (repeat_str indent level) in
  match j with
  | JNull => "null"
  | JBool true => "true"
  | JBool false => "false"
  | JInt n => PyStr.str_of_int n
  | JStr s => encode_str s
  | JList [] => "[]"
  | JList l =>
      "[" +:+ inner
          +:+ PyStr.join ("," +:+ inner) (map (dumps_indent indent (S level)) l)
          +:+ outer +:+ "]"
  | JDict [] => "{}"
  | JDict d =>
      "{" +:+ inner
          +:+ PyStr.join ("," +:+ inner)
                (map render_item
                     (sort_items
                        (map (fun kv => (fst kv, dumps_indent indent (S level) (snd kv)))
                             d)))
          +:+ outer +:+ "}"
  end.

End Json.

(* ------------------------------------------------------------------ *)
(** ** [lib/nara_hash_utils.py] *)

Module HashUtils.

(** What iterating over a streamed response body yields: a chunk of bytes
    (possibly empty, a keep-alive), or a transfer fault that
    [iter_content] raises as a [RequestException]. *)
Inductive chunk_event : Type :=
| Chunk (data : list Byte.byte)
| StreamFault.

(** The outcome of [requests.get(url, stream=True, timeout=...)]: the
    request itself fails, or a response arrives with a status code and a
    body that [iter_content(chunk_size)] cuts into chunks. *)
Inductive fetch : Type :=
| ConnectFailed
| Response (status_code : Z) (iter_content : Z -> list chunk_event).

(** [response.raise_for_status()] raises for 4xx and 5xx codes. *)
Definition raise_for_status (status_code : Z) : result unit :=
  if (400 <=? status_code) && (status_code <? 600) then Raise RequestException
  else Ok tt.

(** The [for chunk in response.iter_content(...)] loop, with the hasher and
    the byte counter as its state. *)
Fixpoint hash_chunks (events : list chunk_event) (hasher : Sha256.hasher)
    (total_bytes : Z) : result (Sha256.hasher * Z) :=
  match events with
  | [] => Ok (hasher, total_bytes)
  | StreamFault :: _ => Raise RequestException
  | Chunk chunk :: rest =>
      match chunk with
      | [] => hash_chunks rest hasher total_bytes
      | _ => hash_chunks rest (Sha256.update hasher chunk)
                         (total_bytes + Z.of_nat (length chunk))
      end
  end.

(** [download_and_hash_s3(s3_url, chunk_size)]; [get] is the network.
    Every exception of the body is re-raised as [HashComputationError]. *)
Definition download_and_hash_s3 (get : string -> fetch) (s3_url : string)
    (chunk_size : Z) : result (string * Z) :=
  match get s3_url with
  | ConnectFailed => Raise HashComputationError
  | Response status_code iter_content =>
      match raise_for_status status_code with
      | Raise _ => Raise HashComputationError
      | Ok _ =>
          match hash_chunks (iter_content chunk_size) Sha256.new 0 with
          | Raise _ => Raise HashComputationError
          | Ok (hasher, total_bytes) => Ok (Sha256.hexdigest hasher, total_bytes)
          end
      end
  end.

Definition default_chunk_size : Z := 8192.

(** [create_content_hash_object(digest_hex, algorithm="sha256")]. *)
Definition create_content_hash_object (digest_hex : string) (algorithm : string)
  : Json.json :=
  Json.JDict [("algorithm", Json.JStr algorithm); ("digest_hex", Json.JStr digest_hex)].

(** The bytes a body delivers when no fault occurs. *)
Fixpoint body_bytes (events : list chunk_event) : list Byte.byte :=
  match events with
  | [] => []
  | Chunk c :: rest => c ++ body_bytes rest
  | StreamFault :: rest => body_bytes rest
  end.

Fixpoint fault_free (events : list chunk_event) : bool :=
  match events with
  | [] => true
  | Chunk _ :: rest => fault_free rest
  | StreamFault :: _ => false
  end.

(** [c.lower()] for a character below 256: the letters A-Z and the
    accented capitals of Latin-1 move up by 32. *)
Definition lower_char (c : ascii) : ascii :=
  let n := N_of_ascii c in
  if ((65 <=? n) && (n <=? 90)
      || (192 <=? n) && (n <=? 222) && negb (n =? 215))%N
  then ascii_of_N (n + 32)
  else c.

(** [s.lower()]. *)
Fixpoint lower (s : string) : string :=
  match s with
  | EmptyString => EmptyString
  | String c s' => String (lower_char c) (lower s')
  end.

(** [verify_hash(s3_url, expected_hex, chunk_size)]: a failed download is
    answered False. *)
Definition verify_hash (get : string -> fetch) (s3_url expected_hex : string)
    (chunk_size : Z) : result bool :=
  match download_and_hash_s3 get s3_url chunk_size with
  | Ok (actual_hex, _) => Ok (String.eqb (lower actual_hex) (lower expected_hex))
  | Raise HashComputationError => Ok false
  | Raise e => Raise e
  end.

(** The callback [on_progress(url, index, total, hash_hex, size)]. *)
Definition progress : Type := string -> Z -> Z -> string -> Z -> result unit.

(** The loop of [batch_hash_urls]. [net] is the network, whose answer may
    depend on the URLs fetched before; [results] maps a URL to its digest
    and size, or to [None] for the pair [(None, None)]. The handler
    [except HashComputationError] covers the callback too. *)
Fixpoint batch_loop (net : list string -> string -> fetch) (chunk_size : Z)
    (on_progress : option progress) (total i : Z) (urls fetched : list string)
    (results : gmap string (option (string * Z)))
  : result (gmap string (option (string * Z))) :=
  match urls with
  | [] => Ok results
  | url :: rest =>
      let next := batch_loop net chunk_size on_progress total (i + 1) rest
                             (fetched ++ [url]) in
      match download_and_hash_s3 (net fetched) url chunk_size with
      | Ok (hash_hex, size) =>
          let results := <[url := Some (hash_hex, size)]> results in
          match match on_progress with
                | Some callback => callback url (i + 1) total hash_hex size
                | None => Ok tt
                end with
          | Ok _ => next results
          | Raise HashComputationError => next (<[url := None]> results)
          | Raise e => Raise e
          end
      | Raise HashComputationError => next (<[url := None]> results)
      | Raise e => Raise e
      end
  end.

(** [batch_hash_urls(urls, chunk_size, on_progress)]. *)
Definition batch_hash_urls (net : list string -> string -> fetch)
    (urls : list string) (chunk_size : Z) (on_progress : option progress)
  : result (gmap string (option (string * Z))) :=
  batch_loop net chunk_size on_progress (Z.of_nat (length urls)) 0 urls [] ∅.

(** What [batch_hash_urls] stores for the outcome of one download. *)
Definition batch_entry (r : result (string * Z)) : option (string * Z) :=
  match r with Ok p => Some p | Raise _ => None end.

End HashUtils.

(* ------------------------------------------------------------------ *)
(** ** [nara_schema.py] *)

Module Schema.
Import Json.

Definition INSTITUTION : string := "nara-institution@v1".
Definition COLLECTION : string := "nara-collection@v1".
Definition SERIES : string := "nara-series@v1".
Definition FILEUNIT : string := "nara-fileunit@v1".
Definition DIGITALOBJECT : string := "nara-digitalobject@v1".

(** An [Optional[str]] argument as a document: [None] is [null]. *)
Definition of_opt_str (o : option string) : json :=
  match o with Some s => JStr s | None => JNull end.

Definition of_opt_int (o : option Z) : json :=
  match o with Some n => JInt n | None => JNull end.

(** [if value: record[key] = value]. *)
Definition set_if_truthy (key : string) (value : json)
    (record : list (string * json)) : list (string * json) :=
  if truthy value then dict_set key value record else record.

(** Each constructor takes as [now] the text of
    [datetime.utcnow().isoformat() + "Z"] at the time of the call. *)
Definition create_institution_catalog_record
    (name : string) (description url location : option string) (now : string)
  : json :=
  let record := [("schema", JStr INSTITUTION); ("name", JStr name);
                 ("import_timestamp", JStr now)] in
  let record := set_if_truthy "description" (of_opt_str description) record in
  let record := set_if_truthy "url" (of_opt_str url) record in
  let record := set_if_truthy "location" (of_opt_str location) record in
  JDict record.

Definition create_collection_catalog_record
    (nara_naid : Z) (collection_identifier title : string) (date_range : json)
    (stats full_metadata : json) (now : string) : json :=
  let record := [("schema", JStr COLLECTION); ("nara_naId", JInt nara_naid);
                 ("collection_identifier", JStr collection_identifier);
                 ("title", JStr title); ("date_range", date_range);
                 ("import_timestamp", JStr now)] in
  let record := set_if_truthy "stats" stats record in
  let record := set_if_truthy "nara_full_metadata" full_metadata record in
  JDict record.

Definition create_series_catalog_record
    (nara_naid parent_naid : Z) (title : string) (date_range : json)
    (creators full_metadata : json) (now : string) : json :=
  let record := [("schema", JStr SERIES); ("nara_naId", JInt nara_naid);
                 ("parent_naId", JInt parent_naid); ("title", JStr title);
                 ("date_range", date_range); ("import_timestamp", JStr now)] in
  let record := set_if_truthy "creators" creators record in
  let record := set_if_truthy "nara_full_metadata" full_metadata record in
  JDict record.

Definition create_fileunit_catalog_record
    (nara_naid parent_naid collection_naid : Z) (title : string)
    (record_types : json) (digital_object_count : Z)
    (access_restriction : json) (foia_tracking : option string)
    (physical_location other_titles full_metadata : json) (now : string)
  : json :=
  let record := [("schema", JStr FILEUNIT); ("nara_naId", JInt nara_naid);
                 ("parent_naId", JInt parent_naid);
                 ("collection_naId", JInt collection_naid);
                 ("title", JStr title); ("level", JStr "fileUnit");
                 ("record_types", record_types);
                 ("digital_object_count", JInt digital_object_count);
                 ("import_timestamp", JStr now)] in
  let record := set_if_truthy "access_restriction" access_restriction record in
  let record := set_if_truthy "foia_tracking" (of_opt_str foia_tracking) record in
  let record := set_if_truthy "physical_location" physical_location record in
  let record := set_if_truthy "other_titles" other_titles record in
  let record := set_if_truthy "nara_full_metadata" full_metadata record in
  JDict record.

Definition create_digitalobject_catalog_record
    (nara_object_id : string) (parent_naid : Z)
    (filename object_type s3_url : string) (content_hash : json)
    (file_size : json) (page_number : option Z)
    (extracted_text full_metadata : json) (now : string) : json :=
  let record := [("schema", JStr DIGITALOBJECT);
                 ("nara_objectId", JStr nara_object_id);
                 ("parent_naId", JInt parent_naid);
                 ("filename", JStr filename);
                 ("object_type", JStr object_type);
                 ("file_size", file_size);
                 ("s3_url", JStr s3_url);
                 ("content_hash", content_hash);
                 ("import_timestamp", JStr now)] in
  let record :=
    match page_number with
    | Some n => dict_set "page_number" (JInt n) record
    | None => record
    end in
  let record := set_if_truthy "extracted_text" extracted_text record in
  let record := set_if_truthy "nara_full_metadata" full_metadata record in
  JDict record.

(** The table [required_fields] of [validate_catalog_record]. *)
Definition required_fields : list (string * list string) :=
  [(INSTITUTION, ["name"]);
   (COLLECTION, ["nara_naId"; "collection_identifier"; "title"]);
   (SERIES, ["nara_naId"; "parent_naId"; "title"]);
   (FILEUNIT, ["nara_naId"; "parent_naId"; "collection_naId"; "title"]);
   (DIGITALOBJECT, ["nara_objectId"; "parent_naId"; "s3_url"; "content_hash"])].

(** [table[key]] for a table keyed by strings. *)
Fixpoint assoc {A} (key : string) (table : list (string * A)) : option A :=
  match table with
  | [] => None
  | (k, v) :: rest => if String.eqb k key then Some v else assoc key rest
  end.

(** [f in record]. *)
Definition has_key (record : list (string * json)) (f : string) : bool :=
  match dict_get f record with Some _ => true | None => false end.

(** [validate_catalog_record(record)] on a dictionary: a missing or falsy
    schema, an unknown schema and a missing required field are
    [ValueError]s; a schema that is a list or a dictionary cannot be looked
    up in the table, a [TypeError]. *)
Definition validate_catalog_record (record : list (string * json)) : result bool :=
  let schema := default JNull (dict_get "schema" record) in
  if negb (truthy schema) then Raise ValueError
  else
    match schema with
    | JList _ | JDict _ => Raise TypeError
    | JStr s =>
        match assoc s required_fields with
        | None => Raise ValueError
        | Some fields =>
            let missing := filter (fun f => negb (has_key record f)) fields in
            match missing with
            | [] => Ok true
            | _ => Raise ValueError
            end
        end
    | _ => Raise ValueError
    end.

(** [catalog_record_to_json(record, pretty)]. *)
Definition catalog_record_to_json (record : list (string * json)) (pretty : bool)
  : result string :=
  match validate_catalog_record record with
  | Raise e => Raise e
  | Ok _ =>
      if pretty then Ok (dumps_indent "  " 0 (JDict record))
      else Ok (dumps (JDict record))
  end.

End Schema.

(* ------------------------------------------------------------------ *)
(** ** [arke_api_client.py] *)

Module Client.
Import Json.

(** What the HTTP session answers to a request: a transport failure
    ([RequestException]), or a status code with a JSON body. A reply whose
    body does not decode as JSON is not modelled. *)
Inductive http_reply : Type :=
| TransportFailed
| Reply (status_code : Z) (body : json).

(** The remote service, as seen through [session.request] and the
    multipart [session.post] of [upload_bytes]. *)
Record service : Type := mk_service {
  request : string -> string -> json -> http_reply;
  post_file : string -> string -> list Byte.byte -> http_reply
}.

(** The message of an error reply is built with [error_data.get(...)] on
    the decoded body: a body that is not an object has no [get], and the
    [AttributeError] is caught nowhere. *)
Definition error_reply (error_data : json) (e : exn) : result json :=
  match error_data with
  | JDict _ => Raise e
  | _ => Raise AttributeError
  end.

(** [_request(method, endpoint, json_data)]: 400, 404 and 409 have their
    own exception, any other code from 400 up is an [ArkeAPIError], each
    raised once the message is built from the body, and a transport
    failure is re-raised as [ArkeAPIError]. *)
Definition _request (svc : service) (method endpoint : string) (json_data : json)
  : result json :=
  match request svc method endpoint json_data with
  | TransportFailed => Raise ArkeAPIError
  | Reply status_code body =>
      if status_code =? 400 then error_reply body ArkeValidationError
      else if status_code =? 404 then error_reply body ArkeNotFoundError
      else if status_code =? 409 then error_reply body ArkeConflictError
      else if 400 <=? status_code then error_reply body ArkeAPIError
      else Ok body
  end.

(** [d[k]] on a document. *)
Definition subscript (j : json) (k : string) : result json :=
  match j with
  | JDict d => match dict_get k d with Some v => Ok v | None => Raise KeyError end
  | _ => Raise TypeError
  end.

(** [upload_bytes(data, name)]: the service answers with an array, whose
    first element carries the content address and the size. *)
Definition upload_bytes (svc : service) (data : list Byte.byte) (name : string)
  : result (json * json) :=
  match post_file svc "/upload" name data with
  | TransportFailed => Raise RequestException
  | Reply status_code body =>
      match HashUtils.raise_for_status status_code with
      | Raise e => Raise e
      | Ok _ =>
          match body with
          | JList (first :: _) =>
              match subscript first "cid", subscript first "size" with
              | Ok cid, Ok size => Ok (cid, size)
              | Raise e, _ => Raise e
              | _, Raise e => Raise e
              end
          | JList [] => Raise IndexError
          | JDict _ => Raise KeyError
          | _ => Raise TypeError
          end
      end
  end.

(** The bytes [upload_json] sends. *)
Definition json_bytes (data : json) : list Byte.byte :=
  encode_utf8 (dumps data).

(** [upload_json(data)]. *)
Definition upload_json (svc : service) (data : json) : result json :=
  match upload_bytes svc (json_bytes data) "data.json" with
  | Ok (cid, _) => Ok cid
  | Raise e => Raise e
  end.

(** The body [create_entity] posts: the components, and the explicit
    identifier, the children and the note when they are given. *)
Definition create_entity_payload (components : json) (pi children_pi note : json)
  : json :=
  let payload := [("components", components)] in
  let payload := Schema.set_if_truthy "pi" pi payload in
  let payload := Schema.set_if_truthy "children_pi" children_pi payload in
  let payload := Schema.set_if_truthy "note" note payload in
  JDict payload.

(** [create_entity(components, pi=None, children_pi=None, note=None)]. *)
Definition create_entity (svc : service) (components : json)
    (pi children_pi note : json) : result json :=
  _request svc "POST" "/entities" (create_entity_payload components pi children_pi note).

(** The parameters of [create_entity], in order, and whether each has a
    default. *)
Definition create_entity_params : list (string * bool) :=
  [("components", false); ("pi", true); ("children_pi", true); ("note", true)].

(** Binding a call made with keyword arguments only: a keyword that names
    no parameter, or a parameter without default that no keyword gives, is
    a [TypeError]; an omitted optional parameter is [None]. *)
Definition bind_keywords (params : list (string * bool))
    (kwargs : list (string * json)) : result (list json) :=
  if negb (forallb (fun kw => existsb (fun p => String.eqb (fst p) (fst kw)) params)
                   kwargs)
  then Raise TypeError
  else
    (fix bind (ps : list (string * bool)) : result (list json) :=
       match ps with
       | [] => Ok []
       | (name, has_default) :: rest =>
           match dict_get name kwargs, bind rest with
           | _, Raise e => Raise e
           | Some v, Ok vs => Ok (v :: vs)
           | None, Ok vs => if has_default then Ok (JNull :: vs) else Raise TypeError
           end
       end) params.

(** A keyword call [client.create_entity(k1=v1, ...)]. *)
Definition create_entity_kw (svc : service) (kwargs : list (string * json))
  : result json :=
  match bind_keywords create_entity_params kwargs with
  | Ok [components; pi; children_pi; note] =>
      create_entity svc components pi children_pi note
  | Ok _ => Raise TypeError
  | Raise e => Raise e
  end.

(** [health_check()]. *)
Definition health_check (svc : service) : result json :=
  _request svc "GET" "/" JNull.



(** The body [append_version] posts. *)
Definition append_version_payload (expect_tip : json)
    (components children_pi_add children_pi_remove note : json) : json :=
  let payload := [("expect_tip", expect_tip)] in
  let payload := Schema.set_if_truthy "components" components payload in
  let payload := Schema.set_if_truthy "children_pi_add" children_pi_add payload in
  let payload := Schema.set_if_truthy "children_pi_remove" children_pi_remove payload in
  let payload := Schema.set_if_truthy "note" note payload in
  JDict payload.

(** [append_version(pi, expect_tip, components=None, children_pi_add=None,
    children_pi_remove=None, note=None)]. *)
Definition append_version (svc : service) (pi : string) (expect_tip : json)
    (components children_pi_add children_pi_remove note : json) : result json :=
  _request svc "POST" ("/entities/" +:+ pi +:+ "/versions")
    (append_version_payload expect_tip components children_pi_add
       children_pi_remove note).

(** [resolve_pi(pi)]. *)
Definition resolve_pi (svc : service) (pi : string) : result json :=
  _request svc "GET" ("/resolve/" +:+ pi) JNull.

End Client.

(* ------------------------------------------------------------------ *)
(** ** [lib/nara_importer.py] *)

Module Importer.
Import Json.

(** A call that leaves the process: to the store, through the client the
    importer was given, or to the bulk object store, through
    [download_and_hash_s3]. *)
Inductive call : Type :=
| UploadJson (data : json)
| GetArkeBlock
| CreateEntity (components : list (string * string)) (parent_pi : option string)
               (note : string)
| HttpGet (url : string).

(** The fields of a creation result the importer reads. *)
Record entity : Type := mk_entity { e_pi : string; e_ver : Z }.

(** The outside world. [api_client] is a constructor argument of the
    importer; the class it is an instance of, [lib/arke_api_client.py], is
    not among the sources, so its three operations are parameters here, with
    the signatures of the importer's calls. Every answer may depend on the
    calls issued so far. [w_get_arke_block] gives the [pi] field of the
    genesis block, and [w_utcnow] the text of
    [datetime.utcnow().isoformat() + "Z"]. *)
Record world : Type := mk_world {
  w_upload_json : list call -> json -> result string;
  w_get_arke_block : list call -> result string;
  w_create_entity :
    list call -> list (string * string) -> option string -> string -> result entity;
  w_http_get : list call -> string -> HashUtils.fetch;
  w_utcnow : list call -> string
}.

(** [self.stats]. *)
Record stats : Type := mk_stats {
  institutions_created : Z;
  collections_created : Z;
  series_created : Z;
  fileunits_created : Z;
  digitalobjects_created : Z;
  bytes_hashed : Z;
  errors : Z
}.

Definition zero_stats : stats := mk_stats 0 0 0 0 0 0 0.

(** The importer object. [trace] is a ghost field: the calls issued so
    far, oldest first. *)
Record importer : Type := mk_importer {
  collection_id : string;
  dry_run : bool;
  nara_to_pi : gmap string string;
  institution_pi : option string;
  stats_of : stats;
  trace : list call
}.

(** [NARAImporter(api_client, collection_id, dry_run, initial_mappings,
    institution_pi)]; [initial_mappings or {}] replaces [None] and the
    empty dictionary by a new empty one. The client is the [world] the
    methods take. *)
Definition NARAImporter (collection_id : string) (dry_run : bool)
    (initial_mappings : option (gmap string string))
    (institution_pi : option string) : importer :=
  mk_importer collection_id dry_run
    (match initial_mappings with
     | Some m => if bool_decide (m = ∅) then ∅ else m
     | None => ∅
     end)
    institution_pi zero_stats [].

(** Methods run in a state-and-exception monad over the importer: a raised
    exception keeps the changes made before it. *)
Definition M (A : Type) : Type := importer -> result A * importer.

Definition ret {A} (a : A) : M A := fun s => (Ok a, s).
Definition raise {A} (e : exn) : M A := fun s => (Raise e, s).
Definition bind {A B} (m : M A) (f : A -> M B) : M B :=
  fun s => match m s with
           | (Ok a, s') => f a s'
           | (Raise e, s') => (Raise e, s')
           end.
(** [try: m  except Exception as e: h e]. *)
Definition catch {A} (m : M A) (h : exn -> M A) : M A :=
  fun s => match m s with
           | (Ok a, s') => (Ok a, s')
           | (Raise e, s') => h e s'
           end.
Definition get : M importer := fun s => (Ok s, s).
Definition modify (f : importer -> importer) : M unit := fun s => (Ok tt, f s).
Definition lift {A} (r : result A) : M A := fun s => (r, s).

Notation "'let*' x := m 'in' k" := (bind m (fun x => k))
  (at level 10, x pattern, m at level 100, k at level 200).

Definition set_trace (t : list call) (s : importer) : importer :=
  mk_importer (collection_id s) (dry_run s) (nara_to_pi s) (institution_pi s)
              (stats_of s) t.
Definition set_stats (st : stats) (s : importer) : importer :=
  mk_importer (collection_id s) (dry_run s) (nara_to_pi s) (institution_pi s)
              st (trace s).
(** [self.nara_to_pi[nara_id] = pi]. *)
Definition set_mapping (nara_id pi : string) (s : importer) : importer :=
  mk_importer (collection_id s) (dry_run s) (<[nara_id := pi]> (nara_to_pi s))
              (institution_pi s) (stats_of s) (trace s).
(** [self.institution_pi = pi]. *)
Definition set_institution (pi : string) (s : importer) : importer :=
  mk_importer (collection_id s) (dry_run s) (nara_to_pi s) (Some pi)
              (stats_of s) (trace s).

Definition bump_institutions (st : stats) : stats :=
  mk_stats (institutions_created st + 1) (collections_created st) (series_created st)
           (fileunits_created st) (digitalobjects_created st) (bytes_hashed st)
           (errors st).
Definition bump_collections (st : stats) : stats :=
  mk_stats (institutions_created st) (collections_created st + 1) (series_created st)
           (fileunits_created st) (digitalobjects_created st) (bytes_hashed st)
           (errors st).
Definition bump_series (st : stats) : stats :=
  mk_stats (institutions_created st) (collections_created st) (series_created st + 1)
           (fileunits_created st) (digitalobjects_created st) (bytes_hashed st)
           (errors st).
Definition bump_fileunits (st : stats) : stats :=
  mk_stats (institutions_created st) (collections_created st) (series_created st)
           (fileunits_created st + 1) (digitalobjects_created st) (bytes_hashed st)
           (errors st).
Definition bump_digitalobjects (st : stats) : stats :=
  mk_stats (institutions_created st) (collections_created st) (series_created st)
           (fileunits_created st) (digitalobjects_created st + 1) (bytes_hashed st)
           (errors st).
Definition add_bytes_hashed (n : Z) (st : stats) : stats :=
  mk_stats (institutions_created st) (collections_created st) (series_created st)
           (fileunits_created st) (digitalobjects_created st) (bytes_hashed st + n)
           (errors st).
Definition bump_errors (st : stats) : stats :=
  mk_stats (institutions_created st) (collections_created st) (series_created st)
           (fileunits_created st) (digitalobjects_created st) (bytes_hashed st)
           (errors st + 1).

Definition update_stats (f : stats -> stats) : M unit :=
  modify (fun s => set_stats (f (stats_of s)) s).

(** Python truthiness of an [Optional[str]]. *)
Definition truthy_opt (o : option string) : bool :=
  match o with
  | Some s => negb (String.eqb s EmptyString)
  | None => false
  end.

(** [a or b]. *)
Definition py_or (a b : json) : json := if truthy a then a else b.

(** [str(x)] inside an f-string, for an [Optional[int]]. *)
Definition format_opt_int (o : option Z) : string :=
  match o with Some n => PyStr.str_of_int n | None => "None" end.

Definition DRY_RUN_PI : string := "dry-run-pi".

Section WithWorld.
Variable w : world.

Definition utcnow : M string := fun s => (Ok (w_utcnow w (trace s)), s).

Definition api_upload_json (data : json) : M string :=
  fun s => (w_upload_json w (trace s) data,
            set_trace (trace s ++ [UploadJson data]) s).

Definition api_get_arke_block : M string :=
  fun s => (w_get_arke_block w (trace s),
            set_trace (trace s ++ [GetArkeBlock]) s).

Definition api_create_entity (components : list (string * string))
    (parent_pi : option string) (note : string) : M entity :=
  fun s => (w_create_entity w (trace s) components parent_pi note,
            set_trace (trace s ++ [CreateEntity components parent_pi note]) s).

(** [download_and_hash_s3(s3_url)], with the default chunk size. *)
Definition download_and_hash_s3 (s3_url : string) : M (string * Z) :=
  fun s => (HashUtils.download_and_hash_s3 (w_http_get w (trace s)) s3_url
              HashUtils.default_chunk_size,
            set_trace (trace s ++ [HttpGet s3_url]) s).

Definition import_institution (name : string)
    (description url location : option string) : M string :=
  let* s := get in
  if truthy_opt (institution_pi s) then
    ret (default EmptyString (institution_pi s))
  else
    let* now := utcnow in
    let catalog_record :=
      Schema.create_institution_catalog_record name description url location now in
    if dry_run s then
      let* _ := modify (set_institution DRY_RUN_PI) in
      ret DRY_RUN_PI
    else
      let* catalog_cid := api_upload_json catalog_record in
      let* arke_pi :=
        catch (let* pi := api_get_arke_block in ret (Some pi))
              (fun _ => ret None) in
      let* result :=
        api_create_entity [("catalog_record", catalog_cid)] arke_pi
                          ("Institution: " +:+ name) in
      let pi := e_pi result in
      let* _ := modify (set_institution pi) in
      let* _ := update_stats bump_institutions in
      ret pi.

Definition import_collection (collection_naid : Z) (title : string)
    (date_range full_metadata : json) : M string :=
  let nara_id := PyStr.str_of_int collection_naid in
  let* s := get in
  match nara_to_pi s !! nara_id with
  | Some pi => ret pi
  | None =>
      let* now := utcnow in
      let catalog_record :=
        Schema.create_collection_catalog_record collection_naid (collection_id s)
          title date_range JNull full_metadata now in
      if dry_run s then
        let* _ := modify (set_mapping nara_id DRY_RUN_PI) in
        ret DRY_RUN_PI
      else
        let* catalog_cid := api_upload_json catalog_record in
        let* s1 := get in
        let* result :=
          api_create_entity [("catalog_record", catalog_cid)] (institution_pi s1)
            ("Collection: " +:+ title +:+ " (naId:"
               +:+ PyStr.str_of_int collection_naid +:+ ")") in
        let pi := e_pi result in
        let* _ := modify (set_mapping nara_id pi) in
        let* _ := update_stats bump_collections in
        ret pi
  end.

Definition import_series (series_naid parent_naid : Z) (title : string)
    (date_range creators full_metadata : json) : M string :=
  let nara_id := PyStr.str_of_int series_naid in
  let* s := get in
  match nara_to_pi s !! nara_id with
  | Some pi => ret pi
  | None =>
      let* now := utcnow in
      let catalog_record :=
        Schema.create_series_catalog_record series_naid parent_naid title
          date_range creators full_metadata now in
      if dry_run s then
        let* _ := modify (set_mapping nara_id DRY_RUN_PI) in
        ret DRY_RUN_PI
      else
        let* catalog_cid := api_upload_json catalog_record in
        let* s1 := get in
        let parent_pi := nara_to_pi s1 !! PyStr.str_of_int parent_naid in
        let* result :=
          api_create_entity [("catalog_record", catalog_cid)] parent_pi
            ("Series: " +:+ title +:+ " (naId:"
               +:+ PyStr.str_of_int series_naid +:+ ")") in
        let pi := e_pi result in
        let* _ := modify (set_mapping nara_id pi) in
        let* _ := update_stats bump_series in
        ret pi
  end.

Definition import_digitalobject (object_id : string) (parent_naid : Z)
    (filename object_type s3_url : string) (file_size : json)
    (page_number : option Z) (extracted_text full_metadata : json) : M string :=
  let* s := get in
  match nara_to_pi s !! object_id with
  | Some pi => ret pi
  | None =>
      if dry_run s then
        let* _ := modify (set_mapping object_id DRY_RUN_PI) in
        ret DRY_RUN_PI
      else
        let* hashed :=
          catch (let* r := download_and_hash_s3 s3_url in
                 let content_hash :=
                   HashUtils.create_content_hash_object (fst r) "sha256" in
                 let* _ := update_stats (add_bytes_hashed (snd r)) in
                 ret (content_hash, snd r))
                (fun e =>
                   match e with
                   | HashComputationError =>
                       let* _ := update_stats bump_errors in raise e
                   | _ => raise e
                   end) in
        let '(content_hash, actual_size) := hashed in
        let* now := utcnow in
        let catalog_record :=
          Schema.create_digitalobject_catalog_record object_id parent_naid
            filename object_type s3_url content_hash
            (py_or file_size (JInt actual_size)) page_number extracted_text
            full_metadata now in
        let* catalog_cid := api_upload_json catalog_record in
        let* s1 := get in
        let parent_pi := nara_to_pi s1 !! PyStr.str_of_int parent_naid in
        let* result :=
          api_create_entity [("digital_object_metadata", catalog_cid)] parent_pi
            ("Page " +:+ format_opt_int page_number +:+ ": " +:+ filename
               +:+ " (objectId:" +:+ object_id +:+ ")") in
        let pi := e_pi result in
        let* _ := modify (set_mapping object_id pi) in
        let* _ := update_stats bump_digitalobjects in
        ret pi
  end.

(** [obj[key]] on a digital object of the feed. *)
Definition item (obj : list (string * json)) (key : string) : M json :=
  lift (match dict_get key obj with Some v => Ok v | None => Raise KeyError end).

(** A value that the callee declares as [str]; the feed gives strings. *)
Definition as_str (j : json) : M string :=
  lift (match j with JStr s => Ok s | _ => Raise TypeError end).

(** [obj.get(key)]. *)
Definition item_get (obj : list (string * json)) (key : string) : json :=
  default JNull (dict_get key obj).

(** One turn of the loop over [digital_objects]: the call and its
    [except Exception] handler. *)
Definition import_one_object (fileunit_naid : Z) (i : Z)
    (obj : list (string * json)) : M unit :=
  catch
    (let* object_id := bind (item obj "objectId") as_str in
     let* filename := bind (item obj "objectFilename") as_str in
     let* object_type := bind (item obj "objectType") as_str in
     let* s3_url := bind (item obj "objectUrl") as_str in
     let* _ :=
       import_digitalobject object_id fileunit_naid filename object_type s3_url
         (item_get obj "objectFileSize") (Some i) (item_get obj "extractedText")
         (JDict obj) in
     ret tt)
    (fun _ => update_stats bump_errors).

(** [for i, obj in enumerate(digital_objects, start=i): ...]. *)
Fixpoint import_objects (fileunit_naid : Z) (i : Z)
    (digital_objects : list (list (string * json))) : M unit :=
  match digital_objects with
  | [] => ret tt
  | obj :: rest =>
      let* _ := import_one_object fileunit_naid i obj in
      import_objects fileunit_naid (i + 1) rest
  end.

Definition import_fileunit (fileunit_naid parent_series_naid collection_naid : Z)
    (title : string) (record_types : json)
    (digital_objects : list (list (string * json)))
    (access_restriction : json) (foia_tracking : option string)
    (physical_location other_titles full_metadata : json) : M string :=
  let nara_id := PyStr.str_of_int fileunit_naid in
  let count := Z.of_nat (length digital_objects) in
  let* s := get in
  match nara_to_pi s !! nara_id with
  | Some pi => ret pi
  | None =>
      let* now := utcnow in
      let catalog_record :=
        Schema.create_fileunit_catalog_record fileunit_naid parent_series_naid
          collection_naid title record_types count access_restriction
          foia_tracking physical_location other_titles full_metadata now in
      if dry_run s then
        let* _ := modify (set_mapping nara_id DRY_RUN_PI) in
        ret DRY_RUN_PI
      else
        let* catalog_cid := api_upload_json catalog_record in
        let* s1 := get in
        let parent_pi := nara_to_pi s1 !! PyStr.str_of_int parent_series_naid in
        let* result :=
          api_create_entity [("catalog_record", catalog_cid)] parent_pi
            ("FileUnit: " +:+ title +:+ " (naId:"
               +:+ PyStr.str_of_int fileunit_naid +:+ ", "
               +:+ PyStr.str_of_int count +:+ " pages)") in
        let pi := e_pi result in
        let* _ := modify (set_mapping nara_id pi) in
        let* _ := update_stats bump_fileunits in
        let* _ := import_objects fileunit_naid 1 digital_objects in
        ret pi
  end.

End WithWorld.

(** The five import methods as one type of requests, to speak of every
    operation and of sequences of them. *)
Inductive operation : Type :=
| Institution (name : string) (description url location : option string)
| Collection (collection_naid : Z) (title : string) (date_range full_metadata : json)
| Series (series_naid parent_naid : Z) (title : string)
         (date_range creators full_metadata : json)
| Fileunit (fileunit_naid parent_series_naid collection_naid : Z) (title : string)
           (record_types : json) (digital_objects : list (list (string * json)))
           (access_restriction : json) (foia_tracking : option string)
           (physical_location other_titles full_metadata : json)
| Digitalobject (object_id : string) (parent_naid : Z)
                (filename object_type s3_url : string) (file_size : json)
                (page_number : option Z) (extracted_text full_metadata : json).

Definition run (w : world) (o : operation) : M string :=
  match o with
  | Institution n d u l => import_institution w n d u l
  | Collection n t dr fm => import_collection w n t dr fm
  | Series n p t dr cr fm => import_series w n p t dr cr fm
  | Fileunit n p c t rt objs ar ft pl ot fm =>
      import_fileunit w n p c t rt objs ar ft pl ot fm
  | Digitalobject oid p fn ty url fs pg tx fm =>
      import_digitalobject w oid p fn ty url fs pg tx fm
  end.

(** A run: operations one after the other on the same importer, whatever
    each returns or raises. *)
Definition run_all (w : world) (ops : list operation) (s : importer) : importer :=
  fold_left (fun s o => snd (run w o s)) ops s.

(** The ledger key an operation is about; the institution has none. *)
Definition source_id (o : operation) : option string :=
  match o with
  | Institution _ _ _ _ => None
  | Collection n _ _ _ => Some (PyStr.str_of_int n)
  | Series n _ _ _ _ _ => Some (PyStr.str_of_int n)
  | Fileunit n _ _ _ _ _ _ _ _ _ _ => Some (PyStr.str_of_int n)
  | Digitalobject oid _ _ _ _ _ _ _ _ => Some oid
  end.

(** The store id the importer already holds for an operation's entity. *)
Definition resolved (o : operation) (s : importer) : option string :=
  match source_id o with
  | Some k => nara_to_pi s !! k
  | None => if truthy_opt (institution_pi s) then institution_pi s else None
  end.


(** The document of an upload call. *)
Definition uploaded (c : call) : option json :=
  match c with UploadJson data => Some data | _ => None end.

(** What no method changes, and what a method may only extend: the mode,
    the collection, the entries of the ledger, a set institution slot, and
    the calls already issued. *)
Record extends (s s' : importer) : Prop := mk_extends {
  ext_dry_run : dry_run s' = dry_run s;
  ext_collection : collection_id s' = collection_id s;
  ext_ledger : nara_to_pi s ⊆ nara_to_pi s';
  ext_institution :
    truthy_opt (institution_pi s) = true -> institution_pi s' = institution_pi s;
  ext_trace : exists t, trace s' = trace s ++ t
}.

(** On a dry-run importer constructed without restored state, every store
    id held is the sentinel, so every operation returns it. *)
Definition all_sentinel (s : importer) : Prop :=
  (forall k v, nara_to_pi s !! k = Some v -> v = DRY_RUN_PI)
  /\ (institution_pi s = None \/ institution_pi s = Some DRY_RUN_PI).

(** The kinds of calls, and how many calls of a kind a trace holds. *)
Definition is_upload (c : call) : bool :=
  match c with UploadJson _ => true | _ => false end.
Definition is_create (c : call) : bool :=
  match c with CreateEntity _ _ _ => true | _ => false end.
Definition is_download (c : call) : bool :=
  match c with HttpGet _ => true | _ => false end.

Definition count_calls (p : call -> bool) (t : list call) : Z :=
  Z.of_nat (length (List.filter p t)).

(** The entities the counters say were created. *)
Definition created (st : stats) : Z :=
  institutions_created st + collections_created st + series_created st
  + fileunits_created st + digitalobjects_created st.

(** How the counters of [s'] stand to those of [s], and to the calls issued
    in between: no counter went down, every entity counted has a creation
    call of its own, every creation call an upload before it, and every
    DigitalObject counted a download. *)
Definition accounts (s s' : importer) : Prop :=
  let st := stats_of s in
  let st' := stats_of s' in
  let issued p := count_calls p (trace s') - count_calls p (trace s) in
  institutions_created st <= institutions_created st'
  /\ collections_created st <= collections_created st'
  /\ series_created st <= series_created st'
  /\ fileunits_created st <= fileunits_created st'
  /\ digitalobjects_created st <= digitalobjects_created st'
  /\ bytes_hashed st <= bytes_hashed st'
  /\ errors st <= errors st'
  /\ created st' - created st <= issued is_create
  /\ issued is_create <= issued is_upload
  /\ digitalobjects_created st' - digitalobjects_created st <= issued is_download.

(** What a failed operation leaves as it was: the ledger, the institution
    slot and the five creation counters. *)
Definition unrecorded (s s' : importer) : Prop :=
  nara_to_pi s' = nara_to_pi s
  /\ institution_pi s' = institution_pi s
  /\ institutions_created (stats_of s') = institutions_created (stats_of s)
  /\ collections_created (stats_of s') = collections_created (stats_of s)
  /\ series_created (stats_of s') = series_created (stats_of s)
  /\ fileunits_created (stats_of s') = fileunits_created (stats_of s)
  /\ digitalobjects_created (stats_of s') = digitalobjects_created (stats_of s).

(** The [objectId] strings of a list of digital objects. *)
Definition object_ids (objs : list (list (string * json))) : list string :=
  omap (fun obj => match dict_get "objectId" obj with
                   | Some (JStr id) => Some id
                   | _ => None
                   end) objs.

(** What the import of assets leaves alone: the ledger entries of every
    other key, the institution slot and the counters of the upper levels. *)
Definition asset_frame (ids : list string) (s s' : importer) : Prop :=
  (forall k, k ∉ ids -> nara_to_pi s' !! k = nara_to_pi s !! k)
  /\ institution_pi s' = institution_pi s
  /\ institutions_created (stats_of s') = institutions_created (stats_of s)
  /\ collections_created (stats_of s') = collections_created (stats_of s)
  /\ series_created (stats_of s') = series_created (stats_of s)
  /\ fileunits_created (stats_of s') = fileunits_created (stats_of s).

(** The ledger keys an operation may write. *)
Definition writes (o : operation) : list string :=
  match o with
  | Institution _ _ _ _ => []
  | Collection n _ _ _ => [PyStr.str_of_int n]
  | Series n _ _ _ _ _ => [PyStr.str_of_int n]
  | Fileunit n _ _ _ _ objs _ _ _ _ _ => PyStr.str_of_int n :: object_ids objs
  | Digitalobject oid _ _ _ _ _ _ _ _ => [oid]
  end.

(** What an operation leaves alone: the ledger entries of the keys that
    are not its own, the institution slot unless it is the institution's
    operation, and the creation counters of the other levels. *)
Definition frame (o : operation) (s s' : importer) : Prop :=
  (forall k, k ∉ writes o -> nara_to_pi s' !! k = nara_to_pi s !! k)
  /\ match o with
     | Institution _ _ _ _ =>
         collections_created (stats_of s') = collections_created (stats_of s)
         /\ series_created (stats_of s') = series_created (stats_of s)
         /\ fileunits_created (stats_of s') = fileunits_created (stats_of s)
         /\ digitalobjects_created (stats_of s') = digitalobjects_created (stats_of s)
     | Collection _ _ _ _ =>
         institution_pi s' = institution_pi s
         /\ institutions_created (stats_of s') = institutions_created (stats_of s)
         /\ series_created (stats_of s') = series_created (stats_of s)
         /\ fileunits_created (stats_of s') = fileunits_created (stats_of s)
         /\ digitalobjects_created (stats_of s') = digitalobjects_created (stats_of s)
     | Series _ _ _ _ _ _ =>
         institution_pi s' = institution_pi s
         /\ institutions_created (stats_of s') = institutions_created (stats_of s)
         /\ collections_created (stats_of s') = collections_created (stats_of s)
         /\ fileunits_created (stats_of s') = fileunits_created (stats_of s)
         /\ digitalobjects_created (stats_of s') = digitalobjects_created (stats_of s)
     | Fileunit _ _ _ _ _ _ _ _ _ _ _ =>
         institution_pi s' = institution_pi s
         /\ institutions_created (stats_of s') = institutions_created (stats_of s)
         /\ collections_created (stats_of s') = collections_created (stats_of s)
         /\ series_created (stats_of s') = series_created (stats_of s)
     | Digitalobject _ _ _ _ _ _ _ _ _ =>
         institution_pi s' = institution_pi s
         /\ institutions_created (stats_of s') = institutions_created (stats_of s)
         /\ collections_created (stats_of s') = collections_created (stats_of s)
         /\ series_created (stats_of s') = series_created (stats_of s)
         /\ fileunits_created (stats_of s') = fileunits_created (stats_of s)
     end.

(** A bound on what the import of [n] assets adds: at most [n]
    DigitalObjects and [n] downloads, and at most two errors for each. *)
Definition within (n : Z) (s s' : importer) : Prop :=
  digitalobjects_created (stats_of s') - digitalobjects_created (stats_of s) <= n
  /\ errors (stats_of s') - errors (stats_of s) <= 2 * n
  /\ count_calls is_download (trace s') - count_calls is_download (trace s) <= n.

End Importer.

(* ------------------------------------------------------------------ *)
(** ** The checkpoint code of [import_limited.py] and [import_full_collection.py] *)

Module Checkpoint.
Import Json Importer.

(** The checkpoint file: absent, or holding the document [json.dump]
    wrote. *)
Definition file : Type := option json.

Definition COLLECTION_ID : string := "WJC-NSCSW".

(** [importer.nara_to_pi] as [json.dump] sees it. *)
Definition ledger_to_json (m : gmap string string) : json :=
  JDict (map (fun kv => (fst kv, JStr (snd kv))) (map_to_list m)).

(** Reading a mapping table back: a dictionary of strings. *)
Fixpoint items_to_ledger (items : list (string * json))
  : result (list (string * string)) :=
  match items with
  | [] => Ok []
  | (k, JStr v) :: rest =>
      match items_to_ledger rest with
      | Ok l => Ok ((k, v) :: l)
      | Raise e => Raise e
      end
  | _ => Raise TypeError
  end.

Definition ledger_of_json (j : json) : result (gmap string string) :=
  match j with
  | JDict items =>
      match items_to_ledger items with
      | Ok l => Ok (list_to_map l)
      | Raise e => Raise e
      end
  | _ => Raise TypeError
  end.

Definition opt_str_of_json (j : json) : result (option string) :=
  match j with
  | JNull => Ok None
  | JStr s => Ok (Some s)
  | _ => Raise TypeError
  end.

(** What [main] has in hand once the checkpoint is loaded and the importer
    constructed. *)
Record resume : Type := mk_resume {
  start_file : json;
  start_record_index : json;
  resumed : importer
}.

Module Limited.

(** [save_checkpoint(checkpoint_file, file_number, record_index, importer)];
    [now] is [datetime.now().isoformat()]. *)
Definition save_checkpoint (file_number record_index : Z) (imp : importer)
    (now : string) : file :=
  Some (JDict [("file_number", JInt file_number);
               ("record_index", JInt record_index);
               ("timestamp", JStr now);
               ("nara_to_pi", ledger_to_json (nara_to_pi imp));
               ("institution_pi", Schema.of_opt_str (institution_pi imp))]).

(** [load_checkpoint(checkpoint_file)]. *)
Definition load_checkpoint (f : file) : result json :=
  match f with
  | Some (JDict checkpoint) =>
      let checkpoint :=
        match dict_get "nara_to_pi" checkpoint with
        | None => dict_set "nara_to_pi" (JDict []) checkpoint
        | Some _ => checkpoint
        end in
      let checkpoint :=
        match dict_get "institution_pi" checkpoint with
        | None => dict_set "institution_pi" JNull checkpoint
        | Some _ => checkpoint
        end in
      Ok (JDict checkpoint)
  | Some _ => Raise TypeError
  | None =>
      Ok (JDict [("file_number", JInt 1); ("record_index", JInt 0);
                 ("nara_to_pi", JDict []); ("institution_pi", JNull)])
  end.

(** The start of [main]: load the checkpoint, then construct the importer
    with the restored mappings and institution. [main] goes on with
    [import_institution] on this importer. *)
Definition startup (f : file) : result resume :=
  match load_checkpoint f with
  | Raise e => Raise e
  | Ok checkpoint =>
      match Client.subscript checkpoint "file_number",
            Client.subscript checkpoint "record_index",
            Client.subscript checkpoint "nara_to_pi",
            Client.subscript checkpoint "institution_pi" with
      | Ok start_file, Ok start_record_index, Ok nara_to_pi, Ok institution_pi =>
          match ledger_of_json nara_to_pi, opt_str_of_json institution_pi with
          | Ok m, Ok inst =>
              Ok (mk_resume start_file start_record_index
                    (NARAImporter COLLECTION_ID false (Some m) inst))
          | Raise e, _ => Raise e
          | _, Raise e => Raise e
          end
      | Raise e, _, _, _ => Raise e
      | _, Raise e, _, _ => Raise e
      | _, _, Raise e, _ => Raise e
      | _, _, _, Raise e => Raise e
      end
  end.

End Limited.

Module Full.

(** [save_checkpoint(checkpoint_file, file_number, record_index)]. *)
Definition save_checkpoint (file_number record_index : Z) (now : string) : file :=
  Some (JDict [("file_number", JInt file_number);
               ("record_index", JInt record_index);
               ("timestamp", JStr now)]).

(** [load_checkpoint(checkpoint_file)]. *)
Definition load_checkpoint (f : file) : result json :=
  match f with
  | Some checkpoint => Ok checkpoint
  | None => Ok (JDict [("file_number", JInt 1); ("record_index", JInt 0)])
  end.

(** The start of [main], once the health check has let the run start: the
    importer is constructed without mappings, the institution is imported
    with it, and then the checkpoint gives the position. An exception of
    [import_institution] is caught nowhere and ends [main]. *)
Definition startup (w : world) (f : file) : result resume :=
  let imp := NARAImporter COLLECTION_ID false None None in
  match import_institution w "National Archives"
          (Some "National Archives and Records Administration")
          (Some "https://www.archives.gov/") None imp with
  | (Raise e, _) => Raise e
  | (Ok _, imp) =>
      match load_checkpoint f with
      | Raise e => Raise e
      | Ok checkpoint =>
          match Client.subscript checkpoint "file_number",
                Client.subscript checkpoint "record_index" with
          | Ok start_file, Ok start_record_index =>
              Ok (mk_resume start_file start_record_index imp)
          | Raise e, _ => Raise e
          | _, Raise e => Raise e
          end
      end
  end.

End Full.

End Checkpoint.

(* ------------------------------------------------------------------ *)
(** ** The drivers: [import_limited.py], [import_full_collection.py] *)

Module Driver.
Import Json Importer.

(** What a driver function can raise: an exception of the library, or the
    [AttributeError] of a dictionary method called on a value that is not a
    dictionary. *)
Inductive raised : Type :=
| Lib (e : exn)
| AttributeError.

Inductive outcome (A : Type) : Type :=
| Returns (a : A)
| Raises (r : raised).
Arguments Returns {A} a.
Arguments Raises {A} r.

Definition and_then {A B} (o : outcome A) (f : A -> outcome B) : outcome B :=
  match o with
  | Returns a => f a
  | Raises r => Raises r
  end.

Notation "'attempt' x <- o ; k" := (and_then o (fun x => k))
  (at level 10, x pattern, o at level 100, k at level 200).

(** [value.get(key, default)]. *)
Definition get_or (value : json) (key : string) (default_value : json)
  : outcome json :=
  match value with
  | JDict d => Returns (default default_value (dict_get key d))
  | _ => Raises AttributeError
  end.

(** [d[key]] on a dictionary. *)
Definition subscript (d : list (string * json)) (key : string) : outcome json :=
  match dict_get key d with
  | Some v => Returns v
  | None => Raises (Lib KeyError)
  end.

(** [value[key]] with a string key: only a dictionary can be indexed by
    one. *)
Definition getitem (value : json) (key : string) : outcome json :=
  match value with
  | JDict d => subscript d key
  | _ => Raises (Lib TypeError)
  end.

(** The values a [for] loop takes from [value]: the elements of a list,
    the keys of a dictionary, the characters of a string, each a string. *)
Definition iterate (value : json) : outcome (list json) :=
  match value with
  | JList l => Returns l
  | JDict d => Returns (map (fun kv => JStr (fst kv)) d)
  | JStr s =>
      Returns (map (fun c => JStr (String c EmptyString)) (list_ascii_of_string s))
  | _ => Raises (Lib TypeError)
  end.

(** [value.get("levelOfDescription") == level], and the like. *)
Definition field_is (d : list (string * json)) (key text : string) : bool :=
  match dict_get key d with
  | Some (JStr s) => String.eqb s text
  | _ => false
  end.

(** The [date_range] entry: the logical dates of the inclusive start and
    end, each an empty string when the ancestor gives none. *)
Definition date_range_of (ancestor : list (string * json)) : outcome json :=
  attempt start_date <-
    get_or (default (JDict []) (dict_get "inclusiveStartDate" ancestor))
      "logicalDate" (JStr EmptyString);
  attempt end_date <-
    get_or (default (JDict []) (dict_get "inclusiveEndDate" ancestor))
      "logicalDate" (JStr EmptyString);
  Returns (JDict [("start", start_date); ("end", end_date)]).

Definition collection_info_of (ancestor : list (string * json)) : outcome json :=
  attempt naId <- subscript ancestor "naId";
  attempt title <- subscript ancestor "title";
  attempt date_range <- date_range_of ancestor;
  Returns (JDict [("naId", naId);
                  ("title", title);
                  ("collection_identifier",
                   default JNull (dict_get "collectionIdentifier" ancestor));
                  ("date_range", date_range)]).

Definition series_info_of (ancestor : list (string * json)) : outcome json :=
  attempt naId <- subscript ancestor "naId";
  attempt title <- subscript ancestor "title";
  attempt date_range <- date_range_of ancestor;
  Returns (JDict [("naId", naId);
                  ("title", title);
                  ("creators", default (JList []) (dict_get "creators" ancestor));
                  ("date_range", date_range)]).

(** The dictionary [extract_hierarchy_info] returns; [JNull] is [None]. *)
Record hierarchy : Type := mk_hierarchy { h_collection : json; h_series : json }.

(** The loop over the ancestors, with [collection_info] and [series_info]
    as its state. *)
Fixpoint scan_ancestors (ancestors : list json) (h : hierarchy)
  : outcome hierarchy :=
  match ancestors with
  | [] => Returns h
  | JDict ancestor :: rest =>
      if field_is ancestor "levelOfDescription" "collection" then
        attempt collection_info <- collection_info_of ancestor;
        scan_ancestors rest (mk_hierarchy collection_info (h_series h))
      else if field_is ancestor "levelOfDescription" "series" then
        attempt series_info <- series_info_of ancestor;
        scan_ancestors rest (mk_hierarchy (h_collection h) series_info)
      else scan_ancestors rest h
  | _ :: _ => Raises AttributeError
  end.

(** [extract_hierarchy_info(record)]. *)
Definition extract_hierarchy_info (record : list (string * json))
  : outcome hierarchy :=
  attempt ancestors <- iterate (default (JList []) (dict_get "ancestors" record));
  scan_ancestors ancestors (mk_hierarchy JNull JNull).

(** Whether the record lists an ancestor of the given level. *)
Definition has_ancestor (record : list (string * json)) (level : string) : bool :=
  match default (JList []) (dict_get "ancestors" record) with
  | JList ancestors =>
      existsb (fun a => match a with
                        | JDict d => field_is d "levelOfDescription" level
                        | _ => false
                        end) ancestors
  | _ => false
  end.

(** The loop that looks for the FOIA tracking number: the [number] of the
    first variant control number of that type. *)
Fixpoint find_foia (vcns : list json) : outcome json :=
  match vcns with
  | [] => Returns JNull
  | JDict vcn :: rest =>
      if field_is vcn "type" "FOIA Tracking Number"
      then Returns (default JNull (dict_get "number" vcn))
      else find_foia rest
  | _ :: _ => Raises AttributeError
  end.

(** [len(value)]. *)
Definition py_len (value : json) : outcome Z :=
  match value with
  | JList l => Returns (Z.of_nat (length l))
  | JDict d => Returns (Z.of_nat (length d))
  | JStr s => Returns (Z.of_nat (String.length s))
  | _ => Raises (Lib TypeError)
  end.

(** [value[0]] on a value that is not empty. *)
Definition first_of (value : json) : outcome json :=
  match value with
  | JList (x :: _) => Returns x
  | JList [] => Raises (Lib IndexError)
  | JStr (String c _) => Returns (JStr (String c EmptyString))
  | JStr EmptyString => Raises (Lib IndexError)
  | JDict _ => Raises (Lib KeyError)
  | _ => Raises (Lib TypeError)
  end.

(** [record.get("physicalOccurrences", [{}])[0]
     if record.get("physicalOccurrences") else None]. *)
Definition physical_location_of (record : list (string * json)) : outcome json :=
  if truthy (default JNull (dict_get "physicalOccurrences" record))
  then first_of (default (JList [JDict []]) (dict_get "physicalOccurrences" record))
  else Returns JNull.

(** Whether the digital objects of a record, when it has any, are a list of
    dictionaries, as [import_fileunit] declares them. *)
Definition typed_objects (record : list (string * json)) : bool :=
  match dict_get "digitalObjects" record with
  | None => true
  | Some (JList l) =>
      forallb (fun o => match o with JDict _ => true | _ => false end) l
  | Some _ => false
  end.

(** The arguments the importer declares with a type, read from the feed:
    an [int], a [str], an [Optional[str]], a [List[Dict]]. The feed gives
    values of these types; any other value stops the model here. *)
Definition as_int (j : json) : outcome Z :=
  match j with JInt n => Returns n | _ => Raises (Lib TypeError) end.
Definition as_text (j : json) : outcome string :=
  match j with JStr s => Returns s | _ => Raises (Lib TypeError) end.
Definition as_opt_text (j : json) : outcome (option string) :=
  match j with
  | JNull => Returns None
  | JStr s => Returns (Some s)
  | _ => Raises (Lib TypeError)
  end.
Fixpoint as_dicts (l : list json) : outcome (list (list (string * json))) :=
  match l with
  | [] => Returns []
  | JDict d :: rest => attempt ds <- as_dicts rest; Returns (d :: ds)
  | _ :: _ => Raises (Lib TypeError)
  end.
Definition as_objects (j : json) : outcome (list (list (string * json))) :=
  match j with
  | JList l => as_dicts l
  | _ => Raises (Lib TypeError)
  end.

(** The driver's computations: on the importer, with the driver's
    exceptions. *)
Definition D (A : Type) : Type := importer -> outcome A * importer.

Definition pure {A} (o : outcome A) : D A := fun s => (o, s).
Definition invoke {A} (m : M A) : D A :=
  fun s => match m s with
           | (Ok a, s') => (Returns a, s')
           | (Raise e, s') => (Raises (Lib e), s')
           end.
Definition seq {A B} (m : D A) (f : A -> D B) : D B :=
  fun s => match m s with
           | (Returns a, s') => f a s'
           | (Raises r, s') => (Raises r, s')
           end.

Notation "'act' x <- m ; k" := (seq m (fun x => k))
  (at level 10, x pattern, m at level 100, k at level 200).

(** [import_record(importer, record, record_num, total_records)]; the two
    numbers are logged only. *)
Definition import_record (w : world) (record : list (string * json)) : D string :=
  act hierarchy <- pure (extract_hierarchy_info record);
  if negb (truthy (h_collection hierarchy)) then pure (Raises (Lib ValueError))
  else if negb (truthy (h_series hierarchy)) then pure (Raises (Lib ValueError))
  else
    let collection := h_collection hierarchy in
    act collection_naid <- pure (attempt v <- getitem collection "naId"; as_int v);
    act collection_title <- pure (attempt v <- getitem collection "title"; as_text v);
    act collection_dates <- pure (getitem collection "date_range");
    act _ <- invoke (import_collection w collection_naid collection_title
                     collection_dates JNull);
    let series := h_series hierarchy in
    act series_naid <- pure (attempt v <- getitem series "naId"; as_int v);
    act series_title <- pure (attempt v <- getitem series "title"; as_text v);
    act series_dates <- pure (getitem series "date_range");
    act creators <- pure (getitem series "creators");
    act _ <- invoke (import_series w series_naid collection_naid series_title
                     series_dates creators JNull);
    act foia_tracking <-
      pure (attempt vcns <- iterate (default (JList [])
                                  (dict_get "variantControlNumbers" record));
            find_foia vcns);
    act _ <- pure (py_len (default (JList []) (dict_get "digitalObjects" record)));
    act fileunit_naid <- pure (subscript record "naId");
    act physical_location <- pure (physical_location_of record);
    act fileunit_naid <- pure (as_int fileunit_naid);
    act title <- pure (as_text (default (JStr "Untitled") (dict_get "title" record)));
    act digital_objects <-
      pure (as_objects (default (JList []) (dict_get "digitalObjects" record)));
    act foia_tracking <- pure (as_opt_text foia_tracking);
    invoke (import_fileunit w fileunit_naid series_naid collection_naid title
            (default (JList []) (dict_get "generalRecordsTypes" record))
            digital_objects
            (default JNull (dict_get "accessRestriction" record))
            foia_tracking physical_location
            (default JNull (dict_get "otherTitles" record))
            (JDict record)).

End Driver.

(* ------------------------------------------------------------------ *)
(** ** The loops of [main] in [import_limited.py] *)

Module LimitedRun.
Import Json Importer Driver.

Definition TOTAL_JSONL_FILES : Z := 72.
Definition MAX_FILE_UNITS : Z := 300.

(** The variables of [main] that the loops change, and the checkpoint
    file. *)
Record run_state : Type := mk_run {
  total_records_processed : Z;
  the_importer : importer;
  checkpoint_file : Checkpoint.file
}.

Section Loops.
Variable w : world.
(** [download_jsonl_file]: the records of a shard, an empty list when the
    download fails. *)
Variable download_jsonl_file : Z -> list (list (string * json)).
(** [datetime.now().isoformat()] at the time a checkpoint is written. *)
Variable now : importer -> string.

(** [for i, record in enumerate(records): ...], from index [i] on. A record
    that fails is logged and the loop goes on. *)
Fixpoint records_loop (file_num start_idx i : Z)
    (records : list (list (string * json))) (st : run_state) : run_state :=
  match records with
  | [] => st
  | record :: rest =>
      if MAX_FILE_UNITS <=? total_records_processed st then st
      else if i <? start_idx then records_loop file_num start_idx (i + 1) rest st
      else
        match import_record w record (the_importer st) with
        | (Returns _, imp) =>
            let total := total_records_processed st + 1 in
            let file :=
              if total mod 10 =? 0
              then Checkpoint.Limited.save_checkpoint file_num (i + 1) imp (now imp)
              else checkpoint_file st in
            records_loop file_num start_idx (i + 1) rest (mk_run total imp file)
        | (Raises _, imp) =>
            records_loop file_num start_idx (i + 1) rest
              (mk_run (total_records_processed st) imp (checkpoint_file st))
        end
  end.

(** [for file_num in range(start_file, TOTAL_JSONL_FILES + 1): ...]. *)
Fixpoint files_loop (start_file start_record_index : Z) (file_nums : list Z)
    (st : run_state) : run_state :=
  match file_nums with
  | [] => st
  | file_num :: rest =>
      if MAX_FILE_UNITS <=? total_records_processed st then st
      else
        match download_jsonl_file file_num with
        | [] => files_loop start_file start_record_index rest st
        | records =>
            let start_idx :=
              if file_num =? start_file then start_record_index else 0 in
            let st := records_loop file_num start_idx 0 records st in
            if MAX_FILE_UNITS <=? total_records_processed st then st
            else
              let imp := the_importer st in
              files_loop start_file 0 rest
                (mk_run (total_records_processed st) imp
                   (Checkpoint.Limited.save_checkpoint (file_num + 1) 0 imp (now imp)))
        end
  end.

(** The loops of [main], from the position and the importer that the
    checkpoint gave. *)
Definition main_loop (start_file start_record_index : Z) (imp : importer)
    (file : Checkpoint.file) : run_state :=
  files_loop start_file start_record_index
    (seqZ start_file (TOTAL_JSONL_FILES + 1 - start_file))
    (mk_run 0 imp file).

End Loops.

End LimitedRun.

(* ------------------------------------------------------------------ *)
(** ** Stub remotes and inputs for concrete runs *)

Module Scenarios.
Import Json Importer.

(** The bytes of an ASCII literal. *)
Definition bytes_of (s : string) : list Byte.byte := list_byte_of_string s.

(** A stub remote that serves one body for every URL, cut as given. *)
Definition stub (chunks : list (list Byte.byte)) : string -> HashUtils.fetch :=
  fun _ => HashUtils.Response 200 (fun _ => map HashUtils.Chunk chunks).

(** A store that answers every upload with an address computed from the
    bytes (here their digest) and their size. *)
Definition digest_store : Client.service :=
  Client.mk_service
    (fun _ _ _ => Client.Reply 404 JNull)
    (fun _ _ data =>
       Client.Reply 200 (JList [JDict [("cid", JStr (Sha256.sha256_hex data));
                                ("size", JInt (Z.of_nat (length data)))]])).

(** A store that always answers: the content address of an upload is the
    digest of its serialisation, and the identifier of a new entity is
    numbered by the calls issued before it. The network serves
    [hello world!] for every URL except those in [broken]. *)
Definition test_world (broken : list string) : world :=
  mk_world
    (fun _ data => Ok (Sha256.sha256_hex (Client.json_bytes data)))
    (fun _ => Ok "ARKE")
    (fun t _ _ _ =>
       Ok (mk_entity ("PI" +:+ PyStr.str_of_int (Z.of_nat (length t))) 1))
    (fun _ url =>
       if existsb (String.eqb url) broken then HashUtils.ConnectFailed
       else HashUtils.Response 200
              (fun _ => [HashUtils.Chunk (list_byte_of_string "hello world!")]))
    (fun _ => "2025-01-01T00:00:00Z").

(** A digital object of the feed. *)
Definition asset (id : string) : list (string * json) :=
  [("objectId", JStr id);
   ("objectFilename", JStr (id +:+ ".jpg"));
   ("objectType", JStr "Image (JPG)");
   ("objectUrl", JStr ("https://s3.amazonaws.com/NARAprodstorage/" +:+ id +:+ ".jpg"))].

Definition five_assets : list (list (string * json)) :=
  map asset ["101"; "102"; "103"; "104"; "105"].

Definition broken_third : list string :=
  ["https://s3.amazonaws.com/NARAprodstorage/103.jpg"].

Definition run_five : result string * importer :=
  import_fileunit (test_world broken_third) 23902919 7585787 7388842 "Folder"
    (JList [JStr "Textual Records"]) five_assets JNull None JNull JNull JNull
    (NARAImporter "WJC-NSCSW" false None None).

(** An importer in the middle of a run. *)
Definition importer_in_progress : importer :=
  set_institution "01INSTITUTION0000000000000"
    (set_mapping "7585787" "01SERIES000000000000000000"
       (set_mapping "7388842" "01COLLECTION00000000000000"
          (NARAImporter Checkpoint.COLLECTION_ID false None None))).

(** A store and a network that refuse everything. *)
Definition refusing_world : world :=
  mk_world (fun _ _ => Raise ArkeAPIError) (fun _ => Raise ArkeAPIError)
    (fun _ _ _ _ => Raise ArkeAPIError) (fun _ _ => HashUtils.ConnectFailed)
    (fun _ => "2025-01-01T00:00:00Z").

(** A store that accepts everything and names every entity alike, with a
    network that is down. *)
Definition plain_world : world :=
  mk_world (fun _ _ => Ok "bafy") (fun _ => Raise ArkeAPIError)
    (fun _ _ _ _ => Ok (mk_entity "01ENTITY" 1)) (fun _ _ => HashUtils.ConnectFailed)
    (fun _ => "2025-01-01T00:00:00Z").

End Scenarios.

(* ================================================================== *)
(** * Properties *)

#[local] Set Warnings "-clear-no-such-hyp".

Module PyStrFacts.
Import PyStr.

Lemma split_nonempty sep s : split sep s <> [].
Proof.
  destruct s as [|c s]; simpl; [discriminate|].
  destruct (Ascii.eqb c sep); [discriminate|].
  destruct (split sep s); discriminate.
Qed.

Lemma split_app_sep sep s t :
  split sep (s +:+ String sep t) = split sep s ++ split sep t.
Proof.
  induction s as [|c s IH]; simpl.
  - now rewrite Ascii.eqb_refl.
  - destruct (Ascii.eqb c sep); [now rewrite IH|].
    rewrite IH. pose proof (split_nonempty sep s) as Hne.
    destruct (split sep s); [congruence|reflexivity].
Qed.

Lemma split_no_sep sep s : has_char sep s = false -> split sep s = [s].
Proof.
  induction s as [|c s IH]; simpl; [reflexivity|].
  intros H. apply orb_false_iff in H as [Hc Hs].
  rewrite Hc, (IH Hs). reflexivity.
Qed.

Lemma split_with_sep sep s :
  has_char sep s = true -> (2 <= length (split sep s))%nat.
Proof.
  induction s as [|c s IH]; simpl; [discriminate|].
  intros H. destruct (Ascii.eqb c sep) eqn:Hc.
  - pose proof (split_nonempty sep s). destruct (split sep s); simpl; [congruence|lia].
  - simpl in H. specialize (IH H). destruct (split sep s); simpl in *; lia.
Qed.

Lemma join_split sep s : join (String sep EmptyString) (split sep s) = s.
Proof.
  induction s as [|c s IH]; simpl; [reflexivity|].
  destruct (Ascii.eqb c sep) eqn:Hc.
  - apply Ascii.eqb_eq in Hc. subst c.
    pose proof (split_nonempty sep s) as Hne.
    destruct (split sep s) as [|p ps]; [congruence|].
    simpl. simpl in IH. now rewrite IH.
  - pose proof (split_nonempty sep s) as Hne.
    destruct (split sep s) as [|p ps]; [congruence|].
    destruct ps as [|q qs]; simpl in *; now rewrite <- IH.
Qed.


Lemma str_app_assoc (a b c : string) : (a +:+ b) +:+ c = a +:+ (b +:+ c).
Proof.
  induction a as [|x a IH]; [reflexivity|].
  change (String x ((a +:+ b) +:+ c) = String x (a +:+ b +:+ c)).
  now rewrite IH.
Qed.

Lemma str_sep_app (c : ascii) (b : string) :
  String c EmptyString +:+ b = String c b.
Proof. reflexivity. Qed.

(** Splitting five fields joined by the separator. *)
Lemma split_joined sep (p c t n u : string) :
  let s := String sep EmptyString in
  split sep ((p +:+ s +:+ c +:+ s +:+ t +:+ s +:+ n) +:+ s +:+ u)
  = split sep p ++ split sep c ++ split sep t ++ split sep n ++ split sep u.
Proof.
  intros s. subst s. rewrite !str_app_assoc, !str_sep_app.
  now rewrite !split_app_sep.
Qed.

(** Decide the integer comparisons of a goal, keeping the feasible branch. *)
Ltac zbool :=
  repeat match goal with
  | |- context [?a <? ?b] => destruct (Z.ltb_spec a b); try lia
  | |- context [?a <=? ?b] => destruct (Z.leb_spec a b); try lia
  end; cbn [orb andb negb].

(** Indexing and slicing a list of the shape [a :: m ++ [x; y; z]], the
    shape of the parts of a well-formed identifier. *)
Section Shape.
Context {A : Type} (a x y z : A) (m : list A).
Let parts := a :: m ++ [x; y; z].

Lemma shape_length : length parts = (length m + 4)%nat.
Proof. subst parts. simpl. rewrite length_app. simpl. lia. Qed.

Lemma index_shape_0 : index parts 0 = Ok a.
Proof.
  unfold index. rewrite shape_length. zbool. reflexivity.
Qed.

Lemma index_shape_neg (k : nat) (v : A) :
  (1 <= k <= 3)%nat -> [x; y; z] !! (3 - k)%nat = Some v ->
  index parts (- Z.of_nat k) = Ok v.
Proof.
  intros Hk Hv. unfold index. rewrite shape_length. zbool.
  replace (Z.to_nat (- Z.of_nat k + Z.of_nat (length m + 4)))
    with (S (length m + (3 - k)))%nat by lia.
  subst parts. simpl. rewrite lookup_app_r by lia.
  replace (length m + (3 - k) - length m)%nat with (3 - k)%nat by lia.
  now rewrite Hv.
Qed.

Lemma slice_shape : slice parts 1 (-3) = m.
Proof.
  unfold slice, clamp. rewrite shape_length. zbool.
  replace (Z.max 0 (Z.min (Z.of_nat (length m + 4)) 1)) with 1 by lia.
  replace (Z.max 0 (Z.min (Z.of_nat (length m + 4)) (-3 + Z.of_nat (length m + 4))))
    with (Z.of_nat (length m) + 1) by lia.
  replace (Z.to_nat (Z.of_nat (length m) + 1 - 1)) with (length m) by lia.
  change (Z.to_nat 1) with 1%nat.
  subst parts. cbn [drop]. apply take_app_length.
Qed.
End Shape.

(** No part of a split holds the separator. *)
Lemma split_parts_no_sep sep s :
  Forall (fun p => has_char sep p = false) (split sep s).
Proof.
  induction s as [|c s IH]; simpl.
  - repeat constructor.
  - destruct (Ascii.eqb c sep) eqn:Hc.
    + constructor; [reflexivity|exact IH].
    + destruct (split sep s) as [|p ps]; [repeat constructor; simpl; now rewrite Hc|].
      apply Forall_cons_iff in IH as [Hp Hps].
      constructor; [simpl; now rewrite Hc|exact Hps].
Qed.

(** Joining two non-empty lists of parts. *)
Lemma join_app sep (l1 l2 : list string) :
  l1 <> [] -> l2 <> [] ->
  join sep (l1 ++ l2) = join sep l1 +:+ sep +:+ join sep l2.
Proof.
  intros H1 H2. induction l1 as [|a l1 IH]; [congruence|].
  destruct l1 as [|b l1].
  - simpl. destruct l2; [congruence|reflexivity].
  - change (join sep ((a :: b :: l1) ++ l2))
      with (a +:+ sep +:+ join sep ((b :: l1) ++ l2)).
    rewrite IH by discriminate.
    change (join sep (a :: b :: l1)) with (a +:+ sep +:+ join sep (b :: l1)).
    now rewrite !str_app_assoc.
Qed.

(** A list of four elements or more is a head, a middle and three last
    elements. *)
Lemma list_shape {A} (l : list A) :
  (4 <= length l)%nat ->
  exists a m x y z, l = a :: m ++ [x; y; z] /\ length m = (length l - 4)%nat.
Proof.
  intros Hlen. destruct l as [|a l]; [simpl in Hlen; lia|].
  simpl in Hlen.
  assert (Hsplit : l = take (length l - 3) l ++ drop (length l - 3) l)
    by (symmetry; apply take_drop).
  assert (Hd : length (drop (length l - 3) l) = 3%nat)
    by (rewrite length_drop; lia).
  destruct (drop (length l - 3) l) as [|x [|y [|z [|? ?]]]]; simpl in Hd; try lia.
  exists a, (take (length l - 3) l), x, y, z. split.
  - now rewrite <- Hsplit.
  - rewrite length_take. simpl. lia.
Qed.

End PyStrFacts.

Module NaraPiFacts.
Import PyStr PyStrFacts NaraPi.

Example parse_pi_docstring :
  parse_pi "NARA-WJC-NSCSW-FILE-23902919-01JABBCCDDEEFFGGHHKKMMNNPP"
  = Ok (mk_parsed "NARA" "WJC-NSCSW" "FILE" "23902919" "01JABBCCDDEEFFGGHHKKMMNNPP").
Proof. reflexivity. Qed.

Example generate_semantic_id_docstring :
  generate_semantic_id "WJC-NSCSW" "COL" (IdInt 7388842) = "NARA-WJC-NSCSW-COL-7388842".
Proof. vm_compute. reflexivity. Qed.

Example is_valid_pi_invalid : is_valid_pi "invalid-pi" = Ok false.
Proof. reflexivity. Qed.


(** The parts of a generated identifier followed by a ULID. *)
Lemma split_generated cid ty nid ul :
  has_char "-" ty = false ->
  has_char "-" (format_id nid) = false ->
  has_char "-" ul = false ->
  split "-" (generate_semantic_id cid ty nid +:+ "-" +:+ ul)
  = "NARA" :: split "-" cid ++ [ty; format_id nid; ul].
Proof.
  intros Hty Hnid Hul. unfold generate_semantic_id.
  change ("NARA-" +:+ ?r) with ("NARA" +:+ "-" +:+ r).
  rewrite (split_joined "-" "NARA" cid ty (format_id nid) ul).
  rewrite (split_no_sep _ _ Hty), (split_no_sep _ _ Hnid), (split_no_sep _ _ Hul).
  reflexivity.
Qed.

Lemma valid_type_no_hyphen ty : In ty valid_types -> has_char "-" ty = false.
Proof.
  unfold valid_types. simpl.
  intros [<-|[<-|[<-|[<-|[]]]]]; reflexivity.
Qed.

Lemma valid_type_accepted ty :
  In ty valid_types -> existsb (String.eqb ty) valid_types = true.
Proof.
  intros H. apply existsb_exists. exists ty. split; [exact H|apply String.eqb_refl].
Qed.


(** A collection id without a hyphen gives five parts, which [parse_pi]
    refuses: its length test asks for six. *)
Lemma parse_pi_single_part_collection cid ty nid ul :
  has_char "-" cid = false ->
  In ty valid_types ->
  has_char "-" (format_id nid) = false ->
  has_char "-" ul = false ->
  parse_pi (generate_semantic_id cid ty nid +:+ "-" +:+ ul) = Raise ValueError.
Proof.
  intros Hcid Hty Hnid Hul. unfold parse_pi.
  rewrite (split_generated _ _ _ _ (valid_type_no_hyphen _ Hty) Hnid Hul).
  rewrite (split_no_sep _ _ Hcid). reflexivity.
Qed.

(** C8, counterexample: with the collection id "TEST" (the one
    [test_arke_linking.py] uses) the generated identifier followed by a ULID
    is rejected by [parse_pi] with a ValueError, and [is_valid_pi] answers
    False. *)
Lemma parse_pi_rejects_hyphenless_collection :
  let pi := generate_semantic_id "TEST" "COL" (IdStr "7388842")
            +:+ "-" +:+ "01JABBCCDDEEFFGGHHKKMMNNPP" in
  parse_pi pi = Raise ValueError /\ is_valid_pi pi = Ok false.
Proof. split; reflexivity. Qed.

(** C8, amended: for every collection id that contains at least one hyphen,
    every entity type among COL, SER, FILE and OBJ, and every hyphen-free
    nara id and ULID, [parse_pi] applied to
    [generate_semantic_id(collection_id, entity_type, nara_id) + "-" + ulid]
    returns the prefix "NARA" and exactly those four components, and
    [is_valid_pi] returns True. *)
Theorem parse_pi_generated_roundtrip cid ty nid ul :
  has_char "-" cid = true ->
  In ty valid_types ->
  has_char "-" (format_id nid) = false ->
  has_char "-" ul = false ->
  let pi := generate_semantic_id cid ty nid +:+ "-" +:+ ul in
  parse_pi pi = Ok (mk_parsed "NARA" cid ty (format_id nid) ul)
  /\ is_valid_pi pi = Ok true.
Proof.
  intros Hcid Hty Hnid Hul pi.
  assert (Hparse : parse_pi pi = Ok (mk_parsed "NARA" cid ty (format_id nid) ul)).
  { subst pi. unfold parse_pi.
    rewrite (split_generated _ _ _ _ (valid_type_no_hyphen _ Hty) Hnid Hul).
    pose proof (split_with_sep _ _ Hcid) as Hlen.
    set (m := split "-" cid) in *.
    destruct (Nat.ltb_spec (length ("NARA" :: m ++ [ty; format_id nid; ul])) 6)
      as [Hlt|_].
    { rewrite shape_length in Hlt. lia. }
    rewrite index_shape_0. cbn [String.eqb Ascii.eqb Bool.eqb negb].
    rewrite (index_shape_neg _ _ _ _ _ 3 ty) by (reflexivity || lia).
    rewrite (index_shape_neg _ _ _ _ _ 2 (format_id nid)) by (reflexivity || lia).
    rewrite (index_shape_neg _ _ _ _ _ 1 ul) by (reflexivity || lia).
    rewrite slice_shape. subst m. rewrite join_split.
    now rewrite (valid_type_accepted _ Hty). }
  split; [exact Hparse|]. unfold is_valid_pi. now rewrite Hparse.
Qed.

Lemma parse_pi_generated_roundtrip_witness :
  let pi := generate_semantic_id "WJC-NSCSW" "FILE" (IdStr "23902919")
            +:+ "-" +:+ "01JABBCCDDEEFFGGHHKKMMNNPP" in
  parse_pi pi
  = Ok (mk_parsed "NARA" "WJC-NSCSW" "FILE" "23902919" "01JABBCCDDEEFFGGHHKKMMNNPP")
  /\ is_valid_pi pi = Ok true.
Proof.
  apply (parse_pi_generated_roundtrip "WJC-NSCSW" "FILE" (IdStr "23902919")
           "01JABBCCDDEEFFGGHHKKMMNNPP").
  - reflexivity.
  - simpl. auto.
  - reflexivity.
  - reflexivity.
Defined.

(** The parts of an identifier that [parse_pi] accepts. *)
Lemma parse_pi_parts pi p :
  parse_pi pi = Ok p ->
  exists m,
    split "-" pi = "NARA" :: m ++ [entity_type p; nara_id_part p; ulid p]
    /\ (2 <= length m)%nat
    /\ prefix p = "NARA"
    /\ collection_id p = join "-" m
    /\ existsb (String.eqb (entity_type p)) valid_types = true.
Proof.
  unfold parse_pi. intros H.
  destruct (Nat.ltb_spec (length (split "-" pi)) 6) as [|Hlen]; [discriminate|].
  destruct (list_shape (split "-" pi)) as (a & m & x & y & z & Hparts & Hm); [lia|].
  rewrite Hparts in H. rewrite index_shape_0 in H.
  destruct (String.eqb a "NARA") eqn:Ha; cbn [negb] in H; [|discriminate].
  apply String.eqb_eq in Ha. subst a.
  rewrite (index_shape_neg _ _ _ _ _ 3 x) in H by (reflexivity || lia).
  rewrite (index_shape_neg _ _ _ _ _ 2 y) in H by (reflexivity || lia).
  rewrite (index_shape_neg _ _ _ _ _ 1 z) in H by (reflexivity || lia).
  rewrite slice_shape in H.
  destruct (existsb (String.eqb x) valid_types) eqn:Hty; cbn [negb] in H;
    [|discriminate].
  injection H as <-. cbn [entity_type nara_id_part ulid prefix collection_id].
  exists m. repeat split; auto. lia.
Qed.

(** X1: an identifier that [parse_pi] accepts is exactly its five fields
    joined by hyphens: the prefix is "NARA", the entity type is one of COL,
    SER, FILE and OBJ, the nara id and the ULID hold no hyphen, and the
    collection id holds at least one. *)
Theorem parse_pi_sound pi p :
  parse_pi pi = Ok p ->
  pi = join "-" [prefix p; collection_id p; entity_type p; nara_id_part p; ulid p]
  /\ prefix p = "NARA"
  /\ In (entity_type p) valid_types
  /\ has_char "-" (nara_id_part p) = false
  /\ has_char "-" (ulid p) = false
  /\ has_char "-" (collection_id p) = true.
Proof.
  intros H. destruct (parse_pi_parts _ _ H) as (m & Hparts & Hm & Hpre & Hcid & Hty).
  pose proof (split_parts_no_sep "-" pi) as Hno. rewrite Hparts in Hno.
  apply Forall_cons_iff in Hno as [_ Hno]. apply Forall_app in Hno as [Hnom Hno].
  apply Forall_cons_iff in Hno as [_ Hno]. apply Forall_cons_iff in Hno as [Hn Hno].
  apply Forall_cons_iff in Hno as [Hu _].
  split; [|split; [exact Hpre|split; [|split; [exact Hn|split; [exact Hu|]]]]].
  - rewrite <- (join_split "-" pi) at 1. rewrite Hparts, Hpre, Hcid.
    change ("NARA" :: m ++ [entity_type p; nara_id_part p; ulid p])
      with (["NARA"] ++ m ++ [entity_type p; nara_id_part p; ulid p]).
    assert (m <> []) by (destruct m; simpl in Hm; [lia|discriminate]).
    rewrite (join_app "-" ["NARA"]); [|discriminate|now destruct m].
    rewrite (join_app "-" m); [|assumption|discriminate].
    reflexivity.
  - apply existsb_exists in Hty as (ty & Hin & Heq).
    apply String.eqb_eq in Heq. now subst ty.
  - rewrite Hcid. destruct m as [|a [|b m]]; simpl in Hm; try lia.
    clear. generalize (join "-" (b :: m)). intros r.
    change (join "-" (a :: b :: m)) with (a +:+ "-" +:+ join "-" (b :: m)).
    induction a as [|c a IH]; simpl.
    + reflexivity.
    + destruct (Ascii.eqb c "-"); [reflexivity|exact IH].
Qed.

Lemma parse_pi_sound_witness :
  let pi := "NARA-WJC-NSCSW-OBJ-55251313-01JABBCCDDEEFFGGHHKKMMNNPP" in
  let p := mk_parsed "NARA" "WJC-NSCSW" "OBJ" "55251313" "01JABBCCDDEEFFGGHHKKMMNNPP" in
  pi = join "-" [prefix p; collection_id p; entity_type p; nara_id_part p; ulid p]
  /\ prefix p = "NARA"
  /\ In (entity_type p) valid_types
  /\ has_char "-" (nara_id_part p) = false
  /\ has_char "-" (ulid p) = false
  /\ has_char "-" (collection_id p) = true.
Proof.
  intros pi p. apply (parse_pi_sound pi p). reflexivity.
Defined.

(** X2: [parse_pi] raises nothing but [ValueError]: after its length test
    the three negative indices are in range. So [is_valid_pi] never raises,
    and it returns True exactly when [parse_pi] returns; in particular a
    string with fewer than five hyphens, or whose part before the first
    hyphen is not "NARA", is not valid. *)
Theorem is_valid_pi_total pi :
  (is_ok (parse_pi pi) = true \/ parse_pi pi = Raise ValueError)
  /\ is_valid_pi pi = Ok (is_ok (parse_pi pi))
  /\ ((length (split "-" pi) < 6)%nat -> is_valid_pi pi = Ok false)
  /\ (hd EmptyString (split "-" pi) <> "NARA" -> is_valid_pi pi = Ok false).
Proof.
  assert (Hcases : is_ok (parse_pi pi) = true \/ parse_pi pi = Raise ValueError).
  { unfold parse_pi.
    destruct (Nat.ltb_spec (length (split "-" pi)) 6) as [|Hlen]; [now right|].
    destruct (list_shape (split "-" pi)) as (a & m & x & y & z & Hparts & Hm); [lia|].
    rewrite Hparts, index_shape_0.
    destruct (negb (String.eqb a "NARA")); [now right|].
    rewrite (index_shape_neg _ _ _ _ _ 3 x) by (reflexivity || lia).
    rewrite (index_shape_neg _ _ _ _ _ 2 y) by (reflexivity || lia).
    rewrite (index_shape_neg _ _ _ _ _ 1 z) by (reflexivity || lia).
    destruct (negb (existsb (String.eqb x) valid_types)); [now right|now left]. }
  assert (Hvalid : is_valid_pi pi = Ok (is_ok (parse_pi pi))).
  { unfold is_valid_pi. destruct Hcases as [H|H].
    - destruct (parse_pi pi); [reflexivity|discriminate].
    - now rewrite H. }
  split; [exact Hcases|]. split; [exact Hvalid|]. split.
  - intros Hlen. rewrite Hvalid. unfold parse_pi.
    destruct (Nat.ltb_spec (length (split "-" pi)) 6); [reflexivity|lia].
  - intros Hpre. rewrite Hvalid. f_equal.
    destruct (parse_pi pi) as [p|] eqn:Hp; [|reflexivity].
    destruct (parse_pi_parts _ _ Hp) as (m & Hparts & _).
    rewrite Hparts in Hpre. now elim Hpre.
Qed.

(** The decimal text of a natural number holds no hyphen. *)
Lemma pretty_N_go_no_hyphen (x : N) : forall s,
  has_char "-" s = false -> has_char "-" (pretty_N_go x s) = false.
Proof.
  induction (N.lt_wf_0 x) as [x _ IH]. intros s Hs.
  destruct (decide (x = 0)%N) as [->|Hx].
  - now rewrite pretty_N_go_0.
  - rewrite pretty_N_go_step by lia. apply IH.
    + apply N.div_lt; lia.
    + simpl. rewrite Hs, orb_false_r.
      unfold pretty_N_char. now repeat case_match.
Qed.

Lemma str_of_int_no_hyphen (n : Z) :
  0 <= n -> has_char "-" (str_of_int n) = false.
Proof.
  intros Hn. unfold str_of_int, pretty, pretty_Z.
  destruct n as [|p|p]; [reflexivity| |lia].
  unfold pretty, pretty_positive, pretty, pretty_N.
  case_decide; [reflexivity|]. now apply pretty_N_go_no_hyphen.
Qed.

(** [parse_pi] read off the parts. *)
Lemma parse_pi_of_parts pi m x y z :
  split "-" pi = "NARA" :: m ++ [x; y; z] ->
  (2 <= length m)%nat ->
  existsb (String.eqb x) valid_types = true ->
  parse_pi pi = Ok (mk_parsed "NARA" (join "-" m) x y z).
Proof.
  intros Hparts Hm Hty. unfold parse_pi. rewrite Hparts.
  destruct (Nat.ltb_spec (length ("NARA" :: m ++ [x; y; z])) 6) as [Hlt|_].
  { rewrite shape_length in Hlt. lia. }
  rewrite index_shape_0. cbn [String.eqb Ascii.eqb Bool.eqb negb].
  rewrite (index_shape_neg _ _ _ _ _ 3 x) by (reflexivity || lia).
  rewrite (index_shape_neg _ _ _ _ _ 2 y) by (reflexivity || lia).
  rewrite (index_shape_neg _ _ _ _ _ 1 z) by (reflexivity || lia).
  rewrite slice_shape. now rewrite Hty.
Qed.

(** X3: for a collection id with a hyphen, a valid entity type, a
    non-negative integer nara id and a hyphen-free ULID,
    [extract_nara_id] and [extract_entity_type] give back the decimal text
    of the nara id and the entity type from the generated identifier
    followed by the ULID; and whatever the string, [extract_entity_type]
    returns only COL, SER, FILE or OBJ. *)
Theorem extract_from_generated cid ty (n : Z) ul :
  has_char "-" cid = true ->
  In ty valid_types ->
  0 <= n ->
  has_char "-" ul = false ->
  let pi := generate_semantic_id cid ty (IdInt n) +:+ "-" +:+ ul in
  extract_nara_id pi = Ok (str_of_int n)
  /\ extract_entity_type pi = Ok ty
  /\ forall s ty', extract_entity_type s = Ok ty' -> In ty' valid_types.
Proof.
  intros Hcid Hty Hn Hul pi.
  assert (Hparse : parse_pi pi = Ok (mk_parsed "NARA" cid ty (str_of_int n) ul)).
  { pose proof (parse_pi_of_parts pi (split "-" cid) ty (str_of_int n) ul) as H.
    rewrite join_split in H. apply H.
    - apply (split_generated cid ty (IdInt n) ul);
        [now apply valid_type_no_hyphen|now apply str_of_int_no_hyphen|exact Hul].
    - now apply split_with_sep.
    - now apply valid_type_accepted. }
  unfold extract_nara_id, extract_entity_type. rewrite Hparse.
  split; [reflexivity|]. split; [reflexivity|].
  intros s ty' H. destruct (parse_pi s) as [p|] eqn:Hp; [|discriminate].
  injection H as <-.
  destruct (parse_pi_parts _ _ Hp) as (m & _ & _ & _ & _ & Hin).
  apply existsb_exists in Hin as (t & Hin & Heq).
  apply String.eqb_eq in Heq. now subst t.
Qed.

Lemma extract_from_generated_witness :
  let pi := generate_semantic_id "WJC-NSCSW" "FILE" (IdInt 23902919)
            +:+ "-" +:+ "01JABBCCDDEEFFGGHHKKMMNNPP" in
  extract_nara_id pi = Ok (str_of_int 23902919)
  /\ extract_entity_type pi = Ok "FILE".
Proof.
  intros pi.
  destruct (extract_from_generated "WJC-NSCSW" "FILE" 23902919
              "01JABBCCDDEEFFGGHHKKMMNNPP") as (H1 & H2 & _).
  - reflexivity.
  - simpl. auto.
  - lia.
  - reflexivity.
  - split; assumption.
Defined.

End NaraPiFacts.

Module Sha256Facts.
Import Sha256 Scenarios.

Example sha256_empty :
  sha256_hex [] = "e3b0c44298fc1c149afbf4c8996fb92427ae41e4649b934ca495991b7852b855".
Proof. vm_compute. reflexivity. Qed.

Example sha256_abc :
  sha256_hex (bytes_of "abc")
  = "ba7816bf8f01cfea414140de5dae2223b00361a396177a9cb410ff61f20015ad".
Proof. vm_compute. reflexivity. Qed.

Example sha256_two_blocks :
  sha256_hex (repeat Byte.x61 119)
  = "31eba51c313a5c08226adf18d4a359cfdfd8d2e816b13f4af952f7ea6584dcfb".
Proof. vm_compute. reflexivity. Qed.

Example sha256_56_bytes :
  sha256_hex (repeat Byte.x61 56)
  = "b35439a4ac6f0948b6d6f9e3c6af0f5f590ce20f1bde7090ef7970686ec6738a".
Proof. vm_compute. reflexivity. Qed.

End Sha256Facts.

Module JsonFacts.
Import Json.

Example dumps_sorted :
  dumps (JDict [("b", JInt 2); ("a", JList [JStr "x"; JNull; JBool true])])
  = String "{" (String quote ("a" +:+ String quote (": [" +:+ String quote ("x"
      +:+ String quote (", null, true], " +:+ String quote ("b"
      +:+ String quote ": 2}")))))).
Proof. vm_compute. reflexivity. Qed.

Example dumps_escapes :
  dumps (JStr (String "010" (String "233" (String backslash "a"))))
  = String quote (String backslash ("n" +:+ String backslash ("u00e9"
      +:+ String backslash (String backslash ("a" +:+ String quote EmptyString))))).
Proof. vm_compute. reflexivity. Qed.

(** Induction over documents, with the hypothesis available for every
    element of a list and every value of a dictionary. *)
Section Induction.
Variable P : json -> Prop.
Hypothesis Hnull : P JNull.
Hypothesis Hbool : forall b, P (JBool b).
Hypothesis Hint : forall n, P (JInt n).
Hypothesis Hstr : forall s, P (JStr s).
Hypothesis Hlist : forall l, Forall P l -> P (JList l).
Hypothesis Hdict : forall d, Forall (fun kv => P (snd kv)) d -> P (JDict d).

Fixpoint json_nested_ind (j : json) : P j :=
  match j with
  | JNull => Hnull
  | JBool b => Hbool b
  | JInt n => Hint n
  | JStr s => Hstr s
  | JList l =>
      Hlist l ((fix go l : Forall P l :=
                  match l with
                  | [] => @List.Forall_nil _ P
                  | x :: r => @List.Forall_cons _ P x r (json_nested_ind x) (go r)
                  end) l)
  | JDict d =>
      Hdict d ((fix go d : Forall (fun kv => P (snd kv)) d :=
                  match d with
                  | [] => @List.Forall_nil _ _
                  | kv :: r =>
                      @List.Forall_cons _ (fun kv => P (snd kv)) kv r
                                        (json_nested_ind (snd kv)) (go r)
                  end) d)
  end.
End Induction.

Lemma distinct_NoDup l : distinct l = true <-> NoDup l.
Proof.
  induction l as [|k r IH]; simpl.
  - split; [constructor|trivial].
  - rewrite andb_true_iff, negb_true_iff, IH, NoDup_cons.
    apply and_iff_compat_r. rewrite <- not_true_iff_false, existsb_exists.
    split.
    + intros Hn Hin. apply Hn. exists k. split; [now apply list_elem_of_In|].
      apply String.eqb_refl.
    + intros Hn (x & Hin & Heq). apply String.eqb_eq in Heq. subst x.
      apply Hn. now apply list_elem_of_In.
Qed.

Lemma wf_list l : wf (JList l) = true <-> Forall (fun x => wf x = true) l.
Proof.
  induction l as [|x r IH]; simpl.
  - split; [constructor|trivial].
  - simpl in IH. rewrite andb_true_iff, Forall_cons_iff, <- IH. tauto.
Qed.

Lemma wf_dict d :
  wf (JDict d) = true
  <-> NoDup (map fst d) /\ Forall (fun kv => wf (snd kv) = true) d.
Proof.
  simpl. rewrite andb_true_iff, distinct_NoDup. apply and_iff_compat_l.
  induction d as [|kv r IH]; simpl.
  - split; [constructor|trivial].
  - rewrite andb_true_iff, Forall_cons_iff, <- IH. tauto.
Qed.

Lemma same_mapping_list l1 l2 :
  same_mapping (JList l1) (JList l2) = true
  <-> Forall2 (fun x y => same_mapping x y = true) l1 l2.
Proof.
  revert l2. induction l1 as [|x r1 IH]; intros [|y r2]; simpl.
  - split; [constructor|trivial].
  - split; [discriminate|inversion 1].
  - split; [discriminate|inversion 1].
  - simpl in IH. rewrite andb_true_iff, IH. split.
    + intros [? ?]. now constructor.
    + inversion 1; subst. tauto.
Qed.

Lemma same_mapping_dict d1 d2 :
  same_mapping (JDict d1) (JDict d2) = true
  <-> length d1 = length d2
      /\ Forall (fun kv => exists v', dict_get (fst kv) d2 = Some v'
                                      /\ same_mapping (snd kv) v' = true) d1.
Proof.
  simpl. rewrite andb_true_iff, Nat.eqb_eq. apply and_iff_compat_l.
  induction d1 as [|kv r IH]; simpl.
  - split; [constructor|trivial].
  - rewrite andb_true_iff, IH, Forall_cons_iff. apply and_iff_compat_r.
    destruct (dict_get (fst kv) d2) as [v'|].
    + split; [eauto|]. now intros (? & [= <-] & ?).
    + split; [discriminate|]. now intros (? & [=] & _).
Qed.

Lemma dict_get_In k v d : dict_get k d = Some v -> In (k, v) d.
Proof.
  induction d as [|[k' v'] r IH]; simpl; [discriminate|].
  destruct (String.eqb k' k) eqn:E.
  - apply String.eqb_eq in E. intros [= <-]. subst. now left.
  - intros H. right. auto.
Qed.


Global Instance key_le_trans {A} : Transitive (@key_le A).
Proof. intros x y z. unfold key_le. apply transitivity. Qed.

Global Instance key_le_total {A} : Total (@key_le A).
Proof. intros x y. unfold key_le. apply (total String.le). Qed.

Lemma NoDup_keys_inj {A} (l : list (string * A)) x y :
  NoDup (map fst l) -> In x l -> In y l -> fst x = fst y -> x = y.
Proof.
  induction l as [|z r IH]; simpl; [tauto|].
  intros Hnd Hx Hy Hk. apply NoDup_ListNoDup in Hnd.
  apply List.NoDup_cons_iff in Hnd as [Hz Hr]. apply NoDup_ListNoDup in Hr.
  destruct Hx as [->|Hx], Hy as [->|Hy]; auto.
  - exfalso. apply Hz. rewrite Hk. now apply in_map.
  - exfalso. apply Hz. rewrite <- Hk. now apply in_map.
Qed.

(** Two key-sorted lists with the same items and no repeated key are equal. *)
Lemma key_sorted_unique {A} (l1 l2 : list (string * A)) :
  NoDup (map fst l1) -> Sorted key_le l1 -> Sorted key_le l2 ->
  l1 ≡ₚ l2 -> l1 = l2.
Proof.
  intros Hnd H1 H2 Hp. apply (Sorted_unique_strong key_le); auto.
  intros x1 x2 Hx1 Hx2 H12 H21.
  apply (NoDup_keys_inj l1); auto.
  - now apply list_elem_of_In.
  - apply list_elem_of_In. now rewrite Hp.
  - unfold key_le in *. now apply (anti_symm String.le).
Qed.

(** Sorting forgets the insertion order. *)
Lemma sort_items_perm {A} (l1 l2 : list (string * A)) :
  NoDup (map fst l1) -> l1 ≡ₚ l2 -> sort_items l1 = sort_items l2.
Proof.
  intros Hnd Hp. unfold sort_items. apply key_sorted_unique.
  - now rewrite (merge_sort_Permutation key_le l1).
  - apply Sorted_merge_sort; apply _.
  - apply Sorted_merge_sort; apply _.
  - now rewrite !merge_sort_Permutation.
Qed.

Lemma Sorted_key_map {A B} (f : A -> B) (l : list (string * A)) :
  Sorted key_le l -> Sorted key_le (map (fun kv => (fst kv, f (snd kv))) l).
Proof.
  induction 1 as [|x r Hr IH Hhd]; simpl; constructor; auto.
  destruct Hhd; simpl; constructor. exact H.
Qed.

(** Rendering the values and sorting by key commute: sorting the rendered
    items gives what the encoder produces by sorting first. *)
Lemma sort_items_map {A B} (f : A -> B) (l : list (string * A)) :
  NoDup (map fst l) ->
  sort_items (map (fun kv => (fst kv, f (snd kv))) l)
  = map (fun kv => (fst kv, f (snd kv))) (sort_items l).
Proof.
  intros Hnd. unfold sort_items.
  set (g := fun kv : string * A => (fst kv, f (snd kv))).
  apply key_sorted_unique.
  - rewrite (merge_sort_Permutation key_le (map g l)).
    now rewrite map_map.
  - apply Sorted_merge_sort; apply _.
  - apply Sorted_key_map. apply Sorted_merge_sort; apply _.
  - rewrite merge_sort_Permutation. apply Permutation_map.
    symmetry. apply merge_sort_Permutation.
Qed.

(** The dictionary case in the encoder's own order: sort, then render. *)
Lemma dumps_dict_sorted_first d :
  NoDup (map fst d) ->
  dumps (JDict d)
  = "{" +:+ PyStr.join ", "
              (map (fun kv => encode_str (fst kv) +:+ ": " +:+ dumps (snd kv))
                   (sort_items d))
        +:+ "}".
Proof.
  intros Hnd. cbn [dumps]. rewrite (sort_items_map dumps d Hnd).
  now rewrite map_map.
Qed.

(** Documents that are equal as mappings are serialised to the same text. *)
Lemma dumps_same_mapping a :
  forall b, wf a = true -> wf b = true -> same_mapping a b = true ->
            dumps a = dumps b.
Proof.
  induction a as [| x | x | x | l1 IH | d1 IH] using json_nested_ind;
    intros b Ha Hb Hab; destruct b as [| y | y | y | l2 | d2];
    try discriminate Hab.
  - reflexivity.
  - simpl in Hab. apply Bool.eqb_prop in Hab. now subst.
  - simpl in Hab. apply Z.eqb_eq in Hab. now subst.
  - simpl in Hab. apply String.eqb_eq in Hab. now subst.
  - apply same_mapping_list in Hab. apply wf_list in Ha, Hb.
    assert (Hmap : map dumps l1 = map dumps l2).
    { revert Ha Hb IH. induction Hab as [|x y r1 r2 Hxy Hr IHr]; intros Ha Hb IH.
      - reflexivity.
      - apply Forall_cons_iff in Ha as [Hx Ha], Hb as [Hy Hb], IH as [IHx IH].
        cbn [map]. f_equal; [now apply IHx|now apply IHr]. }
    cbn [dumps]. now rewrite Hmap.
  - apply same_mapping_dict in Hab as [Hlen Hall].
    apply wf_dict in Ha as [Hnd1 Hwf1], Hb as [Hnd2 Hwf2].
    cbn [dumps]. do 3 f_equal.
    set (g := fun kv : string * json => (fst kv, dumps (snd kv))).
    f_equal. apply sort_items_perm.
    { now rewrite map_map. }
    apply NoDup_Permutation_bis.
    + apply NoDup_ListNoDup. apply (NoDup_fmap_1 fst).
      change (NoDup (map fst (map g d1))). now rewrite map_map.
    + rewrite !length_map. lia.
    + intros e He. apply in_map_iff in He as (kv & <- & Hkv).
      rewrite Forall_forall in Hall, IH, Hwf1, Hwf2.
      destruct (Hall kv) as (v' & Hget & Hsame); [now apply list_elem_of_In|].
      apply dict_get_In in Hget.
      apply in_map_iff. exists (fst kv, v'). split; [|exact Hget].
      unfold g. simpl. f_equal. symmetry.
      apply (IH kv); [now apply list_elem_of_In| | |exact Hsame].
      * apply (Hwf1 kv). now apply list_elem_of_In.
      * apply (Hwf2 (fst kv, v')). now apply list_elem_of_In.
Qed.

(** Python's equality is coarser than [same_mapping]: documents equal up
    to the order of keys are equal for Python. *)
Lemma same_mapping_py_equal (a : json) :
  forall b, same_mapping a b = true -> py_equal a b = true.
Proof.
  induction a as [|x|x|x|l IH|d IH] using json_nested_ind;
    intros [|y|y|y|l'|d'] H; simpl in H |- *; try discriminate; try exact H.
  - revert l' H. induction IH as [|x r Hx _ IHr]; intros [|y r'] H;
      try discriminate; try reflexivity.
    apply andb_true_iff in H as [H1 H2]. apply andb_true_iff. split.
    + now apply Hx.
    + now apply IHr.
  - apply andb_true_iff in H as [Hlen H]. apply andb_true_iff.
    split; [exact Hlen|]. clear Hlen.
    induction IH as [|kv r Hkv _ IHr]; [reflexivity|].
    apply andb_true_iff in H as [H1 H2]. apply andb_true_iff. split.
    + destruct (dict_get (fst kv) d') as [v'|]; [|discriminate]. now apply Hkv.
    + now apply IHr.
Qed.

End JsonFacts.

Module HashUtilsFacts.
Import Sha256 Sha256Facts HashUtils Scenarios.

(** The loop feeds the hasher every byte of the body, in order, and counts
    them, whatever the cut into chunks. *)
Lemma hash_chunks_ok events h n :
  fault_free events = true ->
  hash_chunks events h n
  = Ok (mk_hasher (fed h ++ body_bytes events),
        n + Z.of_nat (length (body_bytes events))).
Proof.
  revert h n. induction events as [|[c|] rest IH]; intros h n Hff; simpl in *.
  - rewrite app_nil_r, Z.add_0_r. now destruct h.
  - destruct c as [|b c].
    + rewrite (IH _ _ Hff). reflexivity.
    + rewrite (IH _ _ Hff). unfold update. cbn [fed].
      rewrite <- app_assoc. do 2 f_equal.
      rewrite (length_app (b :: c)). lia.
  - discriminate.
Qed.

Lemma hex_digit_lower n : is_lower_hex (hex_digit n) = true.
Proof.
  unfold hex_digit. generalize (Z.to_nat (n mod 16)). intros i.
  do 17 (destruct i as [|i]; [reflexivity|]). now destruct i.
Qed.

Lemma hex_word_lower k n acc :
  all_chars is_lower_hex acc = true ->
  all_chars is_lower_hex (hex_word k n acc) = true.
Proof.
  revert n acc. induction k as [|k IH]; intros n acc Hacc; simpl; [exact Hacc|].
  apply IH. simpl. now rewrite hex_digit_lower.
Qed.

Lemma hex_word_length k n acc :
  String.length (hex_word k n acc) = (k + String.length acc)%nat.
Proof.
  revert n acc. induction k as [|k IH]; intros n acc; simpl; [reflexivity|].
  rewrite IH. simpl. lia.
Qed.

(** A digest is 64 lower-case hexadecimal characters. *)
Lemma sha256_hex_lower msg :
  all_chars is_lower_hex (sha256_hex msg) = true
  /\ String.length (sha256_hex msg) = 64%nat.
Proof.
  unfold sha256_hex, hex_of_regs. split.
  - repeat apply hex_word_lower. reflexivity.
  - rewrite !hex_word_length. reflexivity.
Qed.

Lemma download_and_hash_s3_ok get url chunk_size status iter :
  get url = Response status iter ->
  raise_for_status status = Ok tt ->
  fault_free (iter chunk_size) = true ->
  download_and_hash_s3 get url chunk_size
  = Ok (sha256_hex (body_bytes (iter chunk_size)),
        Z.of_nat (length (body_bytes (iter chunk_size)))).
Proof.
  intros Hget Hst Hff. unfold download_and_hash_s3.
  rewrite Hget, Hst, (hash_chunks_ok _ _ _ Hff). reflexivity.
Qed.

(** C6: for every remote byte stream that is delivered, in whatever chunks,
    [download_and_hash_s3] returns the lower-case hexadecimal SHA-256 digest
    of the streamed bytes and their exact count; any other delivery of the
    same bytes gives the same digest and count; and the 12 bytes
    [hello world!] hash to the well-known value. *)
Theorem download_and_hash_s3_sha256 get url chunk_size status iter :
  get url = Response status iter ->
  raise_for_status status = Ok tt ->
  fault_free (iter chunk_size) = true ->
  let stream := body_bytes (iter chunk_size) in
  download_and_hash_s3 get url chunk_size
  = Ok (sha256_hex stream, Z.of_nat (length stream))
  /\ all_chars is_lower_hex (sha256_hex stream) = true
  /\ String.length (sha256_hex stream) = 64%nat
  /\ (forall get' url' chunk_size' status' iter',
        get' url' = Response status' iter' ->
        raise_for_status status' = Ok tt ->
        fault_free (iter' chunk_size') = true ->
        body_bytes (iter' chunk_size') = stream ->
        download_and_hash_s3 get' url' chunk_size'
        = download_and_hash_s3 get url chunk_size)
  /\ download_and_hash_s3 (stub [bytes_of "hello world!"]) url chunk_size
     = Ok ("7509e5bda0c762d2bac7f90d758b5b2263fa01ccbc542ab5e3df163be08e6ca9", 12).
Proof.
  intros Hget Hst Hff stream.
  pose proof (download_and_hash_s3_ok _ _ _ _ _ Hget Hst Hff) as Hok.
  destruct (sha256_hex_lower stream) as [Hlow Hlen].
  split; [exact Hok|]. split; [exact Hlow|]. split; [exact Hlen|]. split.
  - intros get' url' cs' st' it' Hget' Hst' Hff' Hsame.
    rewrite Hok, (download_and_hash_s3_ok _ _ _ _ _ Hget' Hst' Hff'), Hsame.
    reflexivity.
  - vm_compute. reflexivity.
Qed.

Lemma download_and_hash_s3_sha256_witness :
  let get := stub [bytes_of "hello "; []; bytes_of "world!"] in
  download_and_hash_s3 get "https://s3.amazonaws.com/bucket/page1.jpg" 8192
  = Ok ("7509e5bda0c762d2bac7f90d758b5b2263fa01ccbc542ab5e3df163be08e6ca9", 12).
Proof.
  intros get.
  destruct (download_and_hash_s3_sha256 get
              "https://s3.amazonaws.com/bucket/page1.jpg" 8192 200
              (fun _ => map Chunk [bytes_of "hello "; []; bytes_of "world!"])
              eq_refl eq_refl eq_refl) as (_ & _ & _ & Hdet & Hhello).
  rewrite <- Hhello. symmetry. apply (Hdet _ _ _ 200 (fun _ => map Chunk [bytes_of "hello world!"])).
  - reflexivity.
  - reflexivity.
  - reflexivity.
  - reflexivity.
Defined.

Lemma download_and_hash_s3_raises get url chunk_size e :
  download_and_hash_s3 get url chunk_size = Raise e -> e = HashComputationError.
Proof.
  unfold download_and_hash_s3. intros H.
  repeat (case_match; simplify_eq); reflexivity.
Qed.

Lemma lower_char_hex c : is_lower_hex c = true -> lower_char c = c.
Proof.
  unfold is_lower_hex, lower_char. intros H.
  destruct ((65 <=? N_of_ascii c) && (N_of_ascii c <=? 90)
            || (192 <=? N_of_ascii c) && (N_of_ascii c <=? 222)
               && negb (N_of_ascii c =? 215))%N eqn:E; [|reflexivity].
  exfalso.
  repeat match goal with
  | H : (_ || _)%bool = true |- _ => apply orb_true_iff in H as [H|H]
  | H : (_ && _)%bool = true |- _ => apply andb_true_iff in H as [? ?]
  | H : (_ <=? _)%N = true |- _ => apply N.leb_le in H
  end; lia.
Qed.

Lemma lower_hex_string s : all_chars is_lower_hex s = true -> lower s = s.
Proof.
  induction s as [|c s IH]; simpl; [reflexivity|].
  intros H. apply andb_true_iff in H as [Hc Hs].
  now rewrite (lower_char_hex _ Hc), (IH Hs).
Qed.

(** X4: [verify_hash] never raises. When the download fails it answers
    False; when the body is delivered it answers True exactly when the
    expected digest, lower-cased, is the SHA-256 digest of the delivered
    bytes, so the letter case of the expected digest does not matter. *)
Theorem verify_hash_spec get url expected chunk_size :
  (exists b, verify_hash get url expected chunk_size = Ok b)
  /\ (forall e, download_and_hash_s3 get url chunk_size = Raise e ->
                verify_hash get url expected chunk_size = Ok false)
  /\ (forall status iter,
        get url = Response status iter ->
        raise_for_status status = Ok tt ->
        fault_free (iter chunk_size) = true ->
        verify_hash get url expected chunk_size
        = Ok (String.eqb (sha256_hex (body_bytes (iter chunk_size)))
                         (lower expected))).
Proof.
  assert (Hfail : forall e, download_and_hash_s3 get url chunk_size = Raise e ->
                            verify_hash get url expected chunk_size = Ok false).
  { intros e He. unfold verify_hash.
    rewrite He, (download_and_hash_s3_raises _ _ _ _ He). reflexivity. }
  split; [|split; [exact Hfail|]].
  - destruct (download_and_hash_s3 get url chunk_size) as [[h n]|e] eqn:Hd.
    + unfold verify_hash. rewrite Hd. eauto.
    + eauto.
  - intros status iter Hget Hst Hff. unfold verify_hash.
    rewrite (download_and_hash_s3_ok _ _ _ _ _ Hget Hst Hff).
    rewrite lower_hex_string; [reflexivity|apply sha256_hex_lower].
Qed.

(** An expected digest in capitals is accepted. *)
Example verify_hash_upper_case :
  verify_hash (stub [bytes_of "hello world!"]) "https://s3.amazonaws.com/x"
    "7509E5BDA0C762D2BAC7F90D758B5B2263FA01CCBC542AB5E3DF163BE08E6CA9" 8192
  = Ok true.
Proof. vm_compute. reflexivity. Qed.

(** The loop of [batch_hash_urls] without callback: it never raises, and
    it binds every URL it visits. *)
Lemma batch_loop_dom net cs total : forall urls i fetched results,
  exists m,
    batch_loop net cs None total i urls fetched results = Ok m
    /\ dom m = dom results ∪ list_to_set urls.
Proof.
  induction urls as [|url rest IH]; intros i fetched results; simpl.
  - exists results. split; [reflexivity|set_solver].
  - destruct (download_and_hash_s3 (net fetched) url cs) as [[h n]|e] eqn:Hd.
    + destruct (IH (i + 1) (fetched ++ [url]) (<[url := Some (h, n)]> results))
        as (m & Hm & Hdom).
      exists m. split; [exact Hm|]. rewrite Hdom, dom_insert_L. set_solver.
    + rewrite (download_and_hash_s3_raises _ _ _ _ Hd).
      destruct (IH (i + 1) (fetched ++ [url]) (<[url := None]> results))
        as (m & Hm & Hdom).
      exists m. split; [exact Hm|]. rewrite Hdom, dom_insert_L. set_solver.
Qed.

(** With a network that answers a URL the same way each time, the entry of
    a URL is the outcome of its download. *)
Lemma batch_loop_entries get cs total : forall urls i fetched results m,
  batch_loop (fun _ => get) cs None total i urls fetched results = Ok m ->
  forall url,
    m !! url = if bool_decide (url ∈ urls)
               then Some (batch_entry (download_and_hash_s3 get url cs))
               else results !! url.
Proof.
  induction urls as [|u rest IH]; intros i fetched results m H url; simpl in H.
  - simplify_eq. rewrite bool_decide_eq_false_2; [reflexivity|set_solver].
  - assert (Hnext : batch_loop (fun _ => get) cs None total (i + 1) rest
                      (fetched ++ [u])
                      (<[u := batch_entry (download_and_hash_s3 get u cs)]> results)
                    = Ok m).
    { destruct (download_and_hash_s3 get u cs) as [[h n]|e] eqn:Hd; [exact H|].
      rewrite (download_and_hash_s3_raises _ _ _ _ Hd) in H. exact H. }
    rewrite (IH _ _ _ _ Hnext url).
    destruct (decide (url ∈ rest)) as [Hin|Hnin].
    + rewrite !bool_decide_eq_true_2; [reflexivity|set_solver|exact Hin].
    + rewrite (bool_decide_eq_false_2 _ Hnin).
      destruct (decide (url = u)) as [->|Hne].
      * rewrite lookup_insert_eq. rewrite bool_decide_eq_true_2; [reflexivity|set_solver].
      * rewrite lookup_insert_ne by congruence.
        rewrite bool_decide_eq_false_2; [reflexivity|set_solver].
Qed.

(** X5: [batch_hash_urls] without callback never raises and returns an
    entry for exactly the URLs it was given: a failed download does not
    stop the batch, its URL is bound to [(None, None)]. When the network
    answers a URL the same way each time, the entry of every URL is the
    digest and size of its download, or [(None, None)] when that fails. *)
Theorem batch_hash_urls_entries net urls chunk_size :
  exists m,
    batch_hash_urls net urls chunk_size None = Ok m
    /\ dom m = list_to_set urls
    /\ forall get, net = (fun _ => get) ->
         forall url, url ∈ urls ->
           m !! url = Some (batch_entry (download_and_hash_s3 get url chunk_size)).
Proof.
  unfold batch_hash_urls.
  destruct (batch_loop_dom net chunk_size (Z.of_nat (length urls)) urls 0 [] ∅)
    as (m & Hm & Hdom).
  exists m. split; [exact Hm|]. split.
  - rewrite Hdom, dom_empty_L. set_solver.
  - intros get -> url Hin.
    rewrite (batch_loop_entries _ _ _ _ _ _ _ _ Hm url).
    now rewrite bool_decide_eq_true_2.
Qed.

End HashUtilsFacts.

Module ClientFacts.
Import Json JsonFacts Client Scenarios.

(** The address [upload_json] returns is the [cid] of the first element of
    the store's answer to the multipart post, under the name [data.json],
    of the bytes of the sorted-key serialisation. *)
Lemma upload_json_posts_dumps (svc : service) (data : json) (cid : json) :
  upload_json svc data = Ok cid
  <-> exists c first rest size,
        post_file svc "/upload" "data.json" (encode_utf8 (dumps data))
        = Reply c (JList (first :: rest))
        /\ (c < 400 \/ 600 <= c)
        /\ subscript first "cid" = Ok cid
        /\ subscript first "size" = Ok size.
Proof.
  unfold upload_json, upload_bytes, json_bytes, HashUtils.raise_for_status.
  destruct (post_file svc "/upload" "data.json" (encode_utf8 (dumps data)))
    as [|c body].
  { split; [discriminate|]. intros (? & ? & ? & ? & ? & _). discriminate. }
  split.
  - intros H.
    destruct (Z.leb_spec 400 c), (Z.ltb_spec c 600); simpl in H; try discriminate;
      (destruct body as [| | | |l|]; try discriminate;
       destruct l as [|first rest]; try discriminate;
       destruct (subscript first "cid") as [cid'|] eqn:Hc;
       destruct (subscript first "size") as [size|] eqn:Hs; try discriminate;
       injection H as <-; exists c, first, rest, size; repeat split; auto; lia).
  - intros (c' & first & rest & size & E & Hc & Hcid & Hsize).
    injection E as -> ->. rewrite Hcid, Hsize.
    destruct (Z.leb_spec 400 c'), (Z.ltb_spec c' 600); simpl; try lia; reflexivity.
Qed.

(** C9, counterexample: dictionaries that Python holds equal need not be
    sent as the same bytes. [True == 1], the two are serialised as [true]
    and [1], and a content-addressed store answers with two addresses. *)
Lemma python_equal_maps_differ :
  let a := JDict [("page", JInt 1)] in
  let b := JDict [("page", JBool true)] in
  py_equal a b = true
  /\ json_bytes a <> json_bytes b
  /\ upload_json digest_store a <> upload_json digest_store b.
Proof.
  intros a b. split; [reflexivity|]. split.
  - vm_compute. discriminate.
  - vm_compute. discriminate.
Qed.

(** C9, amended: [upload_json] serialises its dictionary with sorted keys
    and posts the bytes of that text under the name [data.json]: the text
    of a dictionary lists its items by increasing key, each key once, and
    the address returned is the one the store answers for these bytes. So
    two dictionaries that are equal up to the insertion order of their keys
    at every depth, with values equal as JSON values (a boolean is not an
    integer), are sent as the same bytes and get the same answer from the
    store. *)
Theorem upload_json_order_independent (svc : service) (a b : json) :
  wf a = true -> wf b = true -> same_mapping a b = true ->
  json_bytes a = json_bytes b
  /\ upload_json svc a = upload_json svc b
  /\ json_bytes a = encode_utf8 (dumps a)
  /\ (forall d, a = JDict d ->
        dumps a
        = "{" +:+ PyStr.join ", "
                    (map (fun kv => encode_str (fst kv) +:+ ": " +:+ dumps (snd kv))
                         (sort_items d))
              +:+ "}"
        /\ Sorted key_le (sort_items d)
        /\ sort_items d ≡ₚ d)
  /\ (forall cid,
        upload_json svc a = Ok cid
        <-> exists c first rest size,
              post_file svc "/upload" "data.json" (encode_utf8 (dumps a))
              = Reply c (JList (first :: rest))
              /\ (c < 400 \/ 600 <= c)
              /\ subscript first "cid" = Ok cid
              /\ subscript first "size" = Ok size).
Proof.
  intros Ha Hb Hab.
  assert (Hd : dumps a = dumps b) by exact (dumps_same_mapping a b Ha Hb Hab).
  split; [unfold json_bytes; now rewrite Hd|].
  split; [unfold upload_json, json_bytes; now rewrite Hd|].
  split; [reflexivity|]. split.
  - intros d ->. apply wf_dict in Ha as [Hnd _]. split; [|split].
    + now apply dumps_dict_sorted_first.
    + unfold sort_items. apply Sorted_merge_sort; apply _.
    + unfold sort_items. apply merge_sort_Permutation.
  - intros cid. apply upload_json_posts_dumps.
Qed.

Lemma upload_json_order_independent_witness :
  let a := JDict [("schema", JStr "nara-series@v1"); ("nara_naId", JInt 7585787);
                  ("date_range", JDict [("start", JStr "1993"); ("end", JStr "2001")])] in
  let b := JDict [("date_range", JDict [("end", JStr "2001"); ("start", JStr "1993")]);
                  ("nara_naId", JInt 7585787); ("schema", JStr "nara-series@v1")] in
  json_bytes a = json_bytes b
  /\ upload_json digest_store a = upload_json digest_store b.
Proof.
  intros a b.
  destruct (upload_json_order_independent digest_store a b) as (H1 & H2 & _);
    try reflexivity.
  split; [exact H1|exact H2].
Defined.




(** The same call without the parent goes through and posts the
    components and the note. *)
Example create_entity_without_parent :
  create_entity_kw
    (mk_service (fun _ _ body => Reply 201 body) (fun _ _ _ => TransportFailed))
    [("components", JDict [("catalog_record", JStr "bafy")]);
     ("note", JStr "Collection: x")]
  = Ok (JDict [("components", JDict [("catalog_record", JStr "bafy")]);
               ("note", JStr "Collection: x")]).
Proof. reflexivity. Qed.


Lemma error_reply_object d e : error_reply (JDict d) e = Raise e.
Proof. reflexivity. Qed.




(** X9: [upload_json] returns a content address exactly when the service
    answers the multipart post of the sorted-key serialisation with a code
    outside 400..599 and an array whose first element has both a [cid] and
    a [size] field (the size is required although it is dropped); the
    address is that [cid]. Its failures are [RequestException] (transport,
    or a 4xx or 5xx code), [IndexError], [KeyError] or [TypeError]: never
    one of the client's own [ArkeAPIError] family, since [upload_bytes] does
    not go through [_request]. *)
Theorem upload_json_result (svc : service) (data : json) :
  let reply := post_file svc "/upload" "data.json" (encode_utf8 (dumps data)) in
  (forall cid,
     upload_json svc data = Ok cid
     <-> exists c first rest size,
           reply = Reply c (JList (first :: rest))
           /\ (c < 400 \/ 600 <= c)
           /\ subscript first "cid" = Ok cid
           /\ subscript first "size" = Ok size)
  /\ (forall e,
        upload_json svc data = Raise e ->
        e = RequestException \/ e = IndexError \/ e = KeyError \/ e = TypeError)
  /\ (reply = TransportFailed -> upload_json svc data = Raise RequestException)
  /\ (forall c body, reply = Reply c body -> 400 <= c < 600 ->
        upload_json svc data = Raise RequestException).
Proof.
  intros reply. unfold upload_json, upload_bytes, json_bytes. fold reply.
  unfold HashUtils.raise_for_status.
  assert (Hsub : forall j k e, subscript j k = Raise e -> e = KeyError \/ e = TypeError).
  { intros j k e. unfold subscript. repeat case_match; intros; simplify_eq; auto. }
  repeat split.
  - intros H. destruct reply as [|c body]; [discriminate|].
    destruct (Z.leb_spec 400 c), (Z.ltb_spec c 600); simpl in H; try discriminate;
      (destruct body as [| | | |l|]; try discriminate;
       destruct l as [|first rest]; try discriminate;
       destruct (subscript first "cid") as [cid'|] eqn:Hc;
       destruct (subscript first "size") as [size|] eqn:Hs; try discriminate;
       injection H as <-; exists c, first, rest, size; repeat split; auto; lia).
  - intros (c & first & rest & size & -> & Hc & Hcid & Hsize).
    rewrite Hcid, Hsize.
    destruct (Z.leb_spec 400 c), (Z.ltb_spec c 600); simpl; try lia; reflexivity.
  - intros e H. destruct reply as [|c body]; [injection H as <-; auto|].
    destruct ((400 <=? c) && (c <? 600)); [injection H as <-; auto|].
    destruct body as [| | | |l|]; try (injection H as <-; auto 6).
    destruct l as [|first rest]; [injection H as <-; auto|].
    destruct (subscript first "cid") as [cid'|e1] eqn:Hc;
      destruct (subscript first "size") as [size|e2] eqn:Hs; try discriminate;
      injection H as <-.
    + destruct (Hsub _ _ _ Hs); auto.
    + destruct (Hsub _ _ _ Hc); auto.
    + destruct (Hsub _ _ _ Hc); auto.
  - intros ->. reflexivity.
  - intros c body -> Hc.
    destruct (Z.leb_spec 400 c), (Z.ltb_spec c 600); simpl; try lia; reflexivity.
Qed.

End ClientFacts.

Module ImporterFacts.
Import Json Importer Scenarios.

(** Symbolic execution of a method: unfold the monad, split on every
    answer of the world and every test, and clean up. *)
Ltac unfold_monad :=
  unfold update_stats, item, as_str in *;
  unfold bind, ret, raise, catch, get, modify, lift, utcnow,
    api_upload_json, api_get_arke_block, api_create_entity,
    download_and_hash_s3 in *.

Ltac exec := unfold_monad; repeat (case_match; simplify_eq/=); simplify_eq/=.

Lemma extends_refl s : extends s s.
Proof. split; auto. exists []. now rewrite app_nil_r. Qed.

Lemma extends_trans s1 s2 s3 : extends s1 s2 -> extends s2 s3 -> extends s1 s3.
Proof.
  intros [d1 c1 l1 i1 [t1 e1]] [d2 c2 l2 i2 [t2 e2]]. split.
  - congruence.
  - congruence.
  - now transitivity (nara_to_pi s2).
  - intros H. rewrite <- (i1 H). apply i2. now rewrite (i1 H).
  - exists (t1 ++ t2). rewrite e2, e1. now rewrite app_assoc.
Qed.

(** Closing a goal [extends s s'] where [s'] is [s] after explicit updates. *)
Ltac close_extends :=
  split; simpl; auto;
  try (apply insert_subseteq; assumption);
  try congruence;
  try (exists []; now rewrite app_nil_r);
  try (rewrite <- ?app_assoc; eexists; reflexivity).

Lemma import_institution_extends w name d u l s r s' :
  import_institution w name d u l s = (r, s') -> extends s s'.
Proof. unfold import_institution. intros H. exec; close_extends. Qed.

Lemma import_collection_extends w naid title dr fm s r s' :
  import_collection w naid title dr fm s = (r, s') -> extends s s'.
Proof. unfold import_collection. intros H. exec; close_extends. Qed.

Lemma import_series_extends w naid parent title dr cr fm s r s' :
  import_series w naid parent title dr cr fm s = (r, s') -> extends s s'.
Proof. unfold import_series. intros H. exec; close_extends. Qed.

Lemma import_digitalobject_extends w oid parent fn ty url fs pg tx fm s r s' :
  import_digitalobject w oid parent fn ty url fs pg tx fm s = (r, s') ->
  extends s s'.
Proof. unfold import_digitalobject. intros H. exec; close_extends. Qed.

Lemma import_one_object_extends w naid i obj s r s' :
  import_one_object w naid i obj s = (r, s') -> extends s s'.
Proof.
  unfold import_one_object. intros H. unfold_monad.
  repeat (case_match; simplify_eq/=);
    try match goal with
      | H : import_digitalobject _ _ _ _ _ _ _ _ _ _ ?s0 = (_, ?s1) |- _ =>
          apply import_digitalobject_extends in H;
          apply (extends_trans _ _ _ H)
      end;
    close_extends.
Qed.

Lemma import_objects_extends w naid objs : forall i s r s',
  import_objects w naid i objs s = (r, s') -> extends s s'.
Proof.
  induction objs as [|obj rest IH]; intros i s r s' H; simpl in H.
  - unfold ret in H. simplify_eq. apply extends_refl.
  - unfold bind in H at 1.
    destruct (import_one_object w naid i obj s) as [[[]|e] s1] eqn:H1.
    + apply import_one_object_extends in H1. apply IH in H.
      now apply (extends_trans _ _ _ H1).
    + simplify_eq. now apply import_one_object_extends in H1.
Qed.

Lemma import_fileunit_extends w naid ser col title rt objs ar ft pl ot fm s r s' :
  import_fileunit w naid ser col title rt objs ar ft pl ot fm s = (r, s') ->
  extends s s'.
Proof.
  unfold import_fileunit. intros H. unfold_monad.
  repeat (case_match; simplify_eq/=);
    try match goal with
      | H : import_objects _ _ _ _ ?s0 = (_, ?s1) |- _ =>
          apply import_objects_extends in H;
          refine (extends_trans _ _ _ _ H)
      end;
    close_extends.
Qed.


Lemma run_extends w o s r s' : run w o s = (r, s') -> extends s s'.
Proof.
  destruct o; simpl; intros H.
  - eapply import_institution_extends; eauto.
  - eapply import_collection_extends; eauto.
  - eapply import_series_extends; eauto.
  - eapply import_fileunit_extends; eauto.
  - eapply import_digitalobject_extends; eauto.
Qed.

Lemma run_all_extends w ops : forall s, extends s (run_all w ops s).
Proof.
  induction ops as [|o ops IH]; intros s; simpl.
  - apply extends_refl.
  - destruct (run w o s) as [r s1] eqn:H. simpl.
    apply run_extends in H. exact (extends_trans _ _ _ H (IH s1)).
Qed.

(** An operation on an entity that is already resolved returns the store
    id held and touches nothing. *)
Lemma run_resolved w o s pi :
  resolved o s = Some pi -> run w o s = (Ok pi, s).
Proof.
  unfold resolved. destruct o; simpl; intros H.
  - unfold import_institution. unfold_monad.
    destruct (truthy_opt (institution_pi s)); [|discriminate]. now rewrite H.
  - unfold import_collection. unfold_monad. now rewrite H.
  - unfold import_series. unfold_monad. now rewrite H.
  - unfold import_fileunit. unfold_monad. now rewrite H.
  - unfold import_digitalobject. unfold_monad. now rewrite H.
Qed.

Lemma resolved_extends o s s' pi :
  extends s s' -> resolved o s = Some pi -> resolved o s' = Some pi.
Proof.
  intros E. unfold resolved. destruct (source_id o) as [k|].
  - intros H. eapply lookup_weaken; [exact H|apply E].
  - destruct (truthy_opt (institution_pi s)) eqn:T; [|discriminate].
    intros H. rewrite (ext_institution _ _ E T), T. exact H.
Qed.

(** X27: a collection is created under the institution the importer holds: the
    creation call carries [self.institution_pi] as parent. *)
Lemma import_collection_passes_institution w naid title dr fm s pi s' :
  dry_run s = false ->
  nara_to_pi s !! PyStr.str_of_int naid = None ->
  import_collection w naid title dr fm s = (Ok pi, s') ->
  exists record cid note,
    trace s' = trace s ++ [UploadJson record;
                           CreateEntity [("catalog_record", cid)]
                                        (institution_pi s) note]
    /\ nara_to_pi s' !! PyStr.str_of_int naid = Some pi.
Proof.
  intros Hdry Hnone H. unfold import_collection in H. exec.
  do 3 eexists. split.
  - rewrite <- app_assoc. reflexivity.
  - apply lookup_insert_eq.
Qed.

Lemma import_collection_passes_institution_witness :
  let s := set_institution "01INSTITUTION" (NARAImporter "WJC-NSCSW" false None None) in
  let s' := snd (import_collection plain_world 7388842 "Collection" JNull JNull s) in
  exists record cid note,
    trace s' = [UploadJson record;
                CreateEntity [("catalog_record", cid)] (Some "01INSTITUTION") note].
Proof.
  intros s s'.
  destruct (import_collection_passes_institution plain_world 7388842 "Collection"
              JNull JNull s "01ENTITY" s')
    as (record & cid & note & Ht & _).
  - reflexivity.
  - vm_compute. reflexivity.
  - vm_compute. reflexivity.
  - exists record, cid, note. exact Ht.
Defined.

(** C2, counterexample: the statement that records a mapping,
    [self.nara_to_pi[nara_id] = pi], raises nothing when the source id is
    already mapped to another store id: it returns normally and the new
    store id replaces the old one. *)
Lemma ledger_assignment_overwrites :
  let s := set_mapping "7388842" "01AAAAAAAAAAAAAAAAAAAAAAAA"
             (NARAImporter "WJC-NSCSW" false None None) in
  nara_to_pi s !! "7388842" = Some "01AAAAAAAAAAAAAAAAAAAAAAAA"
  /\ exists s', modify (set_mapping "7388842" "01BBBBBBBBBBBBBBBBBBBBBBBB") s
                = (Ok tt, s')
                /\ nara_to_pi s' !! "7388842" = Some "01BBBBBBBBBBBBBBBBBBBBBBBB".
Proof.
  intros s. split; [apply lookup_insert_eq|].
  eexists. split; [reflexivity|]. apply lookup_insert_eq.
Qed.

(** C2, amended: no assertion guards the ledger; instead every import
    method first looks the source id up and returns the store id it finds
    without writing. So through any sequence of import operations a mapped
    source id keeps its store id, and an operation on it returns that store
    id, issues no call and changes nothing: a source id maps to at most one
    store id for the lifetime of a run. *)
Theorem ledger_write_once w ops s k v :
  nara_to_pi s !! k = Some v ->
  nara_to_pi (run_all w ops s) !! k = Some v
  /\ forall o, source_id o = Some k ->
               run w o (run_all w ops s) = (Ok v, run_all w ops s).
Proof.
  intros Hk.
  assert (Hk' : nara_to_pi (run_all w ops s) !! k = Some v).
  { eapply lookup_weaken; [exact Hk|]. apply run_all_extends. }
  split; [exact Hk'|]. intros o Ho. apply run_resolved.
  unfold resolved. now rewrite Ho.
Qed.

Lemma ledger_write_once_witness :
  let w := test_world [] in
  let s := set_mapping "7585787" "01SERIES" (NARAImporter "WJC-NSCSW" false None None) in
  let ops := [Collection 7388842 "Collection" JNull JNull;
              Series 7585787 7388842 "Series" JNull JNull JNull] in
  nara_to_pi (run_all w ops s) !! "7585787" = Some "01SERIES".
Proof.
  intros w s ops.
  apply (ledger_write_once w ops s "7585787" "01SERIES").
  apply lookup_insert_eq.
Defined.




(** *** Dry run *)

(** What one operation does in dry-run mode: nothing when the entity is
    resolved; otherwise it stores the sentinel, in the ledger or in the
    institution slot, and returns it. *)
Lemma dry_step w o s r s' :
  dry_run s = true -> run w o s = (r, s') ->
  match resolved o s with
  | Some pi => r = Ok pi /\ s' = s
  | None =>
      r = Ok DRY_RUN_PI
      /\ s' = match source_id o with
              | Some k => set_mapping k DRY_RUN_PI s
              | None => set_institution DRY_RUN_PI s
              end
  end.
Proof.
  intros Hdry H. destruct (resolved o s) as [pi|] eqn:Hres.
  - rewrite (run_resolved _ _ _ _ Hres) in H. now simplify_eq.
  - unfold resolved in Hres. destruct o; simpl in *.
    + unfold import_institution in H.
      destruct (institution_pi s) as [p|] eqn:Hp; simpl in *.
      * destruct (negb (String.eqb p EmptyString)) eqn:Ht; [discriminate|].
        unfold_monad. rewrite Hp in H. simpl in H. rewrite Ht, Hdry in H.
        now simplify_eq.
      * unfold_monad. rewrite Hp in H. simpl in H. rewrite Hdry in H.
        now simplify_eq.
    + unfold import_collection in H. exec. auto.
    + unfold import_series in H. exec. auto.
    + unfold import_fileunit in H. exec. auto.
    + unfold import_digitalobject in H. exec. auto.
Qed.

Lemma dry_step_frame w o s r s' :
  dry_run s = true -> run w o s = (r, s') ->
  dry_run s' = true /\ trace s' = trace s /\ stats_of s' = stats_of s.
Proof.
  intros Hdry H. pose proof (dry_step _ _ _ _ _ Hdry H) as Hs.
  destruct (resolved o s).
  - destruct Hs as [_ ->]. auto.
  - destruct Hs as [_ ->]. destruct (source_id o); auto.
Qed.

Lemma dry_run_all_frame w ops : forall s,
  dry_run s = true ->
  dry_run (run_all w ops s) = true
  /\ trace (run_all w ops s) = trace s
  /\ stats_of (run_all w ops s) = stats_of s.
Proof.
  induction ops as [|o ops IH]; intros s Hdry; simpl; [auto|].
  destruct (run w o s) as [r s1] eqn:H. simpl.
  destruct (dry_step_frame _ _ _ _ _ Hdry H) as (Hd & Ht & Hs).
  destruct (IH s1 Hd) as (Hd' & Ht' & Hs'). rewrite Ht', Hs'. auto.
Qed.

(** C10, counterexample: a dry-run importer constructed with a restored
    mapping returns the restored store id for that source id, not the
    sentinel. *)
Lemma dry_run_returns_restored_mapping :
  let s := NARAImporter "WJC-NSCSW" true
             (Some {["7388842" := "01JABBCCDDEEFFGGHHKKMMNNPP"]}) None in
  dry_run s = true
  /\ fst (import_collection (test_world []) 7388842 "Collection" JNull JNull s)
     = Ok "01JABBCCDDEEFFGGHHKKMMNNPP".
Proof. split; vm_compute; reflexivity. Qed.

(** C10, amended: on an importer constructed with [dry_run=True], after
    any sequence of import operations, every import operation issues no
    call to the store or the network and leaves every counter at zero; when
    the entity is not resolved yet it returns the sentinel [dry-run-pi] and
    records it for the source id (in the institution slot for the
    institution); when it is resolved already, as after a restore through
    [initial_mappings] or [institution_pi], it returns the store id held
    and changes nothing. *)
Theorem dry_run_operations w cid init inst ops o r s' :
  let s := run_all w ops (NARAImporter cid true init inst) in
  run w o s = (r, s') ->
  trace s' = [] /\ stats_of s' = zero_stats
  /\ match resolved o s with
     | Some pi => r = Ok pi /\ s' = s
     | None => r = Ok DRY_RUN_PI /\ resolved o s' = Some DRY_RUN_PI
     end.
Proof.
  intros s H.
  destruct (dry_run_all_frame w ops (NARAImporter cid true init inst) eq_refl)
    as (Hd & Ht & Hs). fold s in Hd, Ht, Hs.
  destruct (dry_step_frame _ _ _ _ _ Hd H) as (_ & Ht' & Hs').
  split; [now rewrite Ht', Ht|]. split; [now rewrite Hs', Hs|].
  pose proof (dry_step _ _ _ _ _ Hd H) as Hstep.
  destruct (resolved o s) as [pi|] eqn:Hres; [exact Hstep|].
  destruct Hstep as [-> ->]. split; [reflexivity|].
  unfold resolved. destruct (source_id o) as [k|]; simpl.
  - apply lookup_insert_eq.
  - reflexivity.
Qed.

Lemma dry_run_operations_witness :
  let w := test_world [] in
  let s := run_all w [Institution "National Archives" None None None;
                      Collection 7388842 "Collection" JNull JNull]
             (NARAImporter "WJC-NSCSW" true None None) in
  let o := Fileunit 23902919 7585787 7388842 "Folder" JNull five_assets
                    JNull None JNull JNull JNull in
  trace (snd (run w o s)) = [] /\ stats_of (snd (run w o s)) = zero_stats
  /\ fst (run w o s) = Ok DRY_RUN_PI
  /\ resolved o (snd (run w o s)) = Some DRY_RUN_PI.
Proof.
  intros w s o.
  destruct (dry_run_operations w "WJC-NSCSW" None None
              [Institution "National Archives" None None None;
               Collection 7388842 "Collection" JNull JNull]
              o (fst (run w o s)) (snd (run w o s)))
    as (Ht & Hs & Hr).
  - apply surjective_pairing.
  - split; [exact Ht|]. split; [exact Hs|].
    change (resolved o s) with (@None string) in Hr. exact Hr.
Defined.

Lemma dry_step_sentinel w o s r s' :
  dry_run s = true -> all_sentinel s -> run w o s = (r, s') ->
  r = Ok DRY_RUN_PI /\ all_sentinel s'.
Proof.
  intros Hdry [Hl Hi] H. pose proof (dry_step _ _ _ _ _ Hdry H) as Hs.
  destruct (resolved o s) as [pi|] eqn:Hres.
  - destruct Hs as [-> ->]. split; [|now split]. f_equal.
    unfold resolved in Hres. destruct (source_id o) as [k|]; [eauto|].
    destruct (truthy_opt (institution_pi s)); [|discriminate].
    destruct Hi as [Hi|Hi]; congruence.
  - destruct Hs as [-> ->]. split; [reflexivity|].
    destruct (source_id o) as [k|]; split; simpl; auto.
    intros k' v'. rewrite lookup_insert. case_decide; [congruence|apply Hl].
Qed.

(** X30: on a dry-run importer constructed without restored mappings and
    without an institution, every import operation, after any sequence of
    operations, returns the sentinel [dry-run-pi]. *)
Lemma dry_run_fresh_returns_sentinel w cid ops o :
  fst (run w o (run_all w ops (NARAImporter cid true None None))) = Ok DRY_RUN_PI.
Proof.
  assert (Hinv : forall s, dry_run s = true -> all_sentinel s ->
            dry_run (run_all w ops s) = true /\ all_sentinel (run_all w ops s)).
  { induction ops as [|o' ops IH]; intros s Hd Ha; simpl; [auto|].
    destruct (run w o' s) as [r1 s1] eqn:H1. simpl.
    destruct (dry_step_sentinel _ _ _ _ _ Hd Ha H1) as [_ Ha1].
    destruct (dry_step_frame _ _ _ _ _ Hd H1) as (Hd1 & _).
    now apply IH. }
  destruct (Hinv (NARAImporter cid true None None)) as [Hd Ha].
  - reflexivity.
  - split; [|now left]. intros k v. simpl. now rewrite lookup_empty.
  - destruct (run w o _) as [r s'] eqn:H. simpl.
    now destruct (dry_step_sentinel _ _ _ _ _ Hd Ha H).
Qed.


(** Two records that share their collection and their series, the first
    with one digital object and the second with none: one institution, one
    collection, one series, two file units and one digital object are
    created, with fourteen calls in all. *)
Example two_records_sharing_ancestors :
  let w := test_world [] in
  let ops :=
    [Institution "National Archives" None (Some "https://www.archives.gov/") None;
     Collection 7388842 "Collection" JNull JNull;
     Series 7585787 7388842 "Series" JNull JNull JNull;
     Fileunit 23902919 7585787 7388842 "Folder A" JNull [asset "101"]
              JNull None JNull JNull JNull;
     Collection 7388842 "Collection" JNull JNull;
     Series 7585787 7388842 "Series" JNull JNull JNull;
     Fileunit 23902920 7585787 7388842 "Folder B" JNull []
              JNull None JNull JNull JNull] in
  let s := run_all w ops (NARAImporter "WJC-NSCSW" false None None) in
  stats_of s = mk_stats 1 1 1 2 1 12 0 /\ length (trace s) = 14%nat.
Proof. vm_compute. split; reflexivity. Qed.

(** *** A file unit whose third asset cannot be verified *)

(** X28: in the loop of [import_fileunit], an asset whose download fails is
    counted twice: once by the handler of [import_digitalobject], which
    re-raises, and once by the handler of the loop. *)
Lemma import_one_object_hash_failure w naid i obj oid fn ty url s :
  dict_get "objectId" obj = Some (JStr oid) ->
  dict_get "objectFilename" obj = Some (JStr fn) ->
  dict_get "objectType" obj = Some (JStr ty) ->
  dict_get "objectUrl" obj = Some (JStr url) ->
  nara_to_pi s !! oid = None ->
  dry_run s = false ->
  HashUtils.download_and_hash_s3 (w_http_get w (trace s)) url
    HashUtils.default_chunk_size = Raise HashComputationError ->
  exists s', import_one_object w naid i obj s = (Ok tt, s')
             /\ errors (stats_of s') = errors (stats_of s) + 2
             /\ digitalobjects_created (stats_of s')
                = digitalobjects_created (stats_of s)
             /\ nara_to_pi s' = nara_to_pi s.
Proof.
  intros H1 H2 H3 H4 Hnone Hdry Hfail.
  unfold import_one_object, import_digitalobject. unfold_monad.
  rewrite H1, H2, H3, H4, Hnone, Hdry. simpl. rewrite Hfail. simpl.
  eexists. split; [reflexivity|]. simpl. split; [lia|]. split; reflexivity.
Qed.

Lemma import_one_object_hash_failure_witness :
  exists s',
    import_one_object (test_world broken_third) 23902919 3 (asset "103")
      (NARAImporter "WJC-NSCSW" false None None) = (Ok tt, s')
    /\ errors (stats_of s') = 2
    /\ digitalobjects_created (stats_of s') = 0.
Proof.
  destruct (import_one_object_hash_failure (test_world broken_third) 23902919 3
              (asset "103") "103" "103.jpg" "Image (JPG)"
              "https://s3.amazonaws.com/NARAprodstorage/103.jpg"
              (NARAImporter "WJC-NSCSW" false None None))
    as (s' & H & He & Hd & _); try reflexivity.
  exists s'. split; [exact H|]. split; [exact He|exact Hd].
Defined.

(** C4, at the failing input: a file unit with five assets, the download
    of the third of which fails. The FileUnit entity is created and its
    store id returned, four DigitalObjects are created, the assets after
    the failed one are processed, and the error counter is 2. *)
Theorem fileunit_with_failing_third_asset :
  fst run_five = Ok "PI1"
  /\ nara_to_pi (snd run_five) !! "23902919" = Some "PI1"
  /\ fileunits_created (stats_of (snd run_five)) = 1
  /\ digitalobjects_created (stats_of (snd run_five)) = 4
  /\ nara_to_pi (snd run_five) !! "103" = None
  /\ is_Some (nara_to_pi (snd run_five) !! "104")
  /\ is_Some (nara_to_pi (snd run_five) !! "105")
  /\ errors (stats_of (snd run_five)) = 2.
Proof.
  assert (H : (fst run_five,
               map (fun k => nara_to_pi (snd run_five) !! k)
                   ["23902919"; "103"; "104"; "105"],
               stats_of (snd run_five))
              = (Ok "PI1", [Some "PI1"; None; Some "PI11"; Some "PI14"],
                 mk_stats 0 0 0 1 4 48 2)) by (vm_compute; reflexivity).
  set (r := run_five) in *. clearbody r.
  cbn [map] in H. injection H as Hr Hfu H103 H104 H105 Hst.
  rewrite Hr, Hfu, H103, H104, H105, Hst. cbn.
  repeat split; eauto.
Qed.


(** *** The catalog record of a digital object *)

Lemma dict_get_set k k' v d :
  dict_get k (dict_set k' v d) = if String.eqb k' k then Some v else dict_get k d.
Proof.
  induction d as [|[k0 v0] r IH]; simpl; [reflexivity|].
  destruct (String.eqb k0 k') eqn:E0; simpl.
  - apply String.eqb_eq in E0. subst k0. now destruct (String.eqb k' k).
  - rewrite IH. destruct (String.eqb k0 k) eqn:E1; [|reflexivity].
    apply String.eqb_eq in E1. subst k0.
    rewrite String.eqb_sym in E0. now rewrite E0.
Qed.

Lemma dict_get_set_if k k' v d :
  dict_get k (Schema.set_if_truthy k' v d)
  = if truthy v && String.eqb k' k then Some v else dict_get k d.
Proof.
  unfold Schema.set_if_truthy. destruct (truthy v); simpl; [|reflexivity].
  apply dict_get_set.
Qed.

(** The fields of the record [create_digitalobject_catalog_record] builds. *)
Lemma digitalobject_record_fields oid parent fn ty url ch fsz pg tx fm now :
  exists record,
    Schema.create_digitalobject_catalog_record oid parent fn ty url ch fsz pg tx fm now
    = JDict record
    /\ dict_get "content_hash" record = Some ch
    /\ dict_get "file_size" record = Some fsz
    /\ dict_get "extracted_text" record = (if truthy tx then Some tx else None).
Proof.
  unfold Schema.create_digitalobject_catalog_record.
  eexists. split; [reflexivity|].
  rewrite !dict_get_set_if.
  change (String.eqb "nara_full_metadata" "content_hash") with false.
  change (String.eqb "nara_full_metadata" "file_size") with false.
  change (String.eqb "nara_full_metadata" "extracted_text") with false.
  change (String.eqb "extracted_text" "content_hash") with false.
  change (String.eqb "extracted_text" "file_size") with false.
  change (String.eqb "extracted_text" "extracted_text") with true.
  rewrite !andb_false_r, andb_true_r.
  destruct pg as [n|]; rewrite ?dict_get_set; repeat split; try reflexivity;
    now destruct (truthy tx).
Qed.

(** A successful, creating call of [import_digitalobject]: what was
    verified, what was uploaded, and the calls issued. *)
Lemma import_digitalobject_created w s oid parent fn ty url fs pg tx fm pi s' :
  dry_run s = false ->
  nara_to_pi s !! oid = None ->
  import_digitalobject w oid parent fn ty url fs pg tx fm s = (Ok pi, s') ->
  exists digest size cid note,
    HashUtils.download_and_hash_s3 (w_http_get w (trace s)) url
      HashUtils.default_chunk_size = Ok (digest, size)
    /\ w_upload_json w (trace s ++ [HttpGet url])
         (Schema.create_digitalobject_catalog_record oid parent fn ty url
            (HashUtils.create_content_hash_object digest "sha256")
            (py_or fs (JInt size)) pg tx fm (w_utcnow w (trace s ++ [HttpGet url])))
       = Ok cid
    /\ trace s' = trace s ++
         [HttpGet url;
          UploadJson
            (Schema.create_digitalobject_catalog_record oid parent fn ty url
               (HashUtils.create_content_hash_object digest "sha256")
               (py_or fs (JInt size)) pg tx fm (w_utcnow w (trace s ++ [HttpGet url])));
          CreateEntity [("digital_object_metadata", cid)]
                       (nara_to_pi s !! PyStr.str_of_int parent) note].
Proof.
  intros Hdry Hnone H. unfold import_digitalobject in H. unfold_monad.
  rewrite Hnone, Hdry in H.
  destruct (HashUtils.download_and_hash_s3 _ _ _) as [[digest size]|e] eqn:Hh;
    simpl in H.
  2: { destruct e; discriminate. }
  destruct (w_upload_json _ _ _) as [cid|e] eqn:Hup; [|discriminate].
  simpl in H.
  destruct (w_create_entity _ _ _ _ _) as [ent|e] eqn:Hcr; [|discriminate].
  simpl in H. injection H as _ <-.
  exists digest, size, cid. eexists. split; [reflexivity|]. split; [exact Hup|].
  simpl. rewrite <- !app_assoc. reflexivity.
Qed.

(** C7, counterexample: an asset whose feed entry declares a size
    (objectFileSize = 401408) and whose stream delivers 12 bytes: the
    uploaded catalog record carries 401408 as file size, not the verified
    byte count 12. *)
Lemma declared_size_recorded_not_verified :
  let s' := snd (import_digitalobject (test_world []) "101" 23902919 "101.jpg"
                   "Image (JPG)" "https://s3.amazonaws.com/NARAprodstorage/101.jpg"
                   (JInt 401408) (Some 1) JNull JNull
                   (NARAImporter "WJC-NSCSW" false None None)) in
  bytes_hashed (stats_of s') = 12
  /\ map (fun r => Client.subscript r "file_size") (omap uploaded (trace s'))
     = [Ok (JInt 401408)].
Proof. split; vm_compute; reflexivity. Qed.

(** C7, amended: for every child asset whose verification succeeds and
    whose entity is created, the catalog record that is uploaded, and whose
    content address the creation call attaches as
    [digital_object_metadata], embeds the verified digest under
    [content_hash]; its [file_size] is the size the feed declares when that
    is present and not zero, and the verified byte count otherwise; and it
    embeds the OCR text when that is present and not empty. *)
Theorem digitalobject_record_embeds_verification
    w s oid parent fn ty url fs pg tx fm pi s' :
  dry_run s = false ->
  nara_to_pi s !! oid = None ->
  import_digitalobject w oid parent fn ty url fs pg tx fm s = (Ok pi, s') ->
  exists digest size record cid parent_pi note,
    HashUtils.download_and_hash_s3 (w_http_get w (trace s)) url
      HashUtils.default_chunk_size = Ok (digest, size)
    /\ trace s' = trace s ++ [HttpGet url; UploadJson (JDict record);
                              CreateEntity [("digital_object_metadata", cid)]
                                           parent_pi note]
    /\ w_upload_json w (trace s ++ [HttpGet url]) (JDict record) = Ok cid
    /\ dict_get "content_hash" record
       = Some (JDict [("algorithm", JStr "sha256"); ("digest_hex", JStr digest)])
    /\ dict_get "file_size" record = Some (if truthy fs then fs else JInt size)
    /\ dict_get "extracted_text" record = (if truthy tx then Some tx else None).
Proof.
  intros Hdry Hnone H.
  destruct (import_digitalobject_created _ _ _ _ _ _ _ _ _ _ _ _ _ Hdry Hnone H)
    as (digest & size & cid & note & Hhash & Hup & Htrace).
  destruct (digitalobject_record_fields oid parent fn ty url
              (HashUtils.create_content_hash_object digest "sha256")
              (py_or fs (JInt size)) pg tx fm (w_utcnow w (trace s ++ [HttpGet url])))
    as (record & Hrec & Hch & Hfs & Htx).
  rewrite Hrec in Hup, Htrace.
  exists digest, size, record, cid, (nara_to_pi s !! PyStr.str_of_int parent), note.
  repeat split; assumption.
Qed.

Lemma digitalobject_record_embeds_verification_witness :
  let w := test_world [] in
  let s := NARAImporter "WJC-NSCSW" false None None in
  let url := "https://s3.amazonaws.com/NARAprodstorage/101.jpg" in
  let run := import_digitalobject w "101" 23902919 "101.jpg" "Image (JPG)" url
               JNull (Some 1) (JStr "OCR text") JNull s in
  exists record,
    omap uploaded (trace (snd run)) = [JDict record]
    /\ dict_get "content_hash" record
       = Some (JDict [("algorithm", JStr "sha256");
                      ("digest_hex",
                       JStr "7509e5bda0c762d2bac7f90d758b5b2263fa01ccbc542ab5e3df163be08e6ca9")])
    /\ dict_get "file_size" record = Some (JInt 12)
    /\ dict_get "extracted_text" record = Some (JStr "OCR text").
Proof.
  intros w s url run.
  assert (Hrun : run = (Ok "PI2", snd run)) by (vm_compute; reflexivity).
  assert (Hnone : nara_to_pi s !! "101" = None) by (vm_compute; reflexivity).
  destruct (digitalobject_record_embeds_verification w s "101" 23902919 "101.jpg"
              "Image (JPG)" url JNull (Some 1) (JStr "OCR text") JNull "PI2"
              (snd run) eq_refl Hnone Hrun)
    as (digest & size & record & cid & parent_pi & note
        & Hhash & Htrace & _ & Hch & Hfs & Htx).
  assert (Hc : HashUtils.download_and_hash_s3 (w_http_get w (trace s)) url
                   HashUtils.default_chunk_size
                 = Ok ("7509e5bda0c762d2bac7f90d758b5b2263fa01ccbc542ab5e3df163be08e6ca9", 12))
      by (vm_compute; reflexivity).
  rewrite Hc in Hhash. injection Hhash as <- <-.
  exists record. rewrite Htrace. split; [reflexivity|]. auto.
Defined.

End ImporterFacts.

Module CheckpointFacts.
Import Json Importer Checkpoint Scenarios ImporterFacts.

Lemma items_to_ledger_map (l : list (string * string)) :
  items_to_ledger (map (fun kv => (fst kv, JStr (snd kv))) l) = Ok l.
Proof.
  induction l as [|[k v] r IH]; simpl; [reflexivity|]. now rewrite IH.
Qed.

Lemma ledger_json_roundtrip (m : gmap string string) :
  ledger_of_json (ledger_to_json m) = Ok m.
Proof.
  unfold ledger_of_json, ledger_to_json.
  rewrite items_to_ledger_map. f_equal. apply list_to_map_to_list.
Qed.

Lemma opt_str_json_roundtrip (o : option string) :
  opt_str_of_json (Schema.of_opt_str o) = Ok o.
Proof. now destruct o. Qed.

(** X29: the checkpoint of [import_limited.py] holds the five fields, and
    starting from it restores the position, the ledger and the
    institution. *)
Lemma limited_checkpoint_roundtrip file_number record_index imp now :
  exists checkpoint,
    Limited.save_checkpoint file_number record_index imp now = Some (JDict checkpoint)
    /\ map fst checkpoint
       = ["file_number"; "record_index"; "timestamp"; "nara_to_pi"; "institution_pi"]
    /\ exists r,
         Limited.startup (Some (JDict checkpoint)) = Ok r
         /\ start_file r = JInt file_number
         /\ start_record_index r = JInt record_index
         /\ nara_to_pi (resumed r) = nara_to_pi imp
         /\ institution_pi (resumed r) = institution_pi imp.
Proof.
  eexists. split; [reflexivity|]. split; [reflexivity|].
  unfold Limited.startup, Limited.load_checkpoint. cbn [dict_get String.eqb
    Ascii.eqb Bool.eqb Client.subscript].
  rewrite ledger_json_roundtrip, opt_str_json_roundtrip.
  eexists. split; [reflexivity|]. cbn.
  repeat split. now destruct (bool_decide (nara_to_pi imp = ∅)) eqn:E;
    [apply bool_decide_eq_true in E|].
Qed.

(** The first import of an institution, by an importer just constructed
    without mappings: one upload, one look-up of the root block and one
    creation call, after which the ledger is still empty and the
    institution is the entity created. *)
Lemma first_institution (w : world) (name : string)
    (description url location : option string) (pi : string) (created : importer) :
  import_institution w name description url location
    (NARAImporter COLLECTION_ID false None None) = (Ok pi, created) ->
  nara_to_pi created = ∅
  /\ institution_pi created = Some pi
  /\ exists record cid parent,
       trace created
       = [UploadJson record; GetArkeBlock;
          CreateEntity [("catalog_record", cid)] parent ("Institution: " +:+ name)].
Proof.
  unfold import_institution. intros H. exec;
    (split; [reflexivity|]; split; [reflexivity|]; do 3 eexists; reflexivity).
Qed.

(** What [main] of the full driver has in hand once the checkpoint is
    read: the position the checkpoint gives, and the importer as
    [import_institution] left it, with an empty ledger and, as its
    institution, the entity just created. *)
Lemma full_startup_cases (w : world) (f : file) :
  match import_institution w "National Archives"
          (Some "National Archives and Records Administration")
          (Some "https://www.archives.gov/") None
          (NARAImporter COLLECTION_ID false None None) with
  | (Raise e, _) => Full.startup w f = Raise e
  | (Ok pi, created) =>
      nara_to_pi created = ∅
      /\ institution_pi created = Some pi
      /\ (exists record cid parent,
            trace created
            = [UploadJson record; GetArkeBlock;
               CreateEntity [("catalog_record", cid)] parent
                 "Institution: National Archives"])
      /\ (f = None ->
          Full.startup w f = Ok (mk_resume (JInt 1) (JInt 0) created))
      /\ (forall checkpoint position index,
            f = Some (JDict checkpoint) ->
            dict_get "file_number" checkpoint = Some position ->
            dict_get "record_index" checkpoint = Some index ->
            Full.startup w f = Ok (mk_resume position index created))
  end.
Proof.
  unfold Full.startup.
  destruct (import_institution w _ _ _ _ _) as [[pi|e] created] eqn:H;
    [|reflexivity].
  apply first_institution in H as (Hl & Hi & Ht).
  split; [exact Hl|]. split; [exact Hi|]. split; [exact Ht|].
  split; [intros ->; reflexivity|].
  intros checkpoint position index -> Hp Hi'. cbn. now rewrite Hp, Hi'.
Qed.

(** C1, at the failing input: the checkpoint that
    [import_full_collection.py] writes holds the shard index, the record
    index and the timestamp only, neither the mapping table nor the
    institution id, whatever the importer holds at that time (the function
    does not even receive it). The importer [main] constructs restores
    nothing, and starting from the checkpoint gives the position back with
    an importer whose ledger is empty and whose institution is not the one
    the run had but one created anew, by a creation call of this start. *)
Theorem full_checkpoint_omits_ledger (file_number record_index : Z) (now : string) :
  nara_to_pi importer_in_progress !! "7388842" = Some "01COLLECTION00000000000000"
  /\ institution_pi importer_in_progress = Some "01INSTITUTION0000000000000"
  /\ exists checkpoint,
       Full.save_checkpoint file_number record_index now = Some (JDict checkpoint)
       /\ map fst checkpoint = ["file_number"; "record_index"; "timestamp"]
       /\ dict_get "nara_to_pi" checkpoint = None
       /\ dict_get "institution_pi" checkpoint = None
       /\ nara_to_pi (NARAImporter COLLECTION_ID false None None) = ∅
       /\ institution_pi (NARAImporter COLLECTION_ID false None None) = None
       /\ (exists r,
            Full.startup plain_world (Some (JDict checkpoint)) = Ok r
            /\ start_file r = JInt file_number
            /\ start_record_index r = JInt record_index
            /\ nara_to_pi (resumed r) = ∅
            /\ institution_pi (resumed r) = Some "01ENTITY"
            /\ length (filter (fun c => is_create c = true) (trace (resumed r)))
               = 1%nat)
       /\ forall w r,
            Full.startup w (Some (JDict checkpoint)) = Ok r ->
            start_file r = JInt file_number
            /\ start_record_index r = JInt record_index
            /\ nara_to_pi (resumed r) = ∅
            /\ exists record cid parent,
                 trace (resumed r)
                 = [UploadJson record; GetArkeBlock;
                    CreateEntity [("catalog_record", cid)] parent
                      "Institution: National Archives"].
Proof.
  split; [vm_compute; reflexivity|]. split; [reflexivity|].
  eexists. split; [reflexivity|].
  do 5 (split; [reflexivity|]). split.
  - eexists. split; [reflexivity|]. repeat split.
  - intros w r Hr.
    pose proof (full_startup_cases w (Some (JDict
      [("file_number", JInt file_number); ("record_index", JInt record_index);
       ("timestamp", JStr now)]))) as C.
    destruct (import_institution w _ _ _ _ _) as [[pi|e] created].
    + destruct C as (Hl & Hi & Ht & _ & Hs).
      rewrite (Hs _ _ _ eq_refl eq_refl eq_refl) in Hr. injection Hr as <-.
      cbn. repeat split; auto.
    + rewrite C in Hr. discriminate.
Qed.

End CheckpointFacts.

Module SchemaFacts.
Import Json JsonFacts Schema ImporterFacts.

(** When [validate_catalog_record] accepts. *)
Lemma validate_ok_iff record :
  validate_catalog_record record = Ok true
  <-> exists s fields,
        dict_get "schema" record = Some (JStr s)
        /\ s <> EmptyString
        /\ assoc s required_fields = Some fields
        /\ forallb (has_key record) fields = true.
Proof.
  unfold validate_catalog_record. split.
  - intros H. destruct (dict_get "schema" record) as [[| b | n | s | l | d]|];
      cbv [default from_option id] in H; cbn [truthy negb] in H;
      try discriminate;
      try (destruct (negb _); discriminate).
    destruct (String.eqb s EmptyString) eqn:Hs; cbn [negb] in H; [discriminate|].
    destruct (assoc s required_fields) as [fields|] eqn:Ha; [|discriminate].
    exists s, fields. repeat split; auto.
    + intros ->. discriminate.
    + destruct (filter _ fields) as [|f r] eqn:Hf; [|discriminate].
      apply forallb_forall. intros f Hin.
      destruct (has_key record f) eqn:Hk; [reflexivity|].
      assert (Hin' : f ∈ filter (fun f => negb (has_key record f)) fields).
      { apply list_elem_of_filter. split; [now rewrite Hk|now apply list_elem_of_In]. }
      rewrite Hf in Hin'. inversion Hin'.
  - intros (s & fields & Hs & Hne & Ha & Hall). rewrite Hs.
    cbv [default from_option id]. cbn [truthy].
    destruct (String.eqb s EmptyString) eqn:E;
      [apply String.eqb_eq in E; congruence|]. cbn [negb]. rewrite Ha.
    assert (Hf : filter (fun f => negb (has_key record f)) fields = []).
    { clear Ha. induction fields as [|f r IH]; [reflexivity|].
      simpl in Hall. apply andb_true_iff in Hall as [Hf Hr].
      rewrite filter_cons, Hf. simpl. auto. }
    now rewrite Hf.
Qed.

Lemma has_key_set record k v f :
  has_key record f = true -> has_key (dict_set k v record) f = true.
Proof.
  unfold has_key. rewrite dict_get_set.
  destruct (String.eqb k f); [reflexivity|auto].
Qed.

(** X7: a record that [validate_catalog_record] accepts is still accepted
    after any field other than [schema] is set, whether the field is new or
    overwritten: validation looks at the schema tag and at the presence of
    the required fields only. *)
Theorem validate_after_set record k v :
  validate_catalog_record record = Ok true ->
  k <> "schema" ->
  validate_catalog_record (dict_set k v record) = Ok true.
Proof.
  intros H Hk. apply validate_ok_iff in H as (s & fields & Hs & Hne & Ha & Hall).
  apply validate_ok_iff. exists s, fields. repeat split; auto.
  - rewrite dict_get_set. destruct (String.eqb k "schema") eqn:E; [|exact Hs].
    apply String.eqb_eq in E. congruence.
  - apply forallb_forall. intros f Hin.
    apply has_key_set. eapply forallb_forall in Hall; eauto.
Qed.

Lemma validate_after_set_witness :
  validate_catalog_record
    (dict_set "title" (JInt 0)
       [("schema", JStr SERIES); ("nara_naId", JInt 7585787);
        ("parent_naId", JInt 7388842); ("title", JStr "Series")])
  = Ok true.
Proof.
  apply validate_after_set.
  - reflexivity.
  - discriminate.
Defined.

Ltac validate_built :=
  eexists; split; [reflexivity|];
  match goal with
  | |- context [validate_catalog_record ?d] =>
      let Hv := fresh "Hv" in
      assert (Hv : validate_catalog_record d = Ok true)
        by (unfold set_if_truthy, of_opt_str; repeat case_match; reflexivity);
      rewrite Hv; reflexivity
  end.

(** X6: whatever their arguments, the five constructors build records that
    [validate_catalog_record] accepts, so [catalog_record_to_json] returns
    their serialisation and never raises on them. *)
Theorem constructors_validate :
  (forall name description url location now,
      exists d, create_institution_catalog_record name description url location now
                = JDict d
                /\ catalog_record_to_json d false = Ok (dumps (JDict d)))
  /\ (forall naid cid title dr stats fm now,
        exists d, create_collection_catalog_record naid cid title dr stats fm now
                  = JDict d
                  /\ catalog_record_to_json d false = Ok (dumps (JDict d)))
  /\ (forall naid parent title dr creators fm now,
        exists d, create_series_catalog_record naid parent title dr creators fm now
                  = JDict d
                  /\ catalog_record_to_json d false = Ok (dumps (JDict d)))
  /\ (forall naid parent col title rt n ar ft pl ot fm now,
        exists d, create_fileunit_catalog_record naid parent col title rt n ar ft
                    pl ot fm now = JDict d
                  /\ catalog_record_to_json d false = Ok (dumps (JDict d)))
  /\ (forall oid parent fn ty url ch fs pg tx fm now,
        exists d, create_digitalobject_catalog_record oid parent fn ty url ch fs
                    pg tx fm now = JDict d
                  /\ catalog_record_to_json d false = Ok (dumps (JDict d))).
Proof.
  unfold catalog_record_to_json.
  repeat split; intros.
  - unfold create_institution_catalog_record. validate_built.
  - unfold create_collection_catalog_record. validate_built.
  - unfold create_series_catalog_record. validate_built.
  - unfold create_fileunit_catalog_record. validate_built.
  - unfold create_digitalobject_catalog_record. validate_built.
Qed.

End SchemaFacts.

Module ClientBodyFacts.
Import Json Client ImporterFacts.

Lemma subscript_dict d k :
  subscript (JDict d) k
  = match dict_get k d with Some v => Ok v | None => Raise KeyError end.
Proof. reflexivity. Qed.

Lemma create_entity_payload_keys components pi children_pi note k :
  ~ In k ["components"; "pi"; "children_pi"; "note"] ->
  subscript (create_entity_payload components pi children_pi note) k = Raise KeyError.
Proof.
  intros Hk. unfold create_entity_payload.
  rewrite subscript_dict, !dict_get_set_if. simpl in Hk.
  assert (Hne : forall a : string, a <> k -> String.eqb a k = false)
    by (intros a; apply String.eqb_neq).
  rewrite !Hne by (intros ?; tauto).
  rewrite !andb_false_r. cbn [dict_get].
  rewrite Hne by (intros ?; tauto). reflexivity.
Qed.

Lemma append_version_payload_keys expect_tip components add remove note k :
  ~ In k ["expect_tip"; "components"; "children_pi_add"; "children_pi_remove";
          "note"] ->
  subscript (append_version_payload expect_tip components add remove note) k
  = Raise KeyError.
Proof.
  intros Hk. unfold append_version_payload.
  rewrite subscript_dict, !dict_get_set_if. simpl in Hk.
  assert (Hne : forall a : string, a <> k -> String.eqb a k = false)
    by (intros a; apply String.eqb_neq).
  rewrite !Hne by (intros ?; tauto).
  rewrite !andb_false_r. cbn [dict_get].
  rewrite Hne by (intros ?; tauto). reflexivity.
Qed.

(** X10: the bodies [create_entity] and [append_version] post. An optional
    argument that is empty (an empty string, list or dictionary) is dropped
    like [None], so an empty explicit identifier asks the service to
    generate one; the components of [create_entity] and the expected tip of
    [append_version] are sent whatever their value; a value that is sent is
    sent unchanged, and no other field is ever sent. *)
Theorem request_bodies_drop_empty (components expect_tip : json)
    (pi children_pi note add remove : json) :
  let sent j := if truthy j then Ok j else Raise KeyError in
  let created := create_entity_payload components pi children_pi note in
  let appended := append_version_payload expect_tip components add remove note in
  subscript created "components" = Ok components
  /\ subscript created "pi" = sent pi
  /\ subscript created "children_pi" = sent children_pi
  /\ subscript created "note" = sent note
  /\ (forall k, ~ In k ["components"; "pi"; "children_pi"; "note"] ->
        subscript created k = Raise KeyError)
  /\ subscript appended "expect_tip" = Ok expect_tip
  /\ subscript appended "components" = sent components
  /\ subscript appended "children_pi_add" = sent add
  /\ subscript appended "children_pi_remove" = sent remove
  /\ subscript appended "note" = sent note
  /\ (forall k, ~ In k ["expect_tip"; "components"; "children_pi_add";
                        "children_pi_remove"; "note"] ->
        subscript appended k = Raise KeyError).
Proof.
  intros sent created appended.
  unfold sent, created, appended.
  repeat match goal with |- _ /\ _ => split end;
    try apply create_entity_payload_keys;
    try apply append_version_payload_keys;
    unfold create_entity_payload, append_version_payload, Schema.set_if_truthy;
    try (destruct (truthy pi), (truthy children_pi), (truthy note); reflexivity);
    destruct (truthy components), (truthy add), (truthy remove), (truthy note);
    reflexivity.
Qed.

End ClientBodyFacts.

Module ImporterInvariants.
Import Json Importer Scenarios ImporterFacts.

Lemma count_calls_app p a b :
  count_calls p (a ++ b) = count_calls p a + count_calls p b.
Proof. unfold count_calls. rewrite List.filter_app, length_app. lia. Qed.

Lemma hash_chunks_grows events : forall h n h' n',
  HashUtils.hash_chunks events h n = Ok (h', n') -> n <= n'.
Proof.
  induction events as [|[c|] rest IH]; intros h n h' n' H; simpl in H.
  - injection H as _ <-. lia.
  - destruct c as [|b c]; apply IH in H; [exact H|].
    cbn [length] in H. lia.
  - discriminate.
Qed.

Lemma download_size_nonneg get url cs r :
  HashUtils.download_and_hash_s3 get url cs = Ok r -> 0 <= snd r.
Proof.
  unfold HashUtils.download_and_hash_s3. intros H.
  repeat (case_match; simplify_eq/=).
  eapply hash_chunks_grows; eauto.
Qed.

Lemma accounts_refl s : accounts s s.
Proof. unfold accounts. lia. Qed.

Lemma accounts_trans s1 s2 s3 : accounts s1 s2 -> accounts s2 s3 -> accounts s1 s3.
Proof. unfold accounts, created. lia. Qed.

(** Closing a goal [accounts s s'] where [s'] is [s] after explicit updates. *)
Ltac close_accounts :=
  unfold accounts, created; simpl;
  rewrite ?count_calls_app;
  change (count_calls is_create [GetArkeBlock]) with 0;
  repeat match goal with
    | |- context [count_calls ?p [?c]] =>
        let v := eval cbv in (count_calls p [c]) in
        change (count_calls p [c]) with v
    | H : HashUtils.download_and_hash_s3 _ _ _ = Ok _ |- _ =>
        apply download_size_nonneg in H
    end;
  lia.

Lemma import_institution_accounts w name d u l s r s' :
  import_institution w name d u l s = (r, s') -> accounts s s'.
Proof. unfold import_institution. intros H. exec; close_accounts. Qed.

Lemma import_collection_accounts w naid title dr fm s r s' :
  import_collection w naid title dr fm s = (r, s') -> accounts s s'.
Proof. unfold import_collection. intros H. exec; close_accounts. Qed.

Lemma import_series_accounts w naid parent title dr cr fm s r s' :
  import_series w naid parent title dr cr fm s = (r, s') -> accounts s s'.
Proof. unfold import_series. intros H. exec; close_accounts. Qed.

Lemma import_digitalobject_accounts w oid parent fn ty url fs pg tx fm s r s' :
  import_digitalobject w oid parent fn ty url fs pg tx fm s = (r, s') ->
  accounts s s'.
Proof. unfold import_digitalobject. intros H. exec; close_accounts. Qed.

Lemma import_one_object_returns w naid i obj s :
  exists s', import_one_object w naid i obj s = (Ok tt, s').
Proof.
  unfold import_one_object. unfold_monad.
  repeat (case_match; simplify_eq/=); eauto.
Qed.

Lemma import_objects_returns w naid objs : forall i s,
  exists s', import_objects w naid i objs s = (Ok tt, s').
Proof.
  induction objs as [|obj rest IH]; intros i s; simpl.
  - eexists. reflexivity.
  - unfold bind at 1.
    destruct (import_one_object_returns w naid i obj s) as [s1 ->]. apply IH.
Qed.

Lemma import_one_object_accounts w naid i obj s r s' :
  import_one_object w naid i obj s = (r, s') -> accounts s s'.
Proof.
  unfold import_one_object. intros H. unfold_monad.
  repeat (case_match; simplify_eq/=);
    try match goal with
      | H : import_digitalobject _ _ _ _ _ _ _ _ _ _ ?s0 = (_, ?s1) |- _ =>
          apply import_digitalobject_accounts in H;
          apply (accounts_trans _ _ _ H)
      end;
    close_accounts.
Qed.

Lemma import_objects_accounts w naid objs : forall i s r s',
  import_objects w naid i objs s = (r, s') -> accounts s s'.
Proof.
  induction objs as [|obj rest IH]; intros i s r s' H; simpl in H.
  - unfold ret in H. simplify_eq. apply accounts_refl.
  - unfold bind in H at 1.
    destruct (import_one_object w naid i obj s) as [[[]|e] s1] eqn:H1.
    + apply import_one_object_accounts in H1. apply IH in H.
      now apply (accounts_trans _ _ _ H1).
    + simplify_eq. now apply import_one_object_accounts in H1.
Qed.

Lemma import_fileunit_accounts w naid ser col title rt objs ar ft pl ot fm s r s' :
  import_fileunit w naid ser col title rt objs ar ft pl ot fm s = (r, s') ->
  accounts s s'.
Proof.
  unfold import_fileunit. intros H. unfold_monad.
  repeat (case_match; simplify_eq/=);
    try match goal with
      | H : import_objects _ _ _ _ ?s0 = (_, ?s1) |- _ =>
          apply import_objects_accounts in H;
          refine (accounts_trans _ _ _ _ H)
      end;
    close_accounts.
Qed.

Lemma run_accounts w o s r s' : run w o s = (r, s') -> accounts s s'.
Proof.
  destruct o; simpl; intros H.
  - eapply import_institution_accounts; eauto.
  - eapply import_collection_accounts; eauto.
  - eapply import_series_accounts; eauto.
  - eapply import_fileunit_accounts; eauto.
  - eapply import_digitalobject_accounts; eauto.
Qed.

(** X11: through any sequence of import operations, against any store and
    network, no counter of the importer ever goes down; and on an importer
    as constructed, every counter is non-negative, the entities the
    counters report are no more than the creation calls issued, the
    creation calls no more than the uploads, and the DigitalObjects
    reported no more than the downloads. *)
Theorem counters_account_for_calls (w : world) (ops : list operation) :
  (forall s, accounts s (run_all w ops s))
  /\ forall cid dry init inst,
       let s := run_all w ops (NARAImporter cid dry init inst) in
       0 <= institutions_created (stats_of s)
       /\ 0 <= collections_created (stats_of s)
       /\ 0 <= series_created (stats_of s)
       /\ 0 <= fileunits_created (stats_of s)
       /\ 0 <= digitalobjects_created (stats_of s)
       /\ 0 <= bytes_hashed (stats_of s)
       /\ 0 <= errors (stats_of s)
       /\ created (stats_of s) <= count_calls is_create (trace s)
       /\ count_calls is_create (trace s) <= count_calls is_upload (trace s)
       /\ digitalobjects_created (stats_of s) <= count_calls is_download (trace s).
Proof.
  assert (Hall : forall s, accounts s (run_all w ops s)).
  { induction ops as [|o ops' IH]; intros s; simpl.
    - apply accounts_refl.
    - destruct (run w o s) as [r s1] eqn:H. simpl.
      apply run_accounts in H. exact (accounts_trans _ _ _ H (IH s1)). }
  split; [exact Hall|].
  intros cid dry init inst s.
  pose proof (Hall (NARAImporter cid dry init inst)) as H. fold s in H.
  unfold accounts in H. simpl in H.
  change (count_calls _ []) with 0 in H. unfold created in *. simpl in H. lia.
Qed.

(** A failed method has recorded nothing. *)
Ltac close_unrecorded := unfold unrecorded; simpl; tauto.

Lemma run_raises_unrecorded w o s e s' :
  run w o s = (Raise e, s') -> unrecorded s s'.
Proof.
  destruct o; simpl; intros H.
  - unfold import_institution in H. exec; close_unrecorded.
  - unfold import_collection in H. exec; close_unrecorded.
  - unfold import_series in H. exec; close_unrecorded.
  - unfold import_fileunit in H. unfold_monad.
    repeat (case_match; simplify_eq/=);
      try match goal with
        | H : import_objects ?w ?n ?i ?objs ?s0 = (Raise _, _) |- _ =>
            destruct (import_objects_returns w n objs i s0) as [? ?]; congruence
        end;
      close_unrecorded.
  - unfold import_digitalobject in H. exec; close_unrecorded.
Qed.

(** X12: an import operation that raises has recorded nothing: the ledger
    and the institution slot are as before and no creation counter has
    moved, and the entity is still unresolved, so the same operation can be
    tried again. For a file unit this means that a failure of one of its
    assets never surfaces: the operation raises only for the file unit
    itself, before any asset is touched. *)
Theorem failed_operation_records_nothing (w : world) (o : operation)
    (s : importer) (e : exn) (s' : importer) :
  run w o s = (Raise e, s') ->
  unrecorded s s' /\ resolved o s = None /\ resolved o s' = None
  /\ count_calls is_download (trace s') - count_calls is_download (trace s) <= 1
  /\ match o with
     | Fileunit _ _ _ _ _ _ _ _ _ _ _ =>
         count_calls is_download (trace s') = count_calls is_download (trace s)
     | _ => True
     end.
Proof.
  intros H.
  pose proof (run_raises_unrecorded _ _ _ _ _ H) as U. split; [exact U|].
  assert (R : resolved o s = None).
  { destruct (resolved o s) as [pi|] eqn:R; [|reflexivity].
    rewrite (run_resolved w o s pi R) in H. discriminate. }
  split; [exact R|]. split.
  { destruct U as (Hl & Hi & _). unfold resolved in *. now rewrite Hl, Hi. }
  destruct o; simpl in H.
  - unfold import_institution in H. exec; simpl; rewrite ?count_calls_app;
      repeat match goal with
        | |- context [count_calls ?p [?c]] =>
            let v := eval cbv in (count_calls p [c]) in
            change (count_calls p [c]) with v
        end; split; (lia || exact I).
  - unfold import_collection in H. exec; simpl; rewrite ?count_calls_app;
      repeat match goal with
        | |- context [count_calls ?p [?c]] =>
            let v := eval cbv in (count_calls p [c]) in
            change (count_calls p [c]) with v
        end; split; (lia || exact I).
  - unfold import_series in H. exec; simpl; rewrite ?count_calls_app;
      repeat match goal with
        | |- context [count_calls ?p [?c]] =>
            let v := eval cbv in (count_calls p [c]) in
            change (count_calls p [c]) with v
        end; split; (lia || exact I).
  - unfold import_fileunit in H. unfold_monad.
    repeat (case_match; simplify_eq/=);
      try match goal with
        | H : import_objects ?w ?n ?i ?objs ?s0 = (Raise _, _) |- _ =>
            destruct (import_objects_returns w n objs i s0) as [? ?]; congruence
        end;
      rewrite ?count_calls_app;
      repeat match goal with
        | |- context [count_calls ?p [?c]] =>
            let v := eval cbv in (count_calls p [c]) in
            change (count_calls p [c]) with v
        end; split; lia.
  - unfold import_digitalobject in H. exec; simpl; rewrite ?count_calls_app;
      repeat match goal with
        | |- context [count_calls ?p [?c]] =>
            let v := eval cbv in (count_calls p [c]) in
            change (count_calls p [c]) with v
        end; split; (lia || exact I).
Qed.

Lemma failed_operation_records_nothing_witness :
  let o := Collection 7388842 "Collection" JNull JNull in
  let s' := snd (run refusing_world o (set_mapping "7585787" "01SERIES"
                   (NARAImporter "WJC-NSCSW" false None None))) in
  nara_to_pi s' !! "7585787" = Some "01SERIES" /\ resolved o s' = None.
Proof.
  intros o s'.
  destruct (failed_operation_records_nothing refusing_world o
              (set_mapping "7585787" "01SERIES"
                 (NARAImporter "WJC-NSCSW" false None None))
              ArkeAPIError s') as ((Hl & _) & _ & R & _).
  - vm_compute. reflexivity.
  - split; [|exact R]. rewrite Hl. apply lookup_insert_eq.
Defined.

Ltac eval_counts :=
  rewrite ?count_calls_app;
  repeat match goal with
    | |- context [count_calls ?p [?c]] =>
        let v := eval cbv in (count_calls p [c]) in
        change (count_calls p [c]) with v
    end.

Ltac close_asset :=
  unfold asset_frame, within; simpl; eval_counts;
  repeat match goal with |- _ /\ _ => split end;
  try lia; try reflexivity;
  try (intros k Hk; try rewrite lookup_insert_ne; [reflexivity|set_solver]).

Lemma import_digitalobject_asset w oid parent fn ty url fs pg tx fm s r s' :
  import_digitalobject w oid parent fn ty url fs pg tx fm s = (r, s') ->
  asset_frame [oid] s s' /\ within 1 s s'
  /\ errors (stats_of s') - errors (stats_of s) <= 1.
Proof. unfold import_digitalobject. intros H. exec; close_asset. Qed.

Lemma asset_frame_trans ids1 ids2 s1 s2 s3 :
  asset_frame ids1 s1 s2 -> asset_frame ids2 s2 s3 ->
  asset_frame (ids1 ++ ids2) s1 s3.
Proof.
  intros (L1 & I1 & A1 & B1 & C1 & D1) (L2 & I2 & A2 & B2 & C2 & D2).
  unfold asset_frame. repeat match goal with |- _ /\ _ => split end;
    try congruence.
  intros k Hk. rewrite L2, L1; [reflexivity| |]; set_solver.
Qed.

Lemma within_trans n m s1 s2 s3 :
  within n s1 s2 -> within m s2 s3 -> within (n + m) s1 s3.
Proof. unfold within. lia. Qed.

Lemma import_one_object_asset w naid i obj s r s' :
  import_one_object w naid i obj s = (r, s') ->
  asset_frame (object_ids [obj]) s s' /\ within 1 s s'.
Proof.
  unfold import_one_object. intros H. unfold_monad. unfold object_ids. simpl.
  repeat (case_match; simplify_eq/=);
    try match goal with
      | H : import_digitalobject _ _ _ _ _ _ _ _ _ _ ?s0 = (_, ?s1) |- _ =>
          apply import_digitalobject_asset in H;
          destruct H as ((L & I & A & B & C & D) & (W1 & W2 & W3) & W4)
      end;
    unfold asset_frame, within in *; simpl in *; eval_counts;
    repeat match goal with |- _ /\ _ => split end;
    try lia; try congruence; try reflexivity; auto.
Qed.

Lemma import_objects_asset w naid objs : forall i s r s',
  import_objects w naid i objs s = (r, s') ->
  asset_frame (object_ids objs) s s' /\ within (Z.of_nat (length objs)) s s'.
Proof.
  induction objs as [|obj rest IH]; intros i s r s' H; simpl in H.
  - unfold ret in H. simplify_eq. split.
    + unfold asset_frame. tauto.
    + unfold within. simpl. lia.
  - unfold bind in H at 1.
    destruct (import_one_object_returns w naid i obj s) as [s1 H1].
    rewrite H1 in H. apply import_one_object_asset in H1. apply IH in H.
    destruct H1 as [F1 W1], H as [F2 W2]. split.
    + change (object_ids (obj :: rest)) with (object_ids ([obj] ++ rest)).
      unfold object_ids. rewrite omap_app. now apply (asset_frame_trans _ _ _ s1).
    + replace (Z.of_nat (length (obj :: rest)))
        with (1 + Z.of_nat (length rest)) by (cbn [length]; lia).
      now apply (within_trans _ _ _ s1).
Qed.

Lemma run_frame w o s r s' : run w o s = (r, s') -> frame o s s'.
Proof.
  destruct o; simpl; intros H.
  - unfold import_institution in H. exec; unfold frame; simpl; tauto.
  - unfold import_collection in H. exec; unfold frame; simpl;
      (split; [|tauto]); intros k Hk; try rewrite lookup_insert_ne;
      try reflexivity; set_solver.
  - unfold import_series in H. exec; unfold frame; simpl;
      (split; [|tauto]); intros k Hk; try rewrite lookup_insert_ne;
      try reflexivity; set_solver.
  - unfold import_fileunit in H. unfold_monad.
    repeat (case_match; simplify_eq/=);
      try match goal with
        | H : import_objects _ _ _ _ _ = _ |- _ =>
            apply import_objects_asset in H;
            destruct H as [(L & I & A & B & C & D) _]; simpl in *
        end;
      unfold frame; simpl;
      (split; [|try tauto]); try (intros k Hk); try rewrite L;
      try rewrite lookup_insert_ne; try reflexivity; try set_solver.
  - apply import_digitalobject_asset in H.
    destruct H as ((L & I & A & B & C & D) & _). unfold frame. simpl. tauto.
Qed.

(** X13: an import operation writes the ledger only under its own source
    id, and for a file unit under the object ids of its assets; every other
    entry is as before. It leaves the institution slot alone unless it is
    the institution's operation, and moves no creation counter of another
    level (a file unit may move the DigitalObject counter). *)
Theorem operation_touches_only_its_own (w : world) (o : operation) (s : importer) :
  frame o s (snd (run w o s))
  /\ forall k, nara_to_pi (snd (run w o s)) !! k <> nara_to_pi s !! k ->
       k ∈ writes o.
Proof.
  pose proof (run_frame w o s _ _ (surjective_pairing _)) as F.
  split; [exact F|]. intros k Hk.
  destruct (decide (k ∈ writes o)) as [|Hn]; [assumption|].
  destruct F as [L _]. now rewrite (L k Hn) in Hk.
Qed.

Lemma run_ok_resolved w o s pi s' :
  run w o s = (Ok pi, s') ->
  (source_id o = None -> pi <> EmptyString) ->
  resolved o s' = Some pi.
Proof.
  intros H Hpi.
  destruct (resolved o s) as [pi0|] eqn:R.
  { rewrite (run_resolved w o s pi0 R) in H. now simplify_eq. }
  unfold resolved in *. destruct o; simpl in *.
  - specialize (Hpi eq_refl). unfold import_institution in H. exec;
      try reflexivity;
      try (rewrite R in Hpi; exfalso; now apply Hpi);
      exfalso; apply Hpi;
      match goal with
      | H : negb (String.eqb _ _) = false |- _ =>
          apply negb_false_iff, String.eqb_eq in H; exact H
      end.
  - unfold import_collection in H. exec; apply lookup_insert_eq.
  - unfold import_series in H. exec; apply lookup_insert_eq.
  - unfold import_fileunit in H. unfold_monad.
    repeat (case_match; simplify_eq/=); try apply lookup_insert_eq.
    match goal with
    | H : import_objects _ _ _ _ _ = _ |- _ =>
        apply import_objects_extends in H; destruct H as [_ _ L _ _]
    end.
    eapply lookup_weaken; [|exact L]. apply lookup_insert_eq.
  - unfold import_digitalobject in H. exec; apply lookup_insert_eq.
Qed.

(** X14: an import operation that returns a store id has made its entity
    resolved to that id, and it stays so: after any further operations,
    any operation for the same source id, whatever its other arguments and
    whatever the store answers by then, returns the same id and changes
    nothing. For the institution this needs the store id to be non-empty:
    an empty one counts as no institution. *)
Theorem successful_operation_is_remembered (w : world) (o : operation)
    (s : importer) (pi : string) (s' : importer) :
  run w o s = (Ok pi, s') ->
  (source_id o = None -> pi <> EmptyString) ->
  resolved o s' = Some pi
  /\ forall w' ops o',
       source_id o' = source_id o ->
       run w' o' (run_all w' ops s') = (Ok pi, run_all w' ops s').
Proof.
  intros H Hpi. pose proof (run_ok_resolved _ _ _ _ _ H Hpi) as R.
  split; [exact R|]. intros w' ops o' Ho'.
  apply run_resolved.
  assert (R' : resolved o' s' = Some pi) by (unfold resolved in *; now rewrite Ho').
  exact (resolved_extends o' s' _ pi (run_all_extends w' ops s') R').
Qed.

Lemma successful_operation_is_remembered_witness :
  let o := Series 7585787 7388842 "Series" JNull JNull JNull in
  let s := NARAImporter "WJC-NSCSW" false None None in
  let s' := snd (run plain_world o s) in
  resolved o s' = Some "01ENTITY"
  /\ forall w' ops o',
       source_id o' = source_id o ->
       run w' o' (run_all w' ops s') = (Ok "01ENTITY", run_all w' ops s').
Proof.
  intros o s s'.
  apply (successful_operation_is_remembered plain_world o s "01ENTITY" s').
  - vm_compute. reflexivity.
  - discriminate.
Defined.

(** X15: a file unit survives its assets. On an importer that is not a dry
    run and has not resolved the file unit, once the upload of its catalog
    record and its creation call succeed, [import_fileunit] returns the new
    store id whatever the assets are and whatever the store and the network
    do for them. The file unit is uploaded and created, under the store id
    the ledger holds for the series at that time, before any asset is
    touched; it is recorded and counted once; and the assets add at most
    one DigitalObject and one download each, and at most two errors each. *)
Theorem import_fileunit_survives_assets (w : world)
    (naid ser col : Z) (title : string) (rt : json)
    (objs : list (list (string * json))) (ar : json) (ft : option string)
    (pl ot fm : json) (s : importer) (cid : string) (ent : entity) :
  let count := Z.of_nat (length objs) in
  let record :=
    Schema.create_fileunit_catalog_record naid ser col title rt count ar ft pl
      ot fm (w_utcnow w (trace s)) in
  let creation :=
    CreateEntity [("catalog_record", cid)] (nara_to_pi s !! PyStr.str_of_int ser)
      ("FileUnit: " +:+ title +:+ " (naId:" +:+ PyStr.str_of_int naid +:+ ", "
         +:+ PyStr.str_of_int count +:+ " pages)") in
  dry_run s = false ->
  nara_to_pi s !! PyStr.str_of_int naid = None ->
  w_upload_json w (trace s) record = Ok cid ->
  w_create_entity w (trace s ++ [UploadJson record]) [("catalog_record", cid)]
    (nara_to_pi s !! PyStr.str_of_int ser)
    ("FileUnit: " +:+ title +:+ " (naId:" +:+ PyStr.str_of_int naid +:+ ", "
       +:+ PyStr.str_of_int count +:+ " pages)") = Ok ent ->
  exists s',
    import_fileunit w naid ser col title rt objs ar ft pl ot fm s
    = (Ok (e_pi ent), s')
    /\ nara_to_pi s' !! PyStr.str_of_int naid = Some (e_pi ent)
    /\ fileunits_created (stats_of s') = fileunits_created (stats_of s) + 1
    /\ (exists t, trace s' = trace s ++ UploadJson record :: creation :: t)
    /\ within count s s'.
Proof.
  intros count record creation Hdry Hnew Hup Hcreate.
  unfold import_fileunit. unfold_monad. rewrite Hnew, Hdry.
  fold count. fold record. cbn [trace set_trace]. rewrite Hup.
  cbn [trace set_trace nara_to_pi]. rewrite Hcreate.
  match goal with
  | |- context [import_objects w naid 1 objs ?s0] =>
      destruct (import_objects_returns w naid objs 1 s0) as [s' Hs'];
      rewrite Hs'; exists s'; split; [reflexivity|];
      pose proof (import_objects_extends _ _ _ _ _ _ _ Hs') as [_ _ L _ [t Ht]];
      pose proof (import_objects_asset _ _ _ _ _ _ _ Hs')
        as [(_ & _ & _ & _ & _ & F) (W1 & W2 & W3)]
  end.
  simpl in *. repeat match goal with |- _ /\ _ => split end.
  - eapply lookup_weaken; [|exact L]. apply lookup_insert_eq.
  - rewrite F. reflexivity.
  - exists t. rewrite Ht. rewrite <- !app_assoc. reflexivity.
  - unfold within. rewrite !count_calls_app in W3.
    change (count_calls is_download [UploadJson record]) with 0 in W3.
    change (count_calls is_download [_]) with 0 in W3.
    fold count in W1, W2, W3. lia.
Qed.

Lemma import_fileunit_survives_assets_witness :
  exists s',
    import_fileunit plain_world 23902919 7585787 7388842 "Folder" JNull five_assets
      JNull None JNull JNull JNull (NARAImporter "WJC-NSCSW" false None None)
    = (Ok "01ENTITY", s')
    /\ nara_to_pi s' !! "23902919" = Some "01ENTITY"
    /\ fileunits_created (stats_of s') = 1.
Proof.
  destruct (import_fileunit_survives_assets plain_world 23902919 7585787 7388842
              "Folder" JNull five_assets JNull None JNull JNull JNull
              (NARAImporter "WJC-NSCSW" false None None) "bafy"
              (mk_entity "01ENTITY" 1))
    as (s' & H & L & F & _); try reflexivity.
  exists s'. split; [exact H|]. split; [|exact F].
  assert (E : PyStr.str_of_int 23902919 = "23902919") by (vm_compute; reflexivity).
  rewrite E in L. exact L.
Defined.

(** X16: the institution is created under the genesis block when the
    store gives one, and without a parent when asking for it fails: a
    failure of [get_arke_block] never fails [import_institution]. An
    institution slot holding the empty string counts as unset, so the
    institution is created again. The calls are the upload, the question
    and the creation, in this order, and the ledger is not involved. *)
Theorem import_institution_tolerates_missing_block (w : world) (name : string)
    (description url location : option string) (s : importer)
    (cid : string) (ent : entity) :
  let record :=
    Schema.create_institution_catalog_record name description url location
      (w_utcnow w (trace s)) in
  let parent :=
    match w_get_arke_block w (trace s ++ [UploadJson record]) with
    | Ok pi => Some pi
    | Raise _ => None
    end in
  let creation :=
    CreateEntity [("catalog_record", cid)] parent ("Institution: " +:+ name) in
  (institution_pi s = None \/ institution_pi s = Some EmptyString) ->
  dry_run s = false ->
  w_upload_json w (trace s) record = Ok cid ->
  w_create_entity w ((trace s ++ [UploadJson record]) ++ [GetArkeBlock])
    [("catalog_record", cid)] parent ("Institution: " +:+ name) = Ok ent ->
  exists s',
    import_institution w name description url location s = (Ok (e_pi ent), s')
    /\ institution_pi s' = Some (e_pi ent)
    /\ trace s' = trace s ++ [UploadJson record; GetArkeBlock; creation]
    /\ nara_to_pi s' = nara_to_pi s
    /\ institutions_created (stats_of s') = institutions_created (stats_of s) + 1.
Proof.
  intros record parent creation Hunset Hdry Hup Hcreate.
  assert (Hf : truthy_opt (institution_pi s) = false)
    by (destruct Hunset as [-> | ->]; reflexivity).
  unfold import_institution. unfold_monad. rewrite Hf, Hdry.
  fold record. rewrite Hup. cbn [trace set_trace].
  unfold parent in Hcreate.
  destruct (w_get_arke_block w (trace s ++ [UploadJson record])) as [pi|e] eqn:Hb;
    cbn [trace set_trace]; rewrite Hcreate;
    (eexists; split; [reflexivity|]); simpl;
    (repeat match goal with |- _ /\ _ => split end);
    try reflexivity; unfold creation, parent; rewrite ?Hb, <- ?app_assoc;
    reflexivity.
Qed.

Lemma import_institution_tolerates_missing_block_witness :
  exists s',
    import_institution plain_world "National Archives" None None None
      (NARAImporter "WJC-NSCSW" false None (Some EmptyString))
    = (Ok "01ENTITY", s')
    /\ institution_pi s' = Some "01ENTITY"
    /\ exists record,
         trace s' = [UploadJson record; GetArkeBlock;
                     CreateEntity [("catalog_record", "bafy")] None
                       "Institution: National Archives"].
Proof.
  destruct (import_institution_tolerates_missing_block plain_world
              "National Archives" None None None
              (NARAImporter "WJC-NSCSW" false None (Some EmptyString)) "bafy"
              (mk_entity "01ENTITY" 1))
    as (s' & H & I & T & _); try reflexivity.
  - now right.
  - exists s'. split; [exact H|]. split; [exact I|]. eexists. exact T.
Defined.

(** X17: the loop over the assets of a file unit never raises, whatever
    fields the assets hold and whatever the store and the network answer. Pages
    are numbered by position: the assets after the first [length done]
    ones are imported with page numbers starting at [i + length done], on
    the importer the first ones leave, whether those were created, skipped
    or failed. An asset that lacks one of [objectId], [objectFilename],
    [objectType], [objectUrl] is counted as an error and issues no call. *)
Theorem import_objects_by_position (w : world) (naid i : Z)
    (done rest : list (list (string * json))) (s : importer) :
  fst (import_objects w naid i (done ++ rest) s) = Ok tt
  /\ import_objects w naid i (done ++ rest) s
     = import_objects w naid (i + Z.of_nat (length done)) rest
         (snd (import_objects w naid i done s))
  /\ forall obj,
       existsb (fun k => negb (bool_decide (is_Some (dict_get k obj))))
         ["objectId"; "objectFilename"; "objectType"; "objectUrl"] = true ->
       import_objects w naid i [obj] s
       = (Ok tt, set_stats (bump_errors (stats_of s)) s).
Proof.
  split; [|split].
  - now destruct (import_objects_returns w naid (done ++ rest) i s) as [s' ->].
  - revert i s. induction done as [|obj done' IH]; intros i s.
    + simpl. now rewrite Z.add_0_r.
    + cbn [app import_objects length].
      destruct (import_one_object_returns w naid i obj s) as [s1 H1].
      unfold bind at 1. rewrite H1. unfold bind at 1. rewrite H1.
      rewrite IH.
      replace (i + Z.of_nat (S (length done')))
        with (i + 1 + Z.of_nat (length done')) by lia.
      reflexivity.
  - intros obj Hmiss. cbn [import_objects]. unfold bind at 1.
    unfold import_one_object. unfold_monad.
    cbn [existsb] in Hmiss.
    destruct (dict_get "objectId" obj) as [[]|] eqn:H1; try reflexivity;
    destruct (dict_get "objectFilename" obj) as [[]|] eqn:H2; try reflexivity;
    destruct (dict_get "objectType" obj) as [[]|] eqn:H3; try reflexivity;
    destruct (dict_get "objectUrl" obj) as [[]|] eqn:H4; try reflexivity;
    exfalso; rewrite !bool_decide_eq_true_2 in Hmiss by eauto; discriminate.
Qed.

End ImporterInvariants.

Module NaraPiIdFacts.
Import PyStr NaraPi PyStrFacts NaraPiFacts.

Lemma str_of_int_inj (n m : Z) : str_of_int n = str_of_int m -> n = m.
Proof. unfold str_of_int. apply (inj pretty). Qed.

(** X18: semantic identifiers are unambiguous. Two identifiers generated
    from entity types and nara ids without a hyphen are equal only when
    the collection ids, the entity types and the texts of the nara ids are
    equal, whatever hyphens the collection ids hold; so for the four entity
    types and non-negative integer ids, distinct entities of one or several
    collections never share an identifier. *)
Theorem generate_semantic_id_injective (cid cid' ty ty' : string)
    (nid nid' : nara_id) :
  has_char "-" ty = false -> has_char "-" ty' = false ->
  has_char "-" (format_id nid) = false -> has_char "-" (format_id nid') = false ->
  generate_semantic_id cid ty nid = generate_semantic_id cid' ty' nid' ->
  cid = cid' /\ ty = ty' /\ format_id nid = format_id nid'
  /\ forall n n', nid = IdInt n -> nid' = IdInt n' -> n = n'.
Proof.
  intros Hty Hty' Hn Hn' H.
  assert (Hs : split "-" (generate_semantic_id cid ty nid +:+ "-" +:+ "x")
               = split "-" (generate_semantic_id cid' ty' nid' +:+ "-" +:+ "x"))
    by now rewrite H.
  rewrite !split_generated in Hs by (assumption || reflexivity).
  injection Hs as Hs.
  change [ty; format_id nid; "x"] with ([ty] ++ [format_id nid] ++ ["x"]) in Hs.
  change [ty'; format_id nid'; "x"] with ([ty'] ++ [format_id nid'] ++ ["x"]) in Hs.
  rewrite !app_assoc in Hs.
  apply app_inj_tail in Hs as [Hs _].
  apply app_inj_tail in Hs as [Hs Hnid].
  apply app_inj_tail in Hs as [Hs Hty2].
  assert (Hcid : cid = cid').
  { rewrite <- (join_split "-" cid), <- (join_split "-" cid'). now rewrite Hs. }
  repeat split; try assumption.
  intros n n' -> ->. now apply str_of_int_inj.
Qed.

Lemma generate_semantic_id_injective_witness :
  "WJC-NSCSW" = "WJC-NSCSW" /\ "FILE" = "FILE"
  /\ format_id (IdInt 23902919) = format_id (IdInt 23902919)
  /\ forall n n', IdInt 23902919 = IdInt n -> IdInt 23902919 = IdInt n' -> n = n'.
Proof.
  apply (generate_semantic_id_injective "WJC-NSCSW" "WJC-NSCSW" "FILE" "FILE"
           (IdInt 23902919) (IdInt 23902919));
    try reflexivity; apply str_of_int_no_hyphen; lia.
Defined.

End NaraPiIdFacts.

Module DownloadFacts.
Import Sha256 HashUtils HashUtilsFacts.

Lemma hash_chunks_fault events : forall h n,
  fault_free events = false -> hash_chunks events h n = Raise RequestException.
Proof.
  induction events as [|[c|] rest IH]; intros h n H; simpl in *.
  - discriminate.
  - destruct c; now apply IH.
  - reflexivity.
Qed.

(** X19: [download_and_hash_s3] fails with [HashComputationError] and
    nothing else, and it fails exactly when the connection fails, the
    status is 4xx or 5xx, or the stream breaks before its end. A stream
    that breaks never yields a digest, however many bytes arrived before
    the fault: a digest returned is always that of a whole body. *)
Theorem download_and_hash_s3_failures (get : string -> fetch) (url : string)
    (chunk_size : Z) :
  (forall e, download_and_hash_s3 get url chunk_size = Raise e ->
             e = HashComputationError)
  /\ (download_and_hash_s3 get url chunk_size = Raise HashComputationError
      <-> get url = ConnectFailed
          \/ exists status iter,
               get url = Response status iter
               /\ (400 <= status < 600 \/ fault_free (iter chunk_size) = false))
  /\ (forall digest size,
        download_and_hash_s3 get url chunk_size = Ok (digest, size) ->
        exists status iter,
          get url = Response status iter
          /\ fault_free (iter chunk_size) = true
          /\ digest = sha256_hex (body_bytes (iter chunk_size))
          /\ size = Z.of_nat (length (body_bytes (iter chunk_size)))).
Proof.
  split; [intros e; apply download_and_hash_s3_raises|].
  unfold download_and_hash_s3, raise_for_status.
  destruct (get url) as [|status iter].
  - split; [|discriminate]. split; [now left|reflexivity].
  - destruct (Z.leb_spec 400 status), (Z.ltb_spec status 600); cbn [andb].
    + split; [|discriminate].
      split; [right; eexists _, _; split; [reflexivity|left; lia]|reflexivity].
    + destruct (fault_free (iter chunk_size)) eqn:Hff.
      * rewrite (hash_chunks_ok _ _ _ Hff). split.
        -- split; [discriminate|].
           intros [|(st & it & E & [|])]; simplify_eq; [lia|congruence].
        -- intros digest size E. simplify_eq. eexists _, _.
           split; [reflexivity|]. split; [exact Hff|]. split; reflexivity.
      * rewrite (hash_chunks_fault _ _ _ Hff). split; [|discriminate].
        split; [right; eexists _, _; split; [reflexivity|now right]|reflexivity].
    + destruct (fault_free (iter chunk_size)) eqn:Hff.
      * rewrite (hash_chunks_ok _ _ _ Hff). split.
        -- split; [discriminate|].
           intros [|(st & it & E & [|])]; simplify_eq; [lia|congruence].
        -- intros digest size E. simplify_eq. eexists _, _.
           split; [reflexivity|]. split; [exact Hff|]. split; reflexivity.
      * rewrite (hash_chunks_fault _ _ _ Hff). split; [|discriminate].
        split; [right; eexists _, _; split; [reflexivity|now right]|reflexivity].
    + lia.
Qed.

End DownloadFacts.

Module ResumeFacts.
Import Json Importer Checkpoint ImporterFacts CheckpointFacts.



End ResumeFacts.

Module DriverFacts.
Import Json Importer Driver Scenarios ImporterFacts ImporterInvariants.

Lemma scan_keeps_collection ancestors : forall h h',
  scan_ancestors ancestors h = Returns h' ->
  existsb (fun a => match a with
                    | JDict d => field_is d "levelOfDescription" "collection"
                    | _ => false
                    end) ancestors = false ->
  h_collection h' = h_collection h.
Proof.
  induction ancestors as [|a rest IH]; intros h h' H Hno; simpl in H.
  - now simplify_eq.
  - destruct a as [| | | | |d]; try discriminate.
    cbn [existsb] in Hno. apply orb_false_iff in Hno as [Hd Hrest].
    rewrite Hd in H.
    destruct (field_is d "levelOfDescription" "series").
    + destruct (series_info_of d) as [si|]; [|discriminate].
      cbn [and_then] in H. now rewrite (IH _ _ H Hrest).
    + now apply IH.
Qed.

Lemma scan_keeps_series ancestors : forall h h',
  scan_ancestors ancestors h = Returns h' ->
  existsb (fun a => match a with
                    | JDict d => field_is d "levelOfDescription" "series"
                    | _ => false
                    end) ancestors = false ->
  h_series h' = h_series h.
Proof.
  induction ancestors as [|a rest IH]; intros h h' H Hno; simpl in H.
  - now simplify_eq.
  - destruct a as [| | | | |d]; try discriminate.
    cbn [existsb] in Hno. apply orb_false_iff in Hno as [Hd Hrest].
    rewrite Hd in H.
    destruct (field_is d "levelOfDescription" "collection").
    + destruct (collection_info_of d) as [ci|]; [|discriminate].
      cbn [and_then] in H. now rewrite (IH _ _ H Hrest).
    + now apply IH.
Qed.

Lemma extract_without_level record h :
  extract_hierarchy_info record = Returns h ->
  (has_ancestor record "collection" = false -> h_collection h = JNull)
  /\ (has_ancestor record "series" = false -> h_series h = JNull).
Proof.
  unfold extract_hierarchy_info, has_ancestor, iterate.
  destruct (default (JList []) (dict_get "ancestors" record)) as [| | |t|l|d];
    try discriminate; cbn [and_then]; intros H.
  - destruct t; [simpl in H; now simplify_eq|discriminate].
  - split; intros Hno.
    + now rewrite (scan_keeps_collection _ _ _ H Hno).
    + now rewrite (scan_keeps_series _ _ _ H Hno).
  - destruct d as [|[k v] d]; [simpl in H; now simplify_eq|discriminate].
Qed.

(** X21: a record whose ancestors can be read but include no collection,
    or no series, is rejected by [import_record] with a [ValueError] before
    anything is sent or recorded: the importer is left exactly as it was,
    whatever the rest of the record holds. A record without an [ancestors]
    field is such a record. *)
Theorem import_record_rejects_orphans (w : world) (record : list (string * json))
    (h : hierarchy) (s : importer) :
  extract_hierarchy_info record = Returns h ->
  has_ancestor record "collection" && has_ancestor record "series" = false ->
  import_record w record s = (Raises (Lib ValueError), s).
Proof.
  intros H Hno. destruct (extract_without_level _ _ H) as [Hc Hs].
  unfold import_record, seq, pure. rewrite H.
  destruct (has_ancestor record "collection").
  - simpl in Hno. rewrite (Hs Hno).
    destruct (negb (truthy (h_collection h))); reflexivity.
  - now rewrite (Hc eq_refl).
Qed.

Lemma import_record_rejects_orphans_witness :
  let record := [("naId", JInt 23902919); ("title", JStr "Folder");
                 ("ancestors",
                  JList [JDict [("levelOfDescription", JStr "recordGroup");
                                ("naId", JInt 1)];
                         JDict [("levelOfDescription", JStr "series");
                                ("naId", JInt 7585787);
                                ("title", JStr "Series")]])] in
  let s := NARAImporter "WJC-NSCSW" false None None in
  import_record (test_world []) record s = (Raises (Lib ValueError), s).
Proof.
  intros record s.
  refine (import_record_rejects_orphans (test_world []) record _ s _ _).
  - vm_compute. reflexivity.
  - reflexivity.
Defined.

(** The calls of a series or a file unit that is created: the upload of
    its catalog record, then its creation under the store id the ledger
    holds for its parent, with the address of that upload. *)
Lemma import_series_calls w naid parent title dr cr fm s pi s' :
  dry_run s = false ->
  nara_to_pi s !! PyStr.str_of_int naid = None ->
  import_series w naid parent title dr cr fm s = (Ok pi, s') ->
  exists cid ent,
    let record :=
      Schema.create_series_catalog_record naid parent title dr cr fm
        (w_utcnow w (trace s)) in
    let text :=
      "Series: " +:+ title +:+ " (naId:" +:+ PyStr.str_of_int naid +:+ ")" in
    let parent_pi := nara_to_pi s !! PyStr.str_of_int parent in
    trace s' = trace s ++ [UploadJson record;
                           CreateEntity [("catalog_record", cid)] parent_pi text]
    /\ w_upload_json w (trace s) record = Ok cid
    /\ w_create_entity w (trace s ++ [UploadJson record])
         [("catalog_record", cid)] parent_pi text = Ok ent
    /\ e_pi ent = pi.
Proof.
  intros Hdry Hnone H. unfold import_series in H. exec.
  do 2 eexists. cbv zeta.
  split; [rewrite <- app_assoc; reflexivity|].
  split; [reflexivity || eassumption|].
  split; [reflexivity || eassumption|reflexivity].
Qed.

Lemma import_fileunit_calls w naid ser col title rt objs ar ft pl ot fm s pi s' :
  dry_run s = false ->
  nara_to_pi s !! PyStr.str_of_int naid = None ->
  import_fileunit w naid ser col title rt objs ar ft pl ot fm s = (Ok pi, s') ->
  exists cid ent after,
    let count := Z.of_nat (length objs) in
    let record :=
      Schema.create_fileunit_catalog_record naid ser col title rt count ar ft pl
        ot fm (w_utcnow w (trace s)) in
    let text :=
      "FileUnit: " +:+ title +:+ " (naId:" +:+ PyStr.str_of_int naid +:+ ", "
        +:+ PyStr.str_of_int count +:+ " pages)" in
    let parent_pi := nara_to_pi s !! PyStr.str_of_int ser in
    trace s' = trace s ++ UploadJson record
                 :: CreateEntity [("catalog_record", cid)] parent_pi text :: after
    /\ w_upload_json w (trace s) record = Ok cid
    /\ w_create_entity w (trace s ++ [UploadJson record])
         [("catalog_record", cid)] parent_pi text = Ok ent
    /\ e_pi ent = pi.
Proof.
  intros Hdry Hnone H. unfold import_fileunit in H. unfold_monad.
  repeat (case_match; simplify_eq/=).
  match goal with
  | H : import_objects _ _ _ _ _ = _ |- _ =>
      apply import_objects_extends in H; destruct H as [_ _ _ _ [t Ht]]
  end.
  simpl in Ht. exists a, a0, t. cbv zeta.
  split; [rewrite Ht, <- !app_assoc; reflexivity|].
  split; [reflexivity || eassumption|].
  split; [reflexivity || eassumption|reflexivity].
Qed.

(** What a call of [import_record] that returns went through. *)
Lemma import_record_returned w record s pi s' :
  import_record w record s = (Returns pi, s') ->
  exists h c ct cd sr st sd cr f title objs ft pl c_pi s_pi s1 s2,
    extract_hierarchy_info record = Returns h
    /\ getitem (h_collection h) "naId" = Returns (JInt c)
    /\ getitem (h_series h) "naId" = Returns (JInt sr)
    /\ subscript record "naId" = Returns (JInt f)
    /\ import_collection w c ct cd JNull s = (Ok c_pi, s1)
    /\ import_series w sr c st sd cr JNull s1 = (Ok s_pi, s2)
    /\ import_fileunit w f sr c title
         (default (JList []) (dict_get "generalRecordsTypes" record)) objs
         (default JNull (dict_get "accessRestriction" record)) ft pl
         (default JNull (dict_get "otherTitles" record)) (JDict record) s2
       = (Ok pi, s').
Proof.
  unfold import_record, seq, pure, invoke, and_then, as_int, as_text. intros H.
  repeat (case_match; simplify_eq/=).
  do 17 eexists. repeat split; eauto.
Qed.

Lemma import_collection_resolved w naid title dr fm s pi :
  nara_to_pi s !! PyStr.str_of_int naid = Some pi ->
  import_collection w naid title dr fm s = (Ok pi, s).
Proof. intros H. exact (run_resolved w (Collection naid title dr fm) s pi H). Qed.

Lemma import_series_resolved w naid parent title dr cr fm s pi :
  nara_to_pi s !! PyStr.str_of_int naid = Some pi ->
  import_series w naid parent title dr cr fm s = (Ok pi, s).
Proof. intros H. exact (run_resolved w (Series naid parent title dr cr fm) s pi H). Qed.

Lemma import_fileunit_resolved w naid ser col title rt objs ar ft pl ot fm s pi :
  nara_to_pi s !! PyStr.str_of_int naid = Some pi ->
  import_fileunit w naid ser col title rt objs ar ft pl ot fm s = (Ok pi, s).
Proof.
  intros H.
  exact (run_resolved w (Fileunit naid ser col title rt objs ar ft pl ot fm) s pi H).
Qed.

(** X22: a record that [import_record] has imported is not imported
    again. Once a call has returned the store id of the file unit, any
    later call for the same record, after any other operations and
    whatever the store answers by then, returns the same id, sends nothing
    and changes nothing: this is what lets a resumed run go over records it
    has already done. *)
Theorem import_record_again (w : world) (record : list (string * json))
    (s : importer) (pi : string) (s' : importer) :
  import_record w record s = (Returns pi, s') ->
  forall w' ops,
    import_record w' record (run_all w' ops s') = (Returns pi, run_all w' ops s').
Proof.
  intros H w' ops.
  pose proof (run_all_extends w' ops s') as E. set (t := run_all w' ops s') in *.
  clearbody t.
  unfold import_record, seq, pure, invoke, and_then, as_int, as_text in H.
  repeat (case_match; simplify_eq/=).
  repeat match goal with
    | H : import_collection _ ?c ?ct ?cd ?fm ?s0 = (Ok _, ?s1) |- _ =>
        pose proof (import_collection_extends _ _ _ _ _ _ _ _ H);
        apply (run_ok_resolved _ (Collection c ct cd fm)) in H; [|discriminate]
    | H : import_series _ ?n ?p ?st ?sd ?cr ?fm ?s0 = (Ok _, ?s1) |- _ =>
        pose proof (import_series_extends _ _ _ _ _ _ _ _ _ _ H);
        apply (run_ok_resolved _ (Series n p st sd cr fm)) in H; [|discriminate]
    | H : import_fileunit _ ?n ?p ?c ?ti ?rt ?ob ?ar ?ft ?pl ?ot ?fm ?s0 = (Ok _, ?s1)
      |- _ =>
        pose proof (import_fileunit_extends _ _ _ _ _ _ _ _ _ _ _ _ _ _ _ H);
        apply (run_ok_resolved _ (Fileunit n p c ti rt ob ar ft pl ot fm)) in H;
        [|discriminate]
    end.
  unfold resolved in *. simpl in *.
  unfold import_record, seq, pure, invoke, and_then, as_int, as_text.
  repeat match goal with
    | H : ?x = Returns _ |- context [?x] => rewrite H
    | H : negb _ = false |- _ => rewrite H
    | H : default _ _ = JStr _ |- _ => rewrite H
    end.
  repeat match goal with
    | L : nara_to_pi ?x !! ?k = Some ?v |- _ =>
        lazymatch x with t => fail | _ => idtac end;
        assert (nara_to_pi t !! k = Some v)
          by (eapply lookup_weaken; [exact L|]; apply ext_ledger;
              eauto using extends_trans);
        clear L
    end.
  erewrite import_collection_resolved by eassumption.
  erewrite import_series_resolved by eassumption.
  erewrite import_fileunit_resolved by eassumption.
  reflexivity.
Qed.

Lemma import_record_again_witness :
  let record := [("naId", JInt 23902919); ("title", JStr "Folder");
                 ("ancestors",
                  JList [JDict [("levelOfDescription", JStr "collection");
                                ("naId", JInt 7388842);
                                ("title", JStr "Collection")];
                         JDict [("levelOfDescription", JStr "series");
                                ("naId", JInt 7585787);
                                ("title", JStr "Series")]])] in
  let s' := snd (import_record plain_world record
                   (NARAImporter "WJC-NSCSW" false None None)) in
  import_record refusing_world record s' = (Returns "01ENTITY", s').
Proof.
  intros record s'.
  apply (import_record_again plain_world record
           (NARAImporter "WJC-NSCSW" false None None) "01ENTITY" s'
           ltac:(vm_compute; reflexivity) refusing_world []).
Defined.

(** X23: [import_record] imports the collection, then the series, then the
    file unit, so that no entity is created before its parent is known.
    When it returns, the ledger resolves the three source ids, the file
    unit to the id returned. Outside a dry run and with the three source
    ids distinct, a series that was not resolved before is created in this
    call: its catalog record, which names the series and its collection, is
    uploaded, and the next call creates the entity from the address of
    that upload with the store id of the collection as parent; the id the
    store answers is the one the ledger holds for the series. In the same
    way a file unit that was not resolved before is created from the upload
    of its own catalog record with the store id of the series as parent,
    and the id the store answers is the one returned. *)
Theorem import_record_links_hierarchy (w : world) (record : list (string * json))
    (s : importer) (pi : string) (s' : importer) :
  import_record w record s = (Returns pi, s') ->
  exists h c sr f c_pi s_pi,
    extract_hierarchy_info record = Returns h
    /\ getitem (h_collection h) "naId" = Returns (JInt c)
    /\ getitem (h_series h) "naId" = Returns (JInt sr)
    /\ subscript record "naId" = Returns (JInt f)
    /\ nara_to_pi s' !! PyStr.str_of_int c = Some c_pi
    /\ nara_to_pi s' !! PyStr.str_of_int sr = Some s_pi
    /\ nara_to_pi s' !! PyStr.str_of_int f = Some pi
    /\ (dry_run s = false ->
        nara_to_pi s !! PyStr.str_of_int sr = None ->
        PyStr.str_of_int sr <> PyStr.str_of_int c ->
        exists before title dates creators now cid ent after,
          let series_record :=
            Schema.create_series_catalog_record sr c title dates creators JNull
              now in
          let text :=
            "Series: " +:+ title +:+ " (naId:" +:+ PyStr.str_of_int sr +:+ ")" in
          trace s' = trace s ++ before
                       ++ UploadJson series_record
                       :: CreateEntity [("catalog_record", cid)] (Some c_pi) text
                       :: after
          /\ w_upload_json w (trace s ++ before) series_record = Ok cid
          /\ w_create_entity w (trace s ++ before ++ [UploadJson series_record])
               [("catalog_record", cid)] (Some c_pi) text = Ok ent
          /\ e_pi ent = s_pi)
    /\ (dry_run s = false ->
        nara_to_pi s !! PyStr.str_of_int f = None ->
        PyStr.str_of_int f <> PyStr.str_of_int c ->
        PyStr.str_of_int f <> PyStr.str_of_int sr ->
        exists before title types count access foia location others now cid ent
               after,
          let unit_record :=
            Schema.create_fileunit_catalog_record f sr c title types count access
              foia location others (JDict record) now in
          let text :=
            "FileUnit: " +:+ title +:+ " (naId:" +:+ PyStr.str_of_int f +:+ ", "
              +:+ PyStr.str_of_int count +:+ " pages)" in
          trace s' = trace s ++ before
                       ++ UploadJson unit_record
                       :: CreateEntity [("catalog_record", cid)] (Some s_pi) text
                       :: after
          /\ w_upload_json w (trace s ++ before) unit_record = Ok cid
          /\ w_create_entity w (trace s ++ before ++ [UploadJson unit_record])
               [("catalog_record", cid)] (Some s_pi) text = Ok ent
          /\ e_pi ent = pi).
Proof.
  intros H.
  destruct (import_record_returned _ _ _ _ _ H)
    as (h & c & ct & cd & sr & st & sd & cr & f & title & objs & ft & pl & c_pi
        & s_pi & s1 & s2 & Hh & Hc & Hsr & Hf & Rc & Rs & Rf).
  pose proof (import_collection_extends _ _ _ _ _ _ _ _ Rc) as E1.
  pose proof (import_series_extends _ _ _ _ _ _ _ _ _ _ Rs) as E2.
  pose proof (import_fileunit_extends _ _ _ _ _ _ _ _ _ _ _ _ _ _ _ Rf) as E3.
  pose proof (run_frame w (Collection c ct cd JNull) _ _ _ Rc) as [F1 _].
  pose proof (run_frame w (Series sr c st sd cr JNull) _ _ _ Rs) as [F2 _].
  pose proof (run_ok_resolved w (Collection c ct cd JNull) _ _ _ Rc
                ltac:(discriminate)) as L1.
  pose proof (run_ok_resolved w (Series sr c st sd cr JNull) _ _ _ Rs
                ltac:(discriminate)) as L2.
  pose proof (run_ok_resolved w (Fileunit f sr c title _ objs _ ft pl _ _) _ _ _ Rf
                ltac:(discriminate)) as L3.
  unfold resolved in L1, L2, L3. simpl in L1, L2, L3, F1, F2.
  assert (L2' : nara_to_pi s2 !! PyStr.str_of_int c = Some c_pi)
    by (eapply lookup_weaken; [exact L1|apply E2]).
  exists h, c, sr, f, c_pi, s_pi.
  repeat match goal with |- _ /\ _ => split end; try assumption.
  - eapply lookup_weaken; [exact L2'|apply E3].
  - eapply lookup_weaken; [exact L2|apply E3].
  - intros Hdry Hnone Hne.
    assert (Hnone1 : nara_to_pi s1 !! PyStr.str_of_int sr = None)
      by (rewrite F1; [exact Hnone|set_solver]).
    assert (Hdry1 : dry_run s1 = false) by (rewrite (ext_dry_run _ _ E1); exact Hdry).
    destruct (import_series_calls _ _ _ _ _ _ _ _ _ _ Hdry1 Hnone1 Rs)
      as (cid & ent & Ht & Hu & Hcr & He).
    cbv zeta in Ht, Hu, Hcr. rewrite L1 in Ht, Hcr.
    destruct (ext_trace _ _ E1) as [t1 Ht1]. destruct (ext_trace _ _ E3) as [t3 Ht3].
    rewrite Ht1 in Ht, Hu, Hcr.
    exists t1, st, sd, cr, (w_utcnow w (trace s ++ t1)), cid, ent, t3. cbv zeta.
    split; [rewrite Ht3, Ht, <- !app_assoc; reflexivity|].
    split; [exact Hu|]. split; [|exact He].
    rewrite <- Hcr. f_equal. now rewrite <- app_assoc.
  - intros Hdry Hnone Hnc Hns.
    assert (Hnone2 : nara_to_pi s2 !! PyStr.str_of_int f = None).
    { rewrite F2 by set_solver. rewrite F1 by set_solver. exact Hnone. }
    assert (Hdry2 : dry_run s2 = false).
    { rewrite (ext_dry_run _ _ E2), (ext_dry_run _ _ E1). exact Hdry. }
    destruct (import_fileunit_calls _ _ _ _ _ _ _ _ _ _ _ _ _ _ _ Hdry2 Hnone2 Rf)
      as (cid & ent & after & Ht & Hu & Hcr & He).
    cbv zeta in Ht, Hu, Hcr. rewrite L2 in Ht, Hcr.
    destruct (ext_trace _ _ (extends_trans _ _ _ E1 E2)) as [t2 Ht2].
    rewrite Ht2 in Ht, Hu, Hcr.
    eexists t2, title, _, (Z.of_nat (length objs)), _, ft, pl, _,
      (w_utcnow w (trace s ++ t2)), cid, ent, after.
    cbv zeta.
    split; [rewrite Ht, <- !app_assoc; reflexivity|].
    split; [exact Hu|]. split; [|exact He].
    rewrite <- Hcr. f_equal. now rewrite <- app_assoc.
Qed.

Lemma import_record_links_hierarchy_witness :
  let record := [("naId", JInt 23902919); ("title", JStr "Folder");
                 ("ancestors",
                  JList [JDict [("levelOfDescription", JStr "collection");
                                ("naId", JInt 7388842);
                                ("title", JStr "Collection")];
                         JDict [("levelOfDescription", JStr "series");
                                ("naId", JInt 7585787);
                                ("title", JStr "Series")]])] in
  let s' := snd (import_record (test_world []) record
                   (NARAImporter "WJC-NSCSW" false None None)) in
  exists c_pi s_pi,
    nara_to_pi s' !! "7388842" = Some c_pi
    /\ nara_to_pi s' !! "7585787" = Some s_pi
    /\ nara_to_pi s' !! "23902919" = Some "PI5"
    /\ (exists before contents text after,
          trace s' = before ++ CreateEntity contents (Some c_pi) text :: after)
    /\ (exists before contents text after,
          trace s' = before ++ CreateEntity contents (Some s_pi) text :: after).
Proof.
  intros record s'.
  destruct (import_record_links_hierarchy (test_world []) record
              (NARAImporter "WJC-NSCSW" false None None) "PI5" s')
    as (h & c & sr & f & c_pi & s_pi & Hh & Hc & Hsr & Hf & L1 & L2 & L3 & S & F).
  - vm_compute. reflexivity.
  - assert (E : extract_hierarchy_info record
                = Returns (mk_hierarchy
                    (JDict [("naId", JInt 7388842); ("title", JStr "Collection");
                            ("collection_identifier", JNull);
                            ("date_range", JDict [("start", JStr EmptyString);
                                                  ("end", JStr EmptyString)])])
                    (JDict [("naId", JInt 7585787); ("title", JStr "Series");
                            ("creators", JList []);
                            ("date_range", JDict [("start", JStr EmptyString);
                                                  ("end", JStr EmptyString)])])))
      by reflexivity.
    rewrite E in Hh. injection Hh as <-.
    injection Hc as <-. injection Hsr as <-. injection Hf as <-.
    exists c_pi, s_pi.
    assert (E1 : PyStr.str_of_int 7388842 = "7388842") by (vm_compute; reflexivity).
    assert (E2 : PyStr.str_of_int 7585787 = "7585787") by (vm_compute; reflexivity).
    assert (E3 : PyStr.str_of_int 23902919 = "23902919") by (vm_compute; reflexivity).
    rewrite E1 in L1. rewrite E2 in L2. rewrite E3 in L3.
    split; [exact L1|]. split; [exact L2|]. split; [exact L3|].
    assert (N1 : PyStr.str_of_int 7585787 <> PyStr.str_of_int 7388842)
      by (rewrite E1, E2; discriminate).
    assert (N2 : PyStr.str_of_int 23902919 <> PyStr.str_of_int 7388842)
      by (rewrite E1, E3; discriminate).
    assert (N3 : PyStr.str_of_int 23902919 <> PyStr.str_of_int 7585787)
      by (rewrite E2, E3; discriminate).
    assert (U1 : nara_to_pi (NARAImporter "WJC-NSCSW" false None None)
                 !! PyStr.str_of_int 7585787 = None)
      by (rewrite E2; vm_compute; reflexivity).
    assert (U2 : nara_to_pi (NARAImporter "WJC-NSCSW" false None None)
                 !! PyStr.str_of_int 23902919 = None)
      by (rewrite E3; vm_compute; reflexivity).
    clearbody s'. split.
    + destruct (S eq_refl U1 N1)
        as (before & title & dates & creators & now & cid & ent & after
            & Ht & _).
      cbv zeta in Ht.
      change (trace (NARAImporter "WJC-NSCSW" false None None)) with (@nil call) in Ht.
      rewrite app_nil_l in Ht.
      match type of Ht with
      | _ = _ ++ ?u :: CreateEntity ?c _ ?x :: _ =>
          exists (before ++ [u]), c, x, after
      end.
      rewrite Ht, <- app_assoc. reflexivity.
    + destruct (F eq_refl U2 N2 N3)
        as (before & title & types & count & access & foia & location & others
            & now & cid & ent & after & Ht & _).
      cbv zeta in Ht.
      change (trace (NARAImporter "WJC-NSCSW" false None None)) with (@nil call) in Ht.
      rewrite app_nil_l in Ht.
      match type of Ht with
      | _ = _ ++ ?u :: CreateEntity ?c _ ?x :: _ =>
          exists (before ++ [u]), c, x, after
      end.
      rewrite Ht, <- app_assoc. reflexivity.
Defined.

Lemma scan_ancestors_app l1 : forall l2 h,
  scan_ancestors (l1 ++ l2) h = and_then (scan_ancestors l1 h) (scan_ancestors l2).
Proof.
  induction l1 as [|a l1 IH]; intros l2 h; [reflexivity|].
  cbn [app scan_ancestors]. destruct a as [| | | | |d]; try reflexivity.
  destruct (field_is d "levelOfDescription" "collection").
  - destruct (collection_info_of d); [|reflexivity]. cbn [and_then]. apply IH.
  - destruct (field_is d "levelOfDescription" "series"); [|apply IH].
    destruct (series_info_of d); [|reflexivity]. cbn [and_then]. apply IH.
Qed.

(** X24: when a record lists several ancestors of the collection level,
    or of the series level, [extract_hierarchy_info] keeps the last one of
    each: the entry it returns for a level is built from the last ancestor
    of that level alone, whatever stands before it, and ancestors of any
    other level change nothing. *)
Theorem extract_last_ancestor_wins (record : list (string * json))
    (before after : list json) (a : list (string * json)) (h : hierarchy) :
  dict_get "ancestors" record = Some (JList (before ++ JDict a :: after)) ->
  extract_hierarchy_info record = Returns h ->
  (field_is a "levelOfDescription" "collection" = true ->
   has_ancestor [("ancestors", JList after)] "collection" = false ->
   collection_info_of a = Returns (h_collection h))
  /\ (field_is a "levelOfDescription" "series" = true ->
      has_ancestor [("ancestors", JList after)] "series" = false ->
      series_info_of a = Returns (h_series h)).
Proof.
  intros Ha H. unfold extract_hierarchy_info in H. rewrite Ha in H.
  cbn [default from_option id iterate and_then] in H.
  rewrite scan_ancestors_app in H.
  destruct (scan_ancestors before _) as [h1|] eqn:H1; [|discriminate].
  cbn [and_then scan_ancestors] in H.
  split; intros Hl Hno; cbn in Hno.
  - rewrite Hl in H.
    destruct (collection_info_of a) as [ci|]; [|discriminate]. cbn [and_then] in H.
    now rewrite (scan_keeps_collection _ _ _ H Hno).
  - destruct (field_is a "levelOfDescription" "collection") eqn:Hc.
    { unfold field_is in Hl, Hc.
      destruct (dict_get "levelOfDescription" a) as [[| | |lv| |]|]; try discriminate.
      apply String.eqb_eq in Hl, Hc. congruence. }
    rewrite Hl in H.
    destruct (series_info_of a) as [si|]; [|discriminate]. cbn [and_then] in H.
    now rewrite (scan_keeps_series _ _ _ H Hno).
Qed.

Lemma extract_last_ancestor_wins_witness :
  let first := [("levelOfDescription", JStr "series"); ("naId", JInt 1);
                ("title", JStr "First")] in
  let last := [("levelOfDescription", JStr "series"); ("naId", JInt 2);
               ("title", JStr "Last")] in
  let record := [("naId", JInt 3); ("ancestors", JList [JDict first; JDict last])] in
  exists h, extract_hierarchy_info record = Returns h
            /\ series_info_of last = Returns (h_series h)
            /\ dict_get "naId" (match h_series h with JDict d => d | _ => [] end)
               = Some (JInt 2).
Proof.
  intros first last record.
  destruct (extract_hierarchy_info record) as [h|] eqn:H; [|discriminate].
  exists h. split; [reflexivity|].
  destruct (extract_last_ancestor_wins record [JDict first] [] last h eq_refl H)
    as [_ Hs].
  specialize (Hs eq_refl eq_refl). split; [exact Hs|].
  injection Hs as <-. reflexivity.
Defined.

End DriverFacts.

Module LimitedRunFacts.
Import Json Importer Driver LimitedRun ImporterFacts ImporterInvariants DriverFacts.

Lemma import_fileunit_counts_once w naid ser col title rt objs ar ft pl ot fm s r s' :
  import_fileunit w naid ser col title rt objs ar ft pl ot fm s = (r, s') ->
  fileunits_created (stats_of s) <= fileunits_created (stats_of s')
  <= fileunits_created (stats_of s) + 1.
Proof.
  unfold import_fileunit. intros H. unfold_monad.
  repeat (case_match; simplify_eq/=);
    try match goal with
      | H : import_objects _ _ _ _ _ = _ |- _ =>
          apply import_objects_asset in H;
          destruct H as [(_ & _ & _ & _ & _ & F) _]; simpl in F; rewrite F
      end;
    lia.
Qed.

Lemma import_record_counts_once w record s o s' :
  import_record w record s = (o, s') ->
  fileunits_created (stats_of s) <= fileunits_created (stats_of s')
  <= fileunits_created (stats_of s) + match o with Returns _ => 1 | Raises _ => 0 end.
Proof.
  unfold import_record, seq, pure, invoke, and_then, as_int, as_text. intros H.
  repeat (case_match; simplify_eq/=);
    repeat match goal with
      | H : import_collection ?w ?c ?ct ?cd ?fm ?s0 = _ |- _ =>
          apply (run_frame w (Collection c ct cd fm)) in H;
          destruct H as [_ (_ & _ & _ & ? & _)]
      | H : import_series ?w ?n ?p ?st ?sd ?cr ?fm ?s0 = _ |- _ =>
          apply (run_frame w (Series n p st sd cr fm)) in H;
          destruct H as [_ (_ & _ & _ & ? & _)]
      | H : import_fileunit ?w ?n ?p ?c ?ti ?rt ?ob ?ar ?ft ?pl ?ot ?fm ?s0
            = (Ok _, _) |- _ =>
          apply import_fileunit_counts_once in H
      | H : import_fileunit ?w ?n ?p ?c ?ti ?rt ?ob ?ar ?ft ?pl ?ot ?fm ?s0
            = (Raise _, _) |- _ =>
          apply (run_raises_unrecorded w (Fileunit n p c ti rt ob ar ft pl ot fm)) in H;
          destruct H as (_ & _ & _ & _ & _ & ? & _)
      end;
    lia.
Qed.

Lemma import_record_extends w record s o s' :
  import_record w record s = (o, s') -> extends s s'.
Proof.
  unfold import_record, seq, pure, invoke, and_then, as_int, as_text. intros H.
  repeat (case_match; simplify_eq/=);
    repeat match goal with
      | H : import_collection _ _ _ _ _ _ = _ |- _ =>
          apply import_collection_extends in H
      | H : import_series _ _ _ _ _ _ _ _ = _ |- _ =>
          apply import_series_extends in H
      | H : import_fileunit _ _ _ _ _ _ _ _ _ _ _ _ _ = _ |- _ =>
          apply import_fileunit_extends in H
      end;
    eauto using extends_refl, extends_trans.
Qed.

Lemma records_loop_at_limit w now file_num start_idx records : forall i st,
  MAX_FILE_UNITS <= total_records_processed st ->
  records_loop w now file_num start_idx i records st = st.
Proof.
  destruct records as [|record rest]; intros i st H; [reflexivity|].
  cbn [records_loop]. destruct (Z.leb_spec MAX_FILE_UNITS (total_records_processed st));
    [reflexivity|lia].
Qed.

Lemma records_loop_bounded w now file_num start_idx base records : forall i st,
  0 <= total_records_processed st <= MAX_FILE_UNITS ->
  fileunits_created (stats_of base)
  <= fileunits_created (stats_of (the_importer st))
  <= fileunits_created (stats_of base) + total_records_processed st ->
  extends base (the_importer st) ->
  let st' := records_loop w now file_num start_idx i records st in
  0 <= total_records_processed st' <= MAX_FILE_UNITS
  /\ fileunits_created (stats_of base)
     <= fileunits_created (stats_of (the_importer st'))
     <= fileunits_created (stats_of base) + total_records_processed st'
  /\ extends base (the_importer st').
Proof.
  induction records as [|record rest IH]; intros i st Ht Hf He; [now cbn|].
  cbn [records_loop].
  destruct (Z.leb_spec MAX_FILE_UNITS (total_records_processed st)); [now cbn|].
  destruct (i <? start_idx); [now apply IH|].
  destruct (import_record w record (the_importer st)) as [[pi|r] imp] eqn:Hr;
    pose proof (import_record_counts_once _ _ _ _ _ Hr) as Hc; cbv beta iota in Hc;
    pose proof (import_record_extends _ _ _ _ _ Hr) as Hx;
    apply IH; cbn [total_records_processed the_importer];
    eauto using extends_trans; lia.
Qed.

Lemma files_loop_bounded w download now base file_nums : forall start_file start_idx st,
  0 <= total_records_processed st <= MAX_FILE_UNITS ->
  fileunits_created (stats_of base)
  <= fileunits_created (stats_of (the_importer st))
  <= fileunits_created (stats_of base) + total_records_processed st ->
  extends base (the_importer st) ->
  let st' := files_loop w download now start_file start_idx file_nums st in
  0 <= total_records_processed st' <= MAX_FILE_UNITS
  /\ fileunits_created (stats_of base)
     <= fileunits_created (stats_of (the_importer st'))
     <= fileunits_created (stats_of base) + total_records_processed st'
  /\ extends base (the_importer st').
Proof.
  induction file_nums as [|file_num rest IH]; intros start_file start_idx st Ht Hf He;
    [now cbn|].
  cbn [files_loop].
  destruct (Z.leb_spec MAX_FILE_UNITS (total_records_processed st)); [now cbn|].
  destruct (download file_num) as [|record records]; [now apply IH|].
  destruct (records_loop_bounded w now file_num
              (if file_num =? start_file then start_idx else 0) base
              (record :: records) 0 st Ht Hf He) as (Ht1 & Hf1 & He1).
  cbv zeta.
  destruct (Z.leb_spec MAX_FILE_UNITS
              (total_records_processed
                 (records_loop w now file_num
                    (if file_num =? start_file then start_idx else 0) 0
                    (record :: records) st))); [now cbn|].
  now apply IH.
Qed.

(** X25: the loops of the limited driver never go over the limit. Against
    any store and network, from any start position, and for any feed whose
    records list their digital objects as dictionaries (the feed the model
    of [import_record] covers), the number of records counted as processed
    stays between 0 and [MAX_FILE_UNITS]; the file units created are no
    more than the records counted, because a record whose import fails
    creates no file unit and is not counted; so one run creates at most 300
    file units. The importer the loops leave extends the one they started
    from: nothing recorded is lost. *)
Theorem limited_run_bounded (w : world)
    (download : Z -> list (list (string * json))) (now : importer -> string)
    (start_file start_record_index : Z) (imp : importer) (file : Checkpoint.file) :
  (forall file_num record,
      In record (download file_num) -> typed_objects record = true) ->
  let st := main_loop w download now start_file start_record_index imp file in
  0 <= total_records_processed st <= MAX_FILE_UNITS
  /\ fileunits_created (stats_of imp)
     <= fileunits_created (stats_of (the_importer st))
     <= fileunits_created (stats_of imp) + total_records_processed st
  /\ fileunits_created (stats_of (the_importer st))
     <= fileunits_created (stats_of imp) + 300
  /\ extends imp (the_importer st).
Proof.
  intros _. unfold main_loop. cbv zeta.
  pose proof (files_loop_bounded w download now imp
                (seqZ start_file (TOTAL_JSONL_FILES + 1 - start_file))
                start_file start_record_index (mk_run 0 imp file)) as H.
  cbv zeta in H. cbn [total_records_processed the_importer] in H.
  destruct H as (Ht & Hf & He);
    [unfold MAX_FILE_UNITS; lia|lia|apply extends_refl|].
  unfold MAX_FILE_UNITS in Ht.
  split; [exact Ht|]. split; [exact Hf|]. split; [lia|exact He].
Qed.

Lemma limited_run_bounded_witness :
  let record := [("naId", JInt 23902919); ("title", JStr "Folder");
                 ("digitalObjects", JList [JDict (Scenarios.asset "101")]);
                 ("ancestors",
                  JList [JDict [("levelOfDescription", JStr "collection");
                                ("naId", JInt 7388842);
                                ("title", JStr "Collection")];
                         JDict [("levelOfDescription", JStr "series");
                                ("naId", JInt 7585787);
                                ("title", JStr "Series")]])] in
  let download := fun file_num : Z => if file_num =? 1 then [record] else [] in
  let imp := NARAImporter "WJC-NSCSW" false None None in
  let st := main_loop (Scenarios.test_world []) download
              (fun _ => "2025-01-01T00:00:00") 1 0 imp None in
  0 <= total_records_processed st <= MAX_FILE_UNITS
  /\ fileunits_created (stats_of (the_importer st)) <= 300.
Proof.
  intros record download imp st.
  destruct (limited_run_bounded (Scenarios.test_world []) download
              (fun _ => "2025-01-01T00:00:00") 1 0 imp None)
    as (Ht & _ & Hf & _).
  - intros file_num r. unfold download.
    destruct (file_num =? 1); [|intros []].
    intros [<-|[]]. reflexivity.
  - split; [exact Ht|exact Hf].
Defined.

Lemma records_loop_skips w now file_num start_idx skipped rest : forall i st,
  i + Z.of_nat (length skipped) <= start_idx ->
  records_loop w now file_num start_idx i (skipped ++ rest) st
  = records_loop w now file_num start_idx (i + Z.of_nat (length skipped)) rest st.
Proof.
  induction skipped as [|record skipped IH]; intros i st Hi.
  - cbn [app length]. now rewrite Z.add_0_r.
  - cbn [app records_loop].
    destruct (Z.leb_spec MAX_FILE_UNITS (total_records_processed st)).
    + now rewrite records_loop_at_limit.
    + cbn [length] in Hi. destruct (Z.ltb_spec i start_idx); [|lia].
      rewrite IH by lia. f_equal. cbn [length]. lia.
Qed.

(** X26: a resumed run skips what the checkpoint says is done. In the
    shard it resumes in, the records before the start index are passed
    over without a call to [import_record]: the loop gives the same result
    whatever those records are, the result of importing the records from
    the start index on, numbered from that index. *)
Theorem resume_skips_done_records (w : world) (now : importer -> string)
    (file_num start_idx : Z) (skipped skipped' rest : list (list (string * json)))
    (st : run_state) :
  Z.of_nat (length skipped) = start_idx ->
  length skipped' = length skipped ->
  records_loop w now file_num start_idx 0 (skipped ++ rest) st
  = records_loop w now file_num start_idx start_idx rest st
  /\ records_loop w now file_num start_idx 0 (skipped ++ rest) st
     = records_loop w now file_num start_idx 0 (skipped' ++ rest) st.
Proof.
  intros Hlen Hlen'.
  rewrite !records_loop_skips by lia. rewrite Hlen', Hlen. now rewrite Z.add_0_l.
Qed.

Lemma resume_skips_done_records_witness :
  let done := [("naId", JInt 1)] in
  let other := [("naId", JInt 2)] in
  let st := mk_run 0 (NARAImporter "WJC-NSCSW" false None None) None in
  let loop := records_loop Scenarios.refusing_world (fun _ => "2025-01-01T00:00:00") 3 1 in
  loop 0 ([done] ++ []) st = loop 1 [] st
  /\ loop 0 ([done] ++ []) st = loop 0 ([other] ++ []) st.
Proof.
  intros done other st loop.
  apply (resume_skips_done_records Scenarios.refusing_world
           (fun _ => "2025-01-01T00:00:00") 3 1 [done] [other] [] st);
    reflexivity.
Defined.

End LimitedRunFacts.

Module CreationFacts.
Import Json Client Importer Scenarios ImporterFacts ImporterInvariants.




End CreationFacts.
